(** * CineBooker: the booking, check-in, session, approval and catalogue
      handlers of the web client, embedded as functions over an explicit
      record store, and the properties the specification states of them.

    Conventions of the embedding.
    - The data-access gateway ([blink.db.<collection>]) is a record store:
      each collection is the list of its rows, [list] filters it by an
      equality predicate, [create] appends a row and [update] patches the
      rows carrying the given id.  Calls to the store succeed; the
      exceptions of the model are the ones JavaScript itself raises
      (JSON.parse on text that is no JSON, a property read on null).
    - An async handler is a function from the state before to an outcome
      and the state after ([Async]); [await]ed calls are sequenced by
      [bind], a [try]/[catch]/[finally] block by [try_catch] and
      [try_catch_finally].
    - JavaScript numbers are IEEE 754 binary64 values.  Prices and totals
      are kept as such ([float], with the kernel's addition), so that a
      total is what the page computes, rounding included; row numbers,
      counts and clock readings in milliseconds are whole numbers far
      below 2^53 and are kept as integers.
    - A string holds its text in UTF-8, one byte per [ascii]: equality,
      substring search and splitting at an ASCII character are then those
      of the text, and [trim] strips the white space of ECMAScript by its
      byte sequences. *)

From Stdlib Require Import String Ascii List ZArith NArith Bool Lia.
From Stdlib Require Import DecimalString DecimalN Permutation PrimFloat.
Import ListNotations.
Open Scope string_scope.
Open Scope list_scope.

(* ===================================================================== *)
(** ** JavaScript values and built-ins the handlers rely on *)
(* ===================================================================== *)

Module JS.

(** [s.includes(t)] on strings: [t] occurs in [s] as a contiguous run. *)
Fixpoint includes (s t : string) : bool :=
  if String.prefix t s then true
  else match s with
       | EmptyString => false
       | String _ s' => includes s' t
       end.

(** [String.prototype.toLowerCase] is the engine's Unicode case
    conversion: it is not a letter-by-letter table that could be written
    out here, so the handlers take it as given.  All that is used of it
    is that the empty string has nothing to convert. *)
Record CaseConversion := mkCaseConversion {
  toLowerCase : string -> string;
  toLowerCase_empty : toLowerCase "" = ""
}.

(** An instance, for the samples: the conversion of the letters A to Z,
    which is what the engine's conversion does on text that holds no
    other letter (the sample titles and queries are such text). *)
Definition lower_ascii (c : ascii) : ascii :=
  let n := nat_of_ascii c in
  if (65 <=? n)%nat && (n <=? 90)%nat then ascii_of_nat (n + 32) else c.

Fixpoint lower_ascii_text (s : string) : string :=
  match s with
  | EmptyString => EmptyString
  | String c s' => String (lower_ascii c) (lower_ascii_text s')
  end.

Definition ascii_letters : CaseConversion :=
  mkCaseConversion lower_ascii_text eq_refl.

(** White space as [trim] sees it: the WhiteSpace and LineTerminator code
    points of ECMAScript, each by its UTF-8 bytes.
    - one byte: U+0009 to U+000D (tab, line feed, vertical tab, form feed,
      carriage return) and U+0020 (space); *)
Definition is_space (c : ascii) : bool :=
  match nat_of_ascii c with
  | 9%nat | 10%nat | 11%nat | 12%nat | 13%nat | 32%nat => true
  | _ => false
  end.

(** - two bytes: U+00A0 (no-break space) is C2 A0; *)
Definition is_space2 (c1 c2 : ascii) : bool :=
  (N_of_ascii c1 =? 194)%N && (N_of_ascii c2 =? 160)%N.

(** - three bytes: U+1680 is E1 9A 80; U+2000 to U+200A are E2 80 80 to
      E2 80 8A; U+2028, U+2029 and U+202F are E2 80 A8, E2 80 A9 and
      E2 80 AF; U+205F is E2 81 9F; U+3000 is E3 80 80; U+FEFF (the byte
      order mark) is EF BB BF. *)
Definition is_space3 (c1 c2 c3 : ascii) : bool :=
  let b1 := N_of_ascii c1 in
  let b2 := N_of_ascii c2 in
  let b3 := N_of_ascii c3 in
  ((b1 =? 225) && (b2 =? 154) && (b3 =? 128)
   || (b1 =? 226) && (b2 =? 128)
      && ((128 <=? b3) && (b3 <=? 138)
          || (b3 =? 168) || (b3 =? 169) || (b3 =? 175))
   || (b1 =? 226) && (b2 =? 129) && (b3 =? 159)
   || (b1 =? 227) && (b2 =? 128) && (b3 =? 128)
   || (b1 =? 239) && (b2 =? 187) && (b3 =? 191))%N.

(** Drops the white space a text starts with.  [backwards] is set when
    the text is read from its end, last byte first. *)
Fixpoint strip (backwards : bool) (s : string) : string :=
  match s with
  | EmptyString => s
  | String c1 s1 =>
      if is_space c1 then strip backwards s1
      else
        match s1 with
        | EmptyString => s
        | String c2 s2 =>
            if (if backwards then is_space2 c2 c1 else is_space2 c1 c2)
            then strip backwards s2
            else
              match s2 with
              | EmptyString => s
              | String c3 s3 =>
                  if (if backwards then is_space3 c3 c2 c1
                      else is_space3 c1 c2 c3)
                  then strip backwards s3
                  else s
              end
        end
  end.

(** The text read from its end. *)
Fixpoint reverse (s : string) : string :=
  match s with
  | EmptyString => EmptyString
  | String c s' => (reverse s' ++ String c EmptyString)%string
  end.

Definition trimStart (s : string) : string := strip false s.

Definition trimEnd (s : string) : string := reverse (strip true (reverse s)).

Definition trim (s : string) : string := trimEnd (trimStart s).

(** [s.split(sep)[0]]: the text before the first [sep] (all of [s] when
    [sep] does not occur). *)
Fixpoint split_first (sep : ascii) (s : string) : string :=
  match s with
  | EmptyString => EmptyString
  | String c s' =>
      if Ascii.eqb c sep then EmptyString else String c (split_first sep s')
  end.

(** A number in a template literal: its decimal digits. *)
Definition show (n : N) : string := NilEmpty.string_of_uint (N.to_uint n).

(** [Number(s)] for the text of a row number.  The empty text is 0 and a
    run of decimal digits is its value, which is all the seat grid
    produces; [None] is NaN.  The other spellings of a number (a sign, a
    fraction, an exponent, blanks around it) are not told apart from text
    that is no number. *)
Definition Number (s : string) : option Z :=
  match s with
  | EmptyString => Some 0%Z
  | _ => match NilEmpty.uint_of_string s with
         | Some d => Some (Z.of_N (N.of_uint d))
         | None => None
         end
  end.

(** [Number(b)] on a boolean. *)
Definition Number_of_bool (b : bool) : Z := if b then 1%Z else 0%Z.

(** [xs.includes(x)] on an array of strings. *)
Definition includes_str (xs : list string) (x : string) : bool :=
  existsb (String.eqb x) xs.

(** [xs.includes(x)] on an array of numbers; NaN is in no array that
    JSON.parse can produce. *)
Definition includes_num (xs : list Z) (x : option Z) : bool :=
  match x with
  | Some z => existsb (Z.eqb z) xs
  | None => false
  end.

Inductive Exn := TypeError | SyntaxError.

End JS.

(* ===================================================================== *)
(** ** Handlers as state-and-exception computations *)
(* ===================================================================== *)

Inductive outcome (A : Type) : Type :=
| Returned (a : A)
| Thrown (e : JS.Exn).
Arguments Returned {A} a.
Arguments Thrown {A} e.

Definition Async (S A : Type) : Type := S -> outcome A * S.

Definition ret {S A : Type} (a : A) : Async S A := fun s => (Returned a, s).

Definition throw {S A : Type} (e : JS.Exn) : Async S A :=
  fun s => (Thrown e, s).

Definition bind {S A B : Type} (m : Async S A) (k : A -> Async S B)
  : Async S B :=
  fun s => match m s with
           | (Returned a, s') => k a s'
           | (Thrown e, s') => (Thrown e, s')
           end.

Notation "x <- m ;; k" := (bind m (fun x => k))
  (at level 61, m at next level, right associativity).
Notation "m ;; k" := (bind m (fun _ => k))
  (at level 61, right associativity).

(** [try { body } catch (error) { handler }]. *)
Definition try_catch {S : Type} (body : Async S unit)
    (handler : JS.Exn -> Async S unit) : Async S unit :=
  fun s => match body s with
           | (Returned a, s') => (Returned a, s')
           | (Thrown e, s') => handler e s'
           end.

(** [try { body } catch (error) { handler } finally { fin }]. *)
Definition try_catch_finally {S : Type} (body : Async S unit)
    (handler : JS.Exn -> Async S unit) (fin : Async S unit) : Async S unit :=
  fun s => match try_catch body handler s with
           | (Returned _, s') => fin s'
           | (Thrown e, s') =>
               match fin s' with
               | (Returned _, s'') => (Thrown e, s'')
               | (Thrown e', s'') => (Thrown e', s'')
               end
           end.

(** [xs.forEach(x => ...)] around a mutable accumulator. *)
Fixpoint forEach {S A B : Type} (xs : list A) (body : B -> A -> Async S B)
    (acc : B) : Async S B :=
  match xs with
  | [] => ret acc
  | x :: xs' => acc' <- body acc x ;; forEach xs' body acc'
  end.

(** The state after a handler has run. *)
Definition exec {S A : Type} (m : Async S A) (s : S) : S := snd (m s).

(* ===================================================================== *)
(** ** Record collections *)
(* ===================================================================== *)

(** The [seats] column is a string (interface [Booking]).  The model keeps
    of that string what the handlers observe: whether it is empty, and
    what JSON.parse makes of it. *)
Inductive SeatsText : Type :=
| EmptyText                       (* the empty string, falsy *)
| ArrayText (seats : list string) (* JSON.stringify(seats) *)
| OtherText.                      (* text that JSON.parse rejects *)

Definition JSON_stringify (seats : list string) : SeatsText := ArrayText seats.

Definition JSON_parse {S : Type} (t : SeatsText) : Async S (list string) :=
  match t with
  | ArrayText seats => ret seats
  | EmptyText | OtherText => throw JS.SyntaxError
  end.

Definition truthy (t : SeatsText) : bool :=
  match t with
  | EmptyText => false
  | ArrayText _ | OtherText => true
  end.

Inductive Role := customer | theater_admin | platform_owner.

Module User.
Record t := mk {
  id : string;
  email : string;
  name : string;
  role : Role;
  theater_id : option string
}.
End User.

Inductive MovieStatus := now_showing | coming_soon.

Module Movie.
Record t := mk {
  id : string;
  title : string;
  description : string;
  poster_url : string;
  duration : Z;
  language : string;
  genre : string;
  rating : string;
  status : MovieStatus;
  release_date : string
}.
End Movie.

Module Theater.
Record t := mk {
  id : string;
  name : string;
  location : string;
  city : string;
  status : string;
  created_at : N
}.

Definition with_status (s : string) (r : t) : t :=
  mk (id r) (name r) (location r) (city r) s (created_at r).
End Theater.

Module Showtime.
Record t := mk {
  id : string;
  movie_id : string;
  screen_id : string;
  theater_id : string;
  show_date : string;
  show_time : string;
  price_regular : float;
  price_gold : float;
  price_platinum : float;
  available_seats : Z;
  total_seats : Z
}.
End Showtime.

Module Booking.
Record t := mk {
  id : string;
  user_id : string;
  showtime_id : string;
  seats : SeatsText;
  total_amount : float;
  booking_status : string;
  payment_status : string;
  qr_code : string;
  checked_in : bool;
  check_in_time : option N
}.

(** The patch [{ checked_in: true, check_in_time: <instant> }]; the
    instant stands for its ISO rendering. *)
Definition check_in (now : N) (r : t) : t :=
  mk (id r) (user_id r) (showtime_id r) (seats r) (total_amount r)
     (booking_status r) (payment_status r) (qr_code r) true (Some now).
End Booking.

(** The principal the identity provider reports ([blink.auth.me()]). *)
Module Principal.
Record t := mk {
  id : string;
  email : string;
  displayName : option string
}.
End Principal.

(** What a handler shows or does outside the store. *)
Inductive Effect : Type :=
| Toast (title description : string) (destructive : bool)
| Navigate (path : string)
| ConsoleError (message : string).

Record World := mkWorld {
  db_users : list User.t;
  db_movies : list Movie.t;
  db_theaters : list Theater.t;
  db_showtimes : list Showtime.t;
  db_bookings : list Booking.t;
  me : option Principal.t;
  clock : nat -> N;
  ticks : nat;
  effects : list Effect
}.

Module Db.

(** [orderBy: { created_at: 'desc' }], by insertion. *)
Fixpoint insert_desc {R : Type} (key : R -> N) (r : R) (rows : list R)
  : list R :=
  match rows with
  | [] => [r]
  | r' :: rest =>
      if (key r' <? key r)%N then r :: rows
      else r' :: insert_desc key r rest
  end.

Definition order_desc {R : Type} (key : R -> N) (rows : list R) : list R :=
  fold_right (insert_desc key) [] rows.

(** [collection.list({ where, orderBy, limit })]: the rows that satisfy
    the equality filter, ordered when an order is asked for, at most
    [limit] of them. *)
Definition list_where {R : Type} (where_ : R -> bool)
    (orderBy : option (R -> N)) (limit : option nat) (rows : list R)
  : list R :=
  let found := filter where_ rows in
  let ordered := match orderBy with
                 | Some key => order_desc key found
                 | None => found
                 end in
  match limit with
  | Some n => firstn n ordered
  | None => ordered
  end.

(** [collection.update(id, patch)]. *)
Definition update {R : Type} (id_of : R -> string) (id : string)
    (patch : R -> R) (rows : list R) : list R :=
  map (fun r => if id_of r =? id then patch r else r) rows.

(** [collection.create(row)]. *)
Definition create {R : Type} (row : R) (rows : list R) : list R :=
  rows ++ [row].

End Db.

Definition set_users (v : list User.t) (w : World) : World :=
  mkWorld v (db_movies w) (db_theaters w) (db_showtimes w) (db_bookings w)
          (me w) (clock w) (ticks w) (effects w).

Definition set_theaters (v : list Theater.t) (w : World) : World :=
  mkWorld (db_users w) (db_movies w) v (db_showtimes w) (db_bookings w)
          (me w) (clock w) (ticks w) (effects w).

Definition set_bookings (v : list Booking.t) (w : World) : World :=
  mkWorld (db_users w) (db_movies w) (db_theaters w) (db_showtimes w) v
          (me w) (clock w) (ticks w) (effects w).

Definition emit (e : Effect) (w : World) : World :=
  mkWorld (db_users w) (db_movies w) (db_theaters w) (db_showtimes w)
          (db_bookings w) (me w) (clock w) (ticks w) (effects w ++ [e]).

Definition tick (w : World) : World :=
  mkWorld (db_users w) (db_movies w) (db_theaters w) (db_showtimes w)
          (db_bookings w) (me w) (clock w) (S (ticks w)) (effects w).

(** A component runs against the world and its own React state. *)
Section Component.
Context {C : Type}.

Definition getWorld : Async (World * C) World :=
  fun s => (Returned (fst s), s).

Definition modifyWorld (f : World -> World) : Async (World * C) unit :=
  fun s => (Returned tt, (f (fst s), snd s)).

Definition getState : Async (World * C) C :=
  fun s => (Returned (snd s), s).

Definition setState (f : C -> C) : Async (World * C) unit :=
  fun s => (Returned tt, (fst s, f (snd s))).

Definition toast (title description : string) (destructive : bool)
  : Async (World * C) unit :=
  modifyWorld (emit (Toast title description destructive)).

Definition navigate (path : string) : Async (World * C) unit :=
  modifyWorld (emit (Navigate path)).

Definition console_error (message : string) : Async (World * C) unit :=
  modifyWorld (emit (ConsoleError message)).

(** [Date.now()]: the next reading of the clock. *)
Definition Date_now : Async (World * C) N :=
  w <- getWorld ;;
  modifyWorld tick ;;
  ret (clock w (ticks w)).

(** [blink.auth.me()]; [None] is the null of a signed-out session. *)
Definition auth_me : Async (World * C) (option Principal.t) :=
  w <- getWorld ;; ret (me w).

(** Reading a property of a value that may be null. *)
Definition deref {A : Type} (v : option A) : Async (World * C) A :=
  match v with
  | Some a => ret a
  | None => throw JS.TypeError
  end.

End Component.

(** [v || fallback] on a string that may be missing: the empty string and
    the missing one are both falsy. *)
Definition or_else (v : option string) (fallback : string) : string :=
  match v with
  | Some s => if s =? "" then fallback else s
  | None => fallback
  end.

(* ===================================================================== *)
(** ** src/pages/SeatSelection.tsx *)
(* ===================================================================== *)

Module SeatLayout.
Record t := mk {
  rows : nat;
  seatsPerRow : nat;
  premium : list Z;
  gold : list Z;
  regular : list Z
}.
End SeatLayout.

Module SeatSelection.

Inductive SeatType := premium | gold | regular.

(** The React state of the page that the handlers below read or set
    (the movie, theater and screen it also holds are display data). *)
Record State := mkState {
  showtime : option Showtime.t;
  seatLayout : option SeatLayout.t;
  selectedSeats : list string;
  occupiedSeats : list string;
  loading : bool
}.

Definition setSelectedSeats (v : list string) : Async (World * State) unit :=
  setState (fun st => mkState (showtime st) (seatLayout st) v
                              (occupiedSeats st) (loading st)).

Definition setOccupiedSeats (v : list string) : Async (World * State) unit :=
  setState (fun st => mkState (showtime st) (seatLayout st)
                              (selectedSeats st) v (loading st)).

Definition fetchOccupiedSeats (showtimeId : string)
  : Async (World * State) unit :=
  try_catch
    (w <- getWorld ;;
     let bookings :=
       Db.list_where
         (fun b => (Booking.showtime_id b =? showtimeId)
                   && (Booking.booking_status b =? "confirmed"))
         None None (db_bookings w) in
     occupied <-
       forEach bookings
         (fun occupied booking =>
            if truthy (Booking.seats booking) then
              seats <- JSON_parse (Booking.seats booking) ;;
              ret (occupied ++ seats)
            else ret occupied)
         [] ;;
     setOccupiedSeats occupied)
    (fun _ => console_error "Error fetching occupied seats:").

Definition getSeatType (st : State) (row : option Z) : SeatType :=
  match seatLayout st with
  | None => regular
  | Some seatLayout =>
      if JS.includes_num (SeatLayout.premium seatLayout) row then premium
      else if JS.includes_num (SeatLayout.gold seatLayout) row then gold
      else regular
  end.

Definition getSeatPrice (st : State) (seatType : SeatType) : float :=
  match showtime st with
  | None => 0%float
  | Some showtime =>
      match seatType with
      | premium => Showtime.price_platinum showtime
      | gold => Showtime.price_gold showtime
      | regular => Showtime.price_regular showtime
      end
  end.

Definition handleSeatClick (seatId : string) : Async (World * State) unit :=
  st <- getState ;;
  if JS.includes_str (occupiedSeats st) seatId then ret tt
  else if JS.includes_str (selectedSeats st) seatId then
    setSelectedSeats
      (filter (fun id => negb (id =? seatId)) (selectedSeats st))
  else if (length (selectedSeats st) <? 10)%nat then
    setSelectedSeats (selectedSeats st ++ [seatId])
  else
    toast "Limit Reached" "You can select maximum 10 seats" true.

(** [const [row] = seatId.split('-').map(Number)]. *)
Definition row_of (seatId : string) : option Z :=
  JS.Number (JS.split_first "-" seatId).

Definition calculateTotal (st : State) : float :=
  fold_left
    (fun total seatId =>
       let row := row_of seatId in
       let seatType := getSeatType st row in
       (total + getSeatPrice st seatType)%float)
    (selectedSeats st) 0%float.

Definition handleProceedToPayment (showtimeId : string)
  : Async (World * State) unit :=
  st <- getState ;;
  if (length (selectedSeats st) =? 0)%nat then
    toast "No Seats Selected" "Please select at least one seat" true
  else
    try_catch
      (user <- auth_me ;;
       let total := calculateTotal st in
       created <- Date_now ;;
       user <- deref user ;;
       issued <- Date_now ;;
       let booking :=
         Booking.mk ("booking_" ++ JS.show created)
                    (Principal.id user)
                    showtimeId
                    (JSON_stringify (selectedSeats st))
                    total
                    "confirmed"
                    "pending"
                    ("QR_" ++ JS.show issued ++ "_" ++ Principal.id user)
                    false
                    None in
       modifyWorld (fun w => set_bookings (Db.create booking (db_bookings w)) w) ;;
       toast "Booking Created" "Redirecting to payment..." false ;;
       navigate ("/booking/" ++ Booking.id booking))
      (fun _ =>
         console_error "Error creating booking:" ;;
         toast "Booking Failed" "Please try again" true).

(** The identifier the seat grid gives the button of seat [seat] in row
    [row]: [`${row}-${seat}`]. *)
Definition seatId (row seat : nat) : string :=
  JS.show (N.of_nat row) ++ "-" ++ JS.show (N.of_nat seat).

(** The buttons of the grid: rows 1..rows, seats 1..seatsPerRow. *)
Definition grid (l : SeatLayout.t) : list string :=
  flat_map (fun rowIndex =>
              map (fun seatIndex => seatId (rowIndex + 1) (seatIndex + 1))
                  (seq 0 (SeatLayout.seatsPerRow l)))
           (seq 0 (SeatLayout.rows l)).

(** The state the page starts in. *)
Definition initial : State := mkState None None [] [] true.

End SeatSelection.

(* ===================================================================== *)
(** ** The check-in console (CheckInInterface) *)
(* ===================================================================== *)

Module CheckInInterface.

Module Ticket.
Record t := mk {
  id : string;
  movie_title : string;
  theater_name : string;
  show_date : string;
  show_time : string;
  seats : list string;
  user_name : string
}.
End Ticket.

Record CheckInResult := mkResult {
  success : bool;
  booking : option Ticket.t;
  message : string
}.

Record State := mkState {
  qrCode : string;
  checkInResult : option CheckInResult;
  loading : bool
}.

Definition setCheckInResult (r : CheckInResult)
  : Async (World * State) unit :=
  setState (fun st => mkState (qrCode st) (Some r) (loading st)).

Definition setLoading (b : bool) : Async (World * State) unit :=
  setState (fun st => mkState (qrCode st) (checkInResult st) b).

Definition handleQRScan : Async (World * State) unit :=
  st <- getState ;;
  if JS.trim (qrCode st) =? "" then
    toast "Invalid QR Code" "Please enter a valid QR code" true
  else
    setLoading true ;;
    try_catch_finally
      (w <- getWorld ;;
       let bookings :=
         Db.list_where (fun b => Booking.qr_code b =? JS.trim (qrCode st))
                       None (Some 1%nat) (db_bookings w) in
       match bookings with
       | [] =>
           setCheckInResult
             (mkResult false None "Invalid QR code. Booking not found.")
       | booking :: _ =>
           if (0 <? JS.Number_of_bool (Booking.checked_in booking))%Z then
             setCheckInResult
               (mkResult false None
                  "This ticket has already been used for check-in.")
           else if negb (Booking.booking_status booking =? "confirmed") then
             setCheckInResult
               (mkResult false None "This booking is not confirmed.")
           else
             w <- getWorld ;;
             let showtimes :=
               Db.list_where
                 (fun s => Showtime.id s =? Booking.showtime_id booking)
                 None (Some 1%nat) (db_showtimes w) in
             let users :=
               Db.list_where
                 (fun u => User.id u =? Booking.user_id booking)
                 None (Some 1%nat) (db_users w) in
             match showtimes with
             | [] =>
                 setCheckInResult
                   (mkResult false None "Showtime not found.")
             | showtime :: _ =>
                 w <- getWorld ;;
                 let movies :=
                   Db.list_where
                     (fun m => Movie.id m =? Showtime.movie_id showtime)
                     None (Some 1%nat) (db_movies w) in
                 let theaters :=
                   Db.list_where
                     (fun t => Theater.id t =? Showtime.theater_id showtime)
                     None (Some 1%nat) (db_theaters w) in
                 now <- Date_now ;;
                 modifyWorld
                   (fun w =>
                      set_bookings
                        (Db.update Booking.id (Booking.id booking)
                                   (Booking.check_in now) (db_bookings w)) w) ;;
                 seats <- JSON_parse (Booking.seats booking) ;;
                 setCheckInResult
                   (mkResult true
                      (Some (Ticket.mk
                               (Booking.id booking)
                               (or_else (option_map Movie.title (hd_error movies))
                                        "Unknown Movie")
                               (or_else (option_map Theater.name (hd_error theaters))
                                        "Unknown Theater")
                               (Showtime.show_date showtime)
                               (Showtime.show_time showtime)
                               seats
                               (or_else (option_map User.name (hd_error users))
                                        "Unknown User")))
                      "Check-in successful!") ;;
                 toast "Check-in Successful"
                       "Customer has been checked in successfully" false
             end
       end)
      (fun _ =>
         console_error "Error during check-in:" ;;
         setCheckInResult
           (mkResult false None
              "An error occurred during check-in. Please try again."))
      (setLoading false).

End CheckInInterface.

(* ===================================================================== *)
(** ** src/App.tsx: the session bootstrap *)
(* ===================================================================== *)

Module App.

Record State := mkState {
  user : option User.t;
  loading : bool
}.

Definition setUser (v : option User.t) : Async (World * State) unit :=
  setState (fun st => mkState v (loading st)).

Definition setLoading (b : bool) : Async (World * State) unit :=
  setState (fun st => mkState (user st) b).

Definition fetchUserDetails (userId : string) : Async (World * State) unit :=
  try_catch
    (w <- getWorld ;;
     let users :=
       Db.list_where (fun u => User.id u =? userId) None (Some 1%nat)
                     (db_users w) in
     match users with
     | existing :: _ => setUser (Some existing)
     | [] =>
         authUser <- auth_me ;;
         authUser <- deref authUser ;;
         let newUser :=
           User.mk userId
                   (Principal.email authUser)
                   (or_else (Principal.displayName authUser)
                            (JS.split_first "@" (Principal.email authUser)))
                   customer
                   None in
         modifyWorld (fun w => set_users (Db.create newUser (db_users w)) w) ;;
         setUser (Some newUser)
     end)
    (fun _ => console_error "Error fetching user details:").

(** One event of [blink.auth.onAuthStateChanged]. *)
Record AuthState := mkAuthState {
  auth_user : option Principal.t;
  isLoading : bool
}.

(** The subscriber of the auth-state stream, for one event taken alone.
    [fetchUserDetails] is started without being awaited; with no other
    event in between, it and [setLoading] set different fields, so
    running it to its end first gives the same state.  Events that
    arrive while a call is still waiting are followed in [Subscriber]
    below. *)
Definition onAuthStateChanged (state : AuthState)
  : Async (World * State) unit :=
  match auth_user state with
  | Some principal => fetchUserDetails (Principal.id principal)
  | None => setUser None
  end ;;
  setLoading (isLoading state).

Definition initial : State := mkState None true.

End App.

(* ===================================================================== *)
(** ** src/pages/PlatformDashboard.tsx *)
(* ===================================================================== *)

Module PlatformDashboard.

Record Stats := mkStats {
  totalTheaters : Z;
  totalMovies : Z;
  totalUsers : Z;
  totalRevenue : Z
}.

Record State := mkState {
  stats : Stats;
  pendingTheaters : list Theater.t
}.

Definition setStats (v : Stats) : Async (World * State) unit :=
  setState (fun st => mkState v (pendingTheaters st)).

Definition setPendingTheaters (v : list Theater.t)
  : Async (World * State) unit :=
  setState (fun st => mkState (stats st) v).

Definition fetchDashboardStats : Async (World * State) unit :=
  try_catch
    (setStats (mkStats 25 150 12500 2500000) ;;
     w <- getWorld ;;
     let theaters :=
       Db.list_where (fun t => Theater.status t =? "pending")
                     (Some Theater.created_at) None (db_theaters w) in
     setPendingTheaters theaters)
    (fun _ => console_error "Error fetching dashboard stats:").

(** The [status] argument: ['approved' | 'rejected']. *)
Inductive Decision := approved | rejected.

Definition status_text (d : Decision) : string :=
  match d with
  | approved => "approved"
  | rejected => "rejected"
  end.

Definition handleTheaterApproval (theaterId : string) (status : Decision)
  : Async (World * State) unit :=
  try_catch
    (modifyWorld
       (fun w =>
          set_theaters
            (Db.update Theater.id theaterId
                       (Theater.with_status (status_text status))
                       (db_theaters w)) w) ;;
     fetchDashboardStats)
    (fun _ => console_error "Error updating theater status:").

Definition initial : State := mkState (mkStats 0 0 0 0) [].

End PlatformDashboard.

(* ===================================================================== *)
(** ** src/pages/HomePage.tsx *)
(* ===================================================================== *)

Module HomePage.

Record State := mkState {
  movies : list Movie.t;
  theaters : list Theater.t;
  searchQuery : string;
  selectedCity : string;
  selectedLanguage : string;
  selectedGenre : string;
  selectedFormat : string
}.

Section Filtering.

(** The case conversion of the engine the page runs on. *)
Variable engine : JS.CaseConversion.

Definition filteredMovies (st : State) : list Movie.t :=
  filter
    (fun movie =>
       let matchesSearch :=
         JS.includes (JS.toLowerCase engine (Movie.title movie))
                     (JS.toLowerCase engine (searchQuery st)) in
       let matchesLanguage :=
         (selectedLanguage st =? "")
         || (Movie.language movie =? selectedLanguage st) in
       let matchesGenre :=
         (selectedGenre st =? "")
         || (Movie.genre movie =? selectedGenre st) in
       matchesSearch && matchesLanguage && matchesGenre)
    (movies st).

Definition is_now_showing (m : Movie.t) : bool :=
  match Movie.status m with now_showing => true | coming_soon => false end.

Definition is_coming_soon (m : Movie.t) : bool :=
  match Movie.status m with coming_soon => true | now_showing => false end.

Definition nowShowingMovies (st : State) : list Movie.t :=
  filter is_now_showing (filteredMovies st).

Definition comingSoonMovies (st : State) : list Movie.t :=
  filter is_coming_soon (filteredMovies st).

End Filtering.

End HomePage.

(* ===================================================================== *)
(** ** Notions the properties are stated with *)
(* ===================================================================== *)

(** The sum of a list of amounts: JavaScript numbers added up in list
    order from 0, as [xs.reduce((a, b) => a + b, 0)] does.  Each addition
    rounds to the nearest binary64 value, so the order is part of the
    notion. *)
Definition sum_numbers (xs : list float) : float :=
  fold_left PrimFloat.add xs 0%float.

(** The seat list a booking carries: the array its [seats] column holds. *)
Definition seat_list (b : Booking.t) : list string :=
  match Booking.seats b with
  | ArrayText seats => seats
  | EmptyText | OtherText => []
  end.

(** Every booking row holds a seat list (or nothing) in its seats column;
    the two handlers that write bookings keep it so. *)
Definition seats_readable (w : World) : Prop :=
  forall b, In b (db_bookings w) -> Booking.seats b <> OtherText.

(** A booking of the given showtime whose status is 'confirmed'. *)
Definition confirmed_for (showtimeId : string) (b : Booking.t) : Prop :=
  Booking.showtime_id b = showtimeId /\ Booking.booking_status b = "confirmed".

(** [q] occurs in [title] as a contiguous run, letter case aside: once
    both are converted to lower case, the one holds the other. *)
Definition contains_ci (engine : JS.CaseConversion) (title q : string)
  : Prop :=
  exists pre post : string,
    JS.toLowerCase engine title
    = (pre ++ JS.toLowerCase engine q ++ post)%string.

(** A selected filter value matches a field exactly; the unselected
    filter (the empty value) matches everything. *)
Definition filter_matches (selected field : string) : Prop :=
  selected = "" \/ field = selected.

(** [l] is the local part of [email]: the text before its first [@]
    (all of it when it holds none). *)
Definition is_local_part (email l : string) : Prop :=
  ~ In "@"%char (list_ascii_of_string l)
  /\ (email = l \/ exists domain, email = (l ++ "@" ++ domain)%string).

(** How many user rows carry the given id. *)
Definition users_with_id (id : string) (w : World) : nat :=
  length (filter (fun u => User.id u =? id) (db_users w)).

(** The seat page with its selection replaced. *)
Definition with_selection (v : list string) (st : SeatSelection.State)
  : SeatSelection.State :=
  SeatSelection.mkState (SeatSelection.showtime st)
                        (SeatSelection.seatLayout st) v
                        (SeatSelection.occupiedSeats st)
                        (SeatSelection.loading st).

(** The selection states of the seat page: the page is loaded with an
    empty selection, then seats are clicked. *)
Inductive reachable : SeatSelection.State -> Prop :=
| reach_loaded : forall st,
    SeatSelection.selectedSeats st = [] -> reachable st
| reach_click : forall w st seatId,
    reachable st ->
    reachable (snd (exec (SeatSelection.handleSeatClick seatId) (w, st))).

(** The booking the code looks at for an entered code: the first row
    whose check-in code is the trimmed entry. *)
Definition matched (code : string) (w : World) : option Booking.t :=
  find (fun b => Booking.qr_code b =? JS.trim code) (db_bookings w).

(** The result a run of the check-in handler leaves on the console. *)
Definition check_in_outcome (w : World) (st : CheckInInterface.State)
  : option CheckInInterface.CheckInResult :=
  CheckInInterface.checkInResult
    (snd (exec CheckInInterface.handleQRScan (w, st))).

(** The booking record the seat page writes for a principal. *)
Definition written_booking (showtimeId : string) (w : World)
    (st : SeatSelection.State) : option Booking.t :=
  hd_error
    (rev (db_bookings
            (fst (exec (SeatSelection.handleProceedToPayment showtimeId)
                       (w, st))))).

(* ===================================================================== *)
(** ** Sample records *)
(* ===================================================================== *)

Module Sample.

Definition evening : Showtime.t :=
  Showtime.mk "st1" "m1" "sc1" "t1" "2025-03-01" "18:30"
              150 250 400 118 120.

Definition hall : SeatLayout.t :=
  SeatLayout.mk 5 8 [1%Z; 2%Z] [2%Z; 3%Z] [4%Z; 5%Z].

Definition alice : Principal.t :=
  Principal.mk "u1" "alice@example.com" (Some "Alice").

Definition bob : Principal.t :=
  Principal.mk "u2" "bob@example.com" None.

Definition alice_user : User.t :=
  User.mk "u1" "alice@example.com" "Alice" customer None.

Definition film : Movie.t :=
  Movie.mk "m1" "The Long Night" "A thriller" "" 128 "English" "Thriller"
           "UA" now_showing "2025-02-20".

Definition rex : Theater.t :=
  Theater.mk "t1" "Rex" "High Street" "Pune" "approved" 100.

Definition lux : Theater.t :=
  Theater.mk "t2" "Lux" "Mill Road" "Pune" "pending" 200.

Definition orion : Theater.t :=
  Theater.mk "t3" "Orion" "Lake View" "Goa" "pending" 300.

(** A confirmed booking of the evening show, not yet checked in. *)
Definition paid : Booking.t :=
  Booking.mk "booking_1000" "u1" "st1" (ArrayText ["1-1"; "1-2"]) 800
             "confirmed" "pending" "QR_1000_u1" false None.

(** A cancelled booking that names one of the same seats. *)
Definition dropped : Booking.t :=
  Booking.mk "booking_1001" "u2" "st1" (ArrayText ["1-2"; "4-4"]) 550
             "cancelled" "pending" "QR_1001_u2" false None.

(** A confirmed booking whose showtime row is no longer in the store. *)
Definition orphan : Booking.t :=
  Booking.mk "booking_1002" "u1" "st9" (ArrayText ["3-3"]) 250
             "confirmed" "pending" "QR_1002_u1" false None.

(** The store as seen in the session of the given principal. *)
Definition world_of (principal : option Principal.t) : World :=
  mkWorld [alice_user] [film] [rex; lux; orion] [evening]
          [paid; dropped; orphan] principal
          (fun n => (1700000000000 + N.of_nat n)%N) 0 [].

Definition world : World := world_of (Some alice).

(** The seat page of the evening show with three seats picked. *)
Definition picking : SeatSelection.State :=
  SeatSelection.mkState (Some evening) (Some hall)
                        ["2-5"; "3-1"; "5-8"] ["1-1"; "1-2"] false.

(** The seat page right after loading. *)
Definition loaded : SeatSelection.State :=
  SeatSelection.mkState (Some evening) (Some hall) [] ["1-1"; "1-2"] false.

End Sample.

(* ===================================================================== *)
(** ** The check-in console: the Reset button *)
(* ===================================================================== *)

Module CheckInConsole.

Definition handleReset : Async (World * CheckInInterface.State) unit :=
  setState (fun st => CheckInInterface.mkState
                        "" (CheckInInterface.checkInResult st)
                        (CheckInInterface.loading st)) ;;
  setState (fun st => CheckInInterface.mkState
                        (CheckInInterface.qrCode st) None
                        (CheckInInterface.loading st)).

End CheckInConsole.

(* ===================================================================== *)
(** ** src/App.tsx: what is rendered, and the navigation bar *)
(* ===================================================================== *)

Module Shell.

Inductive Screen : Type :=
| LoadingScreen
| SignIn
| Router (user : User.t).

(** The three returns of [App]. *)
Definition render (st : App.State) : Screen :=
  if App.loading st then LoadingScreen
  else match App.user st with
       | None => SignIn
       | Some user => Router user
       end.

Definition is_theater_admin (user : User.t) : bool :=
  match User.role user with theater_admin => true | _ => false end.

Definition is_platform_owner (user : User.t) : bool :=
  match User.role user with platform_owner => true | _ => false end.

(** The paths of the [Route] elements registered for a signed-in user. *)
Definition routes (user : User.t) : list string :=
  ["/"; "/movie/:id"; "/book/:showtimeId"; "/booking/:bookingId"; "/profile"]
  ++ (if is_theater_admin user then ["/theater-dashboard"] else [])
  ++ (if is_platform_owner user then ["/platform-dashboard"] else [])
  ++ ["/check-in"].

End Shell.

Module Navbar.

(** An entry of the bar (its icon is display data). *)
Record NavItem := mkItem {
  href : string;
  label : string
}.

Definition getRoleBasedNavItems (user : User.t) : list NavItem :=
  let baseItems := [mkItem "/" "Movies"; mkItem "/profile" "Profile"] in
  let baseItems :=
    if Shell.is_theater_admin user then
      (baseItems ++ [mkItem "/theater-dashboard" "Dashboard"])
      ++ [mkItem "/check-in" "Check-in"]
    else baseItems in
  let baseItems :=
    if Shell.is_platform_owner user then
      baseItems ++ [mkItem "/platform-dashboard" "Platform"]
    else baseItems in
  baseItems.

End Navbar.

(* ===================================================================== *)
(** ** src/App.tsx: auth events that overlap *)
(* ===================================================================== *)

(** The subscriber starts [fetchUserDetails] and does not await it, so a
    further event can be delivered while an earlier call is still waiting
    for the gateway.  Here a call is followed from one [await] to the
    next: a request takes effect when it is answered, and the code up to
    the next [await] runs without interruption. *)
Module Subscriber.

(** Where a started call of [fetchUserDetails] has got to. *)
Inductive Call : Type :=
| AwaitList (userId : string)    (* at [await blink.db.users.list] *)
| AwaitMe (userId : string)      (* no row found; at [await blink.auth.me] *)
| AwaitCreate (newUser : User.t) (* at [await blink.db.users.create] *)
| Finished.





Fixpoint replace (i : nat) (c : Call) (calls : list Call) : list Call :=
  match calls, i with
  | [], _ => []
  | _ :: rest, O => c :: rest
  | c0 :: rest, S i' => c0 :: replace i' c rest
  end.






End Subscriber.

(* ===================================================================== *)
(** ** src/pages/HomePage.tsx: the theater list and the filter options *)
(* ===================================================================== *)

Module Catalog.

(** [orderBy: { name: 'asc' }], by insertion, comparing names character
    by character. *)
Fixpoint insert_asc {R : Type} (key : R -> string) (r : R) (rows : list R)
  : list R :=
  match rows with
  | [] => [r]
  | r' :: rest =>
      if String.leb (key r) (key r') then r :: rows
      else r' :: insert_asc key r rest
  end.

Definition order_asc {R : Type} (key : R -> string) (rows : list R)
  : list R :=
  fold_right (insert_asc key) [] rows.

Definition setTheaters (v : list Theater.t)
  : Async (World * HomePage.State) unit :=
  setState (fun st =>
              HomePage.mkState (HomePage.movies st) v
                (HomePage.searchQuery st) (HomePage.selectedCity st)
                (HomePage.selectedLanguage st) (HomePage.selectedGenre st)
                (HomePage.selectedFormat st)).

Definition fetchTheaters : Async (World * HomePage.State) unit :=
  try_catch
    (w <- getWorld ;;
     let theatersData :=
       order_asc Theater.name
         (filter (fun t => Theater.status t =? "approved") (db_theaters w)) in
     setTheaters theatersData)
    (fun _ => console_error "Error fetching theaters:").

(** [[...new Set(xs)]]: the values of [xs] without repetition, in the
    order of their first occurrence. *)
Definition uniq (xs : list string) : list string :=
  fold_left (fun seen x => if JS.includes_str seen x then seen
                           else seen ++ [x])
            xs [].

Definition languages (st : HomePage.State) : list string :=
  uniq (map Movie.language (HomePage.movies st)).

Definition genres (st : HomePage.State) : list string :=
  uniq (map Movie.genre (HomePage.movies st)).

Definition cities (st : HomePage.State) : list string :=
  uniq (map Theater.city (HomePage.theaters st)).

End Catalog.

(* ===================================================================== *)
(** ** src/pages/SeatSelection.tsx: loading the page *)
(* ===================================================================== *)

(** The [seat_layout] column of a screen is a string; as for the seats of
    a booking, the model keeps whether it is empty and what JSON.parse
    makes of it. *)
Inductive LayoutText : Type :=
| EmptyLayout
| LayoutJson (layout : SeatLayout.t)
| OtherLayout.

Module Screen.
Record t := mk {
  id : string;
  name : string;
  format : string;
  seat_layout : LayoutText
}.
End Screen.

Module SeatPage.

(** The whole React state of the page: the part the seat handlers use,
    and the records it shows. *)
Record State := mkState {
  core : SeatSelection.State;
  movie : option Movie.t;
  theater : option Theater.t;
  screen : option Screen.t
}.

Definition with_core (c : SeatSelection.State) (p : State) : State :=
  mkState c (movie p) (theater p) (screen p).

(** A handler of the seat part run on the whole page. *)
Definition on_core {A : Type} (m : Async (World * SeatSelection.State) A)
  : Async (World * State) A :=
  fun s =>
    let '(r, (w', c')) := m (fst s, core (snd s)) in
    (r, (w', with_core c' (snd s))).

Definition setShowtime (v : option Showtime.t) : Async (World * State) unit :=
  setState (fun p =>
    with_core (SeatSelection.mkState v
                 (SeatSelection.seatLayout (core p))
                 (SeatSelection.selectedSeats (core p))
                 (SeatSelection.occupiedSeats (core p))
                 (SeatSelection.loading (core p))) p).

Definition setSeatLayout (v : option SeatLayout.t)
  : Async (World * State) unit :=
  setState (fun p =>
    with_core (SeatSelection.mkState (SeatSelection.showtime (core p)) v
                 (SeatSelection.selectedSeats (core p))
                 (SeatSelection.occupiedSeats (core p))
                 (SeatSelection.loading (core p))) p).

Definition setLoading (b : bool) : Async (World * State) unit :=
  setState (fun p =>
    with_core (SeatSelection.mkState (SeatSelection.showtime (core p))
                 (SeatSelection.seatLayout (core p))
                 (SeatSelection.selectedSeats (core p))
                 (SeatSelection.occupiedSeats (core p)) b) p).

Definition setMovie (v : option Movie.t) : Async (World * State) unit :=
  setState (fun p => mkState (core p) v (theater p) (screen p)).

Definition setTheater (v : option Theater.t) : Async (World * State) unit :=
  setState (fun p => mkState (core p) (movie p) v (screen p)).

Definition setScreen (v : option Screen.t) : Async (World * State) unit :=
  setState (fun p => mkState (core p) (movie p) (theater p) v).

Definition JSON_parse_layout (t : LayoutText)
  : Async (World * State) SeatLayout.t :=
  match t with
  | LayoutJson layout => ret layout
  | EmptyLayout | OtherLayout => throw JS.SyntaxError
  end.

Definition truthy_layout (t : LayoutText) : bool :=
  match t with
  | EmptyLayout => false
  | LayoutJson _ | OtherLayout => true
  end.

(** [db_screens] is the screens collection, which no handler writes. *)
Definition fetchShowtimeDetails (db_screens : list Screen.t)
    (showtimeId : string) : Async (World * State) unit :=
  try_catch_finally
    (w <- getWorld ;;
     let showtimes :=
       Db.list_where (fun s => Showtime.id s =? showtimeId)
                     None (Some 1%nat) (db_showtimes w) in
     match showtimes with
     | [] =>
         toast "Error" "Showtime not found" true ;;
         navigate "/"
     | showtimeData :: _ =>
         setShowtime (Some showtimeData) ;;
         w <- getWorld ;;
         let movies :=
           Db.list_where (fun m => Movie.id m =? Showtime.movie_id showtimeData)
                         None (Some 1%nat) (db_movies w) in
         let theaters :=
           Db.list_where
             (fun t => Theater.id t =? Showtime.theater_id showtimeData)
             None (Some 1%nat) (db_theaters w) in
         let screens :=
           Db.list_where
             (fun s => Screen.id s =? Showtime.screen_id showtimeData)
             None (Some 1%nat) db_screens in
         match movies with
         | m :: _ => setMovie (Some m)
         | [] => ret tt
         end ;;
         match theaters with
         | t :: _ => setTheater (Some t)
         | [] => ret tt
         end ;;
         match screens with
         | screenData :: _ =>
             setScreen (Some screenData) ;;
             if truthy_layout (Screen.seat_layout screenData) then
               layout <- JSON_parse_layout (Screen.seat_layout screenData) ;;
               setSeatLayout (Some layout)
             else ret tt
         | [] => ret tt
         end ;;
         on_core (SeatSelection.fetchOccupiedSeats showtimeId)
     end)
    (fun _ =>
       console_error "Error fetching showtime details:" ;;
       toast "Error" "Failed to load showtime details" true)
    (setLoading false).

Inductive View := Spinner | LoadFailed | SeatMap.

(** What the page returns: the spinner while loading, the failure notice
    when one of the five records is missing, the seat map otherwise. *)
Definition render (p : State) : View :=
  if SeatSelection.loading (core p) then Spinner
  else
    match SeatSelection.showtime (core p), movie p, theater p, screen p,
          SeatSelection.seatLayout (core p) with
    | Some _, Some _, Some _, Some _, Some _ => SeatMap
    | _, _, _, _, _ => LoadFailed
    end.

Definition initial : State :=
  mkState SeatSelection.initial None None None.

End SeatPage.

(* ===================================================================== *)
(** ** The booking confirmation page (BookingConfirmation) *)
(* ===================================================================== *)

Module BookingConfirmation.

Record BookingDetails := mkDetails {
  booking : Booking.t;
  movie_title : string;
  movie_poster : string;
  theater_name : string;
  theater_location : string;
  screen_name : string;
  show_date : string;
  show_time : string;
  format : string
}.

Record State := mkState {
  bookingDetails : option BookingDetails;
  loading : bool
}.

Definition setBookingDetails (v : option BookingDetails)
  : Async (World * State) unit :=
  setState (fun st => mkState v (loading st)).

Definition setLoading (b : bool) : Async (World * State) unit :=
  setState (fun st => mkState (bookingDetails st) b).

(** [bookingId] is the route parameter, which may be missing;
    [db_screens] is the screens collection. *)
Definition fetchBookingDetails (db_screens : list Screen.t)
    (bookingId : option string) : Async (World * State) unit :=
  try_catch_finally
    (match bookingId with
     | None => ret tt
     | Some bookingId =>
         if bookingId =? "" then ret tt
         else
           w <- getWorld ;;
           let bookings :=
             Db.list_where (fun b => Booking.id b =? bookingId)
                           None (Some 1%nat) (db_bookings w) in
           match bookings with
           | [] => ret tt
           | booking :: _ =>
               w <- getWorld ;;
               let showtimes :=
                 Db.list_where
                   (fun s => Showtime.id s =? Booking.showtime_id booking)
                   None (Some 1%nat) (db_showtimes w) in
               match showtimes with
               | [] => ret tt
               | showtime :: _ =>
                   w <- getWorld ;;
                   let movies :=
                     Db.list_where
                       (fun m => Movie.id m =? Showtime.movie_id showtime)
                       None (Some 1%nat) (db_movies w) in
                   let theaters :=
                     Db.list_where
                       (fun t => Theater.id t =? Showtime.theater_id showtime)
                       None (Some 1%nat) (db_theaters w) in
                   let screens :=
                     Db.list_where
                       (fun s => Screen.id s =? Showtime.screen_id showtime)
                       None (Some 1%nat) db_screens in
                   setBookingDetails
                     (Some
                        (mkDetails booking
                           (or_else (option_map Movie.title (hd_error movies))
                                    "Unknown Movie")
                           (or_else (option_map Movie.poster_url
                                                (hd_error movies)) "")
                           (or_else (option_map Theater.name
                                                (hd_error theaters))
                                    "Unknown Theater")
                           (or_else (option_map Theater.location
                                                (hd_error theaters))
                                    "Unknown Location")
                           (or_else (option_map Screen.name (hd_error screens))
                                    "Unknown Screen")
                           (Showtime.show_date showtime)
                           (Showtime.show_time showtime)
                           (or_else (option_map Screen.format
                                                (hd_error screens)) "2D")))
               end
           end
     end)
    (fun _ => console_error "Error fetching booking details:")
    (setLoading false).

Inductive View : Type :=
| Spinner
| NotFound
| Ticket (details : BookingDetails) (seats : list string)
| RenderError.

(** What the page returns; [JSON.parse(booking.seats)] is evaluated while
    rendering, so text it rejects makes the rendering itself throw. *)
Definition render (st : State) : View :=
  if loading st then Spinner
  else
    match bookingDetails st with
    | None => NotFound
    | Some details =>
        match Booking.seats (booking details) with
        | ArrayText seats => Ticket details seats
        | EmptyText | OtherText => RenderError
        end
    end.

Definition initial : State := mkState None true.

End BookingConfirmation.

(* ===================================================================== *)
(** ** src/pages/UserProfile.tsx: the booking history *)
(* ===================================================================== *)

(** [Promise.all(xs.map(async x => ...))]: the results in the order of
    [xs]. *)
Fixpoint mapM {S A B : Type} (f : A -> Async S B) (xs : list A)
  : Async S (list B) :=
  match xs with
  | [] => ret []
  | x :: xs' => y <- f x ;; ys <- mapM f xs' ;; ret (y :: ys)
  end.

Module UserProfile.

(** A booking with the details the history shows beside it. *)
Record Entry := mkEntry {
  booking : Booking.t;
  movie_title : string;
  theater_name : string;
  show_date : string;
  show_time : string
}.

(** The part of the page's state that the history uses (the profile form
    has its own). *)
Record State := mkState {
  bookings : list Entry;
  loading : bool
}.

Definition setBookings (v : list Entry) : Async (World * State) unit :=
  setState (fun st => mkState v (loading st)).

Definition setLoading (b : bool) : Async (World * State) unit :=
  setState (fun st => mkState (bookings st) b).

(** The callback that [fetchBookings] maps over the bookings. *)
Definition enrichBooking (booking : Booking.t)
  : Async (World * State) Entry :=
  w <- getWorld ;;
  let showtimes :=
    Db.list_where (fun s => Showtime.id s =? Booking.showtime_id booking)
                  None (Some 1%nat) (db_showtimes w) in
  match showtimes with
  | showtime :: _ =>
      w <- getWorld ;;
      let movies :=
        Db.list_where (fun m => Movie.id m =? Showtime.movie_id showtime)
                      None (Some 1%nat) (db_movies w) in
      let theaters :=
        Db.list_where (fun t => Theater.id t =? Showtime.theater_id showtime)
                      None (Some 1%nat) (db_theaters w) in
      ret (mkEntry booking
             (or_else (option_map Movie.title (hd_error movies))
                      "Unknown Movie")
             (or_else (option_map Theater.name (hd_error theaters))
                      "Unknown Theater")
             (Showtime.show_date showtime)
             (Showtime.show_time showtime))
  | [] => ret (mkEntry booking "Unknown Movie" "Unknown Theater" "" "")
  end.

(** [created_at] is the column of that name, which the store fills in. *)
Definition fetchBookings (created_at : Booking.t -> N) (user : User.t)
  : Async (World * State) unit :=
  try_catch_finally
    (w <- getWorld ;;
     let bookingsData :=
       Db.list_where (fun b => Booking.user_id b =? User.id user)
                     (Some created_at) None (db_bookings w) in
     enrichedBookings <- mapM enrichBooking bookingsData ;;
     setBookings enrichedBookings)
    (fun _ => console_error "Error fetching bookings:")
    (setLoading false).

Definition initial : State := mkState [] true.

End UserProfile.

(* ===================================================================== *)
(** ** The movie page (MovieDetails): showtimes by theater *)
(* ===================================================================== *)

Module MovieDetails.

(** A showtime with the names the page shows beside it
    ([{ ...showtime, theater_name, ... }]). *)
Record Show := mkShow {
  showtime : Showtime.t;
  theater_name : string;
  theater_location : string;
  screen_name : string;
  format : string
}.

(** The part of the page's state that the showtime list uses. *)
Record State := mkState {
  showtimes : list Show;
  loading : bool
}.

Definition setShowtimes (v : list Show) : Async (World * State) unit :=
  setState (fun st => mkState v (loading st)).

Definition setLoading (b : bool) : Async (World * State) unit :=
  setState (fun st => mkState (showtimes st) b).

(** The callback that [fetchShowtimes] maps over the showtimes. *)
Definition enrichShowtime (db_screens : list Screen.t) (showtime : Showtime.t)
  : Async (World * State) Show :=
  w <- getWorld ;;
  let theaters :=
    Db.list_where (fun t => Theater.id t =? Showtime.theater_id showtime)
                  None (Some 1%nat) (db_theaters w) in
  let screens :=
    Db.list_where (fun s => Screen.id s =? Showtime.screen_id showtime)
                  None (Some 1%nat) db_screens in
  ret (mkShow showtime
         (or_else (option_map Theater.name (hd_error theaters))
                  "Unknown Theater")
         (or_else (option_map Theater.location (hd_error theaters))
                  "Unknown Location")
         (or_else (option_map Screen.name (hd_error screens))
                  "Unknown Screen")
         (or_else (option_map Screen.format (hd_error screens)) "2D")).

Definition fetchShowtimes (db_screens : list Screen.t) (id selectedDate : string)
  : Async (World * State) unit :=
  try_catch_finally
    (w <- getWorld ;;
     let showtimesData :=
       Catalog.order_asc Showtime.show_time
         (filter (fun s => (Showtime.movie_id s =? id)
                           && (Showtime.show_date s =? selectedDate))
                 (db_showtimes w)) in
     enrichedShowtimes <- mapM (enrichShowtime db_screens) showtimesData ;;
     setShowtimes enrichedShowtimes)
    (fun _ => console_error "Error fetching showtimes:")
    (setLoading false).

Record Group := mkGroup {
  theater : string;
  location : string;
  shows : list Show
}.

(** [`${showtime.theater_name}-${showtime.theater_location}`]. *)
Definition key_of (showtime : Show) : string :=
  theater_name showtime ++ "-" ++ theater_location showtime.

(** [acc[key]] is set. *)
Definition has_key (key : string) (acc : list (string * Group)) : bool :=
  existsb (fun entry => fst entry =? key) acc.

(** [acc[key].shows.push(showtime)]. *)
Definition push (key : string) (showtime : Show)
    (acc : list (string * Group)) : list (string * Group) :=
  map (fun entry =>
         if fst entry =? key then
           (fst entry,
            mkGroup (theater (snd entry)) (location (snd entry))
                    (shows (snd entry) ++ [showtime]))
         else entry)
      acc.

(** The [reduce] over the showtimes.  The accumulator object is the list
    of its entries in insertion order, which is the order
    [Object.entries] gives them in (a key holds a dash, so it is never an
    array index). *)
Definition groupedShowtimes (showtimes : list Show)
  : list (string * Group) :=
  fold_left
    (fun acc showtime =>
       let key := key_of showtime in
       let acc :=
         if has_key key acc then acc
         else acc ++ [(key, mkGroup (theater_name showtime)
                                    (theater_location showtime) [])] in
       push key showtime acc)
    showtimes [].

End MovieDetails.

(* ===================================================================== *)
(** ** Further notions *)
(* ===================================================================== *)

(** The seats column holds text that JSON.parse accepts, or nothing. *)
Definition parseable (b : Booking.t) : bool :=
  match Booking.seats b with
  | OtherText => false
  | EmptyText | ArrayText _ => true
  end.

(** The filter of the occupied-seats query. *)
Definition confirmed_forb (showtimeId : string) (b : Booking.t) : bool :=
  (Booking.showtime_id b =? showtimeId)
  && (Booking.booking_status b =? "confirmed").

(** How many confirmed bookings of a showtime hold a given seat. *)
Definition holders (showtimeId seat : string) (w : World) : nat :=
  length (filter (fun b => confirmed_forb showtimeId b
                           && JS.includes_str (seat_list b) seat)
                 (db_bookings w)).

(** A record that replaces the shown one when it was found. *)
Definition found_or {A : Type} (found shown : option A) : option A :=
  match found with
  | Some x => Some x
  | None => shown
  end.

(** The seat page with the seat part of its state replaced, the
    selection kept. *)
Definition page_core (showtime : option Showtime.t)
    (layout : option SeatLayout.t) (occupied : list string) (loading : bool)
    (p : SeatPage.State) : SeatPage.State :=
  SeatPage.with_core
    (SeatSelection.mkState showtime layout
       (SeatSelection.selectedSeats (SeatPage.core p)) occupied loading) p.

(** The rows the page of a showtime looks up. *)
Definition showtime_row (showtimeId : string) (w : World)
  : option Showtime.t :=
  find (fun s => Showtime.id s =? showtimeId) (db_showtimes w).

Definition movie_row (sh : Showtime.t) (w : World) : option Movie.t :=
  find (fun m => Movie.id m =? Showtime.movie_id sh) (db_movies w).

Definition theater_row (sh : Showtime.t) (w : World) : option Theater.t :=
  find (fun t => Theater.id t =? Showtime.theater_id sh) (db_theaters w).

Definition screen_row (sh : Showtime.t) (db_screens : list Screen.t)
  : option Screen.t :=
  find (fun s => Screen.id s =? Showtime.screen_id sh) db_screens.

(** The booking the confirmation page looks at for an id: the first row
    that carries it. *)
Definition booking_row (bookingId : string) (w : World) : option Booking.t :=
  find (fun b => Booking.id b =? bookingId) (db_bookings w).

(** The id the seat page gives the booking it writes in [w]. *)
Definition next_booking_id (w : World) : string :=
  ("booking_" ++ JS.show (clock w (ticks w)))%string.

(** The history entry of a booking in a store. *)
Definition history_entry (w : World) (b : Booking.t) : UserProfile.Entry :=
  match showtime_row (Booking.showtime_id b) w with
  | Some sh =>
      UserProfile.mkEntry b
        (or_else (option_map Movie.title (movie_row sh w)) "Unknown Movie")
        (or_else (option_map Theater.name (theater_row sh w))
                 "Unknown Theater")
        (Showtime.show_date sh) (Showtime.show_time sh)
  | None => UserProfile.mkEntry b "Unknown Movie" "Unknown Theater" "" ""
  end.

(** A showtime of the given movie on the given date. *)
Definition on_programme (id selectedDate : string) (s : Showtime.t) : bool :=
  (Showtime.movie_id s =? id) && (Showtime.show_date s =? selectedDate).

(** The showtime as the movie page lists it in a store. *)
Definition listed_show (db_screens : list Screen.t) (w : World)
    (s : Showtime.t) : MovieDetails.Show :=
  MovieDetails.mkShow s
    (or_else (option_map Theater.name (theater_row s w)) "Unknown Theater")
    (or_else (option_map Theater.location (theater_row s w))
             "Unknown Location")
    (or_else (option_map Screen.name (screen_row s db_screens))
             "Unknown Screen")
    (or_else (option_map Screen.format (screen_row s db_screens)) "2D").

(** What the accumulator of the [reduce] holds once the showtimes [seen]
    have gone through it. *)
Definition grouped_so_far (seen : list MovieDetails.Show)
    (acc : list (string * MovieDetails.Group)) : Prop :=
  NoDup (map fst acc)
  /\ (forall k g, In (k, g) acc ->
        MovieDetails.shows g
        = filter (fun s => MovieDetails.key_of s =? k) seen
        /\ exists first rest,
             MovieDetails.shows g = first :: rest
             /\ MovieDetails.theater g = MovieDetails.theater_name first
             /\ MovieDetails.location g
                = MovieDetails.theater_location first)
  /\ (forall s, In s seen -> In (MovieDetails.key_of s) (map fst acc)).

(** The price of a seat as the total counts it. *)
Definition seat_price (st : SeatSelection.State) (seatId : string) : float :=
  SeatSelection.getSeatPrice st
    (SeatSelection.getSeatType st (SeatSelection.row_of seatId)).

(* ===================================================================== *)
(** ** Further sample records *)
(* ===================================================================== *)

Module Scenario.

(** A confirmed booking of the evening show whose seats text is broken. *)
Definition garbled : Booking.t :=
  Booking.mk "booking_1003" "u2" "st1" OtherText 400
             "confirmed" "pending" "QR_1003_u2" false None.

(** The sample store with the broken booking added. *)
Definition world_garbled : World :=
  set_bookings (db_bookings Sample.world ++ [garbled]) Sample.world.

(** The seat page of the evening show before its occupied seats have
    arrived, with a seat picked that the sample booking already holds. *)
Definition stale : SeatSelection.State :=
  SeatSelection.mkState (Some Sample.evening) (Some Sample.hall)
                        ["1-1"] [] false.

(** A confirmed, unused booking of the evening show whose seats text is
    broken, alone in the store with its showtime. *)
Definition world_unreadable : World :=
  set_bookings [garbled] Sample.world.

(** The home page with the sample film and theater, no filter set. *)
Definition browsing : HomePage.State :=
  HomePage.mkState [Sample.film] [Sample.rex] "" "" "" "" "".

Definition screen_one : Screen.t :=
  Screen.mk "sc1" "Screen 1" "IMAX" (LayoutJson Sample.hall).

Definition screen_broken : Screen.t :=
  Screen.mk "sc1" "Screen 1" "IMAX" OtherLayout.

(** The sample store whose clock reads 1000 next, the instant the sample
    booking [booking_1000] was named after. *)
Definition world_clock_rewound : World :=
  mkWorld (db_users Sample.world) (db_movies Sample.world)
          (db_theaters Sample.world) (db_showtimes Sample.world)
          (db_bookings Sample.world) (Some Sample.bob)
          (fun n => (1000 + N.of_nat n)%N) 0 [].

(** The sample store in a signed-out session. *)
Definition world_signed_out : World := Sample.world_of None.

(** A showing whose prices are not whole numbers (each is the binary64
    value nearest to the decimal written), with one seat picked in each
    class. *)
#[local] Set Warnings "-inexact-float".
Definition matinee : Showtime.t :=
  Showtime.mk "st2" "m1" "sc1" "t1" "2025-03-02" "11:00"
              241.25 154.5 400.3 120 120.
#[local] Set Warnings "inexact-float".

Definition matinee_picking : SeatSelection.State :=
  SeatSelection.mkState (Some matinee) (Some Sample.hall)
                        ["1-1"; "3-1"; "5-1"] [] false.

End Scenario.

(* ===================================================================== *)
(** * Properties *)
(* ===================================================================== *)

(** ** Arrays and strings *)

Lemma includes_str_In (xs : list string) (x : string) :
  JS.includes_str xs x = true <-> In x xs.
Proof.
  unfold JS.includes_str. rewrite existsb_exists. split.
  - intros [y [Hy E]]. apply String.eqb_eq in E. now subst.
  - intros H. exists x. split; [assumption | apply String.eqb_refl].
Qed.

Lemma includes_str_not_In (xs : list string) (x : string) :
  JS.includes_str xs x = false <-> ~ In x xs.
Proof.
  rewrite <- includes_str_In. destruct (JS.includes_str xs x); split;
    congruence.
Qed.

Lemma includes_num_In (xs : list Z) (r : Z) :
  JS.includes_num xs (Some r) = true <-> In r xs.
Proof.
  simpl. rewrite existsb_exists. split.
  - intros [y [Hy E]]. apply Z.eqb_eq in E. now subst.
  - intros H. exists r. split; [assumption | apply Z.eqb_refl].
Qed.

Lemma includes_num_not_In (xs : list Z) (r : Z) :
  JS.includes_num xs (Some r) = false <-> ~ In r xs.
Proof.
  rewrite <- includes_num_In.
  destruct (JS.includes_num xs (Some r)); split; congruence.
Qed.

(** Decimal digits hold no separator: splitting a rendered number that is
    followed by a dash gives the number back. *)
Lemma split_first_digits (d : Decimal.uint) (rest : string) :
  JS.split_first "-" (NilEmpty.string_of_uint d ++ String "-" rest)
  = NilEmpty.string_of_uint d.
Proof.
  induction d; simpl; try (rewrite IHd); reflexivity.
Qed.

Lemma string_of_uint_empty (d : Decimal.uint) :
  NilEmpty.string_of_uint d = "" -> d = Decimal.Nil.
Proof. destruct d; simpl; congruence. Qed.

Lemma to_uint_not_Nil (n : N) : N.to_uint n <> Decimal.Nil.
Proof.
  destruct n as [| p]; [discriminate |].
  exact (DecimalPos.Unsigned.to_uint_nonnil p).
Qed.

Lemma Number_show (n : N) : JS.Number (JS.show n) = Some (Z.of_N n).
Proof.
  unfold JS.Number, JS.show.
  destruct (NilEmpty.string_of_uint (N.to_uint n)) eqn:E.
  - apply string_of_uint_empty in E. now apply to_uint_not_Nil in E.
  - rewrite <- E, NilEmpty.usu, DecimalN.Unsigned.of_to. reflexivity.
Qed.

Lemma row_of_seatId (row seat : nat) :
  SeatSelection.row_of (SeatSelection.seatId row seat) = Some (Z.of_nat row).
Proof.
  unfold SeatSelection.row_of, SeatSelection.seatId, JS.show at 1 2.
  simpl append. rewrite split_first_digits.
  change (NilEmpty.string_of_uint (N.to_uint (N.of_nat row)))
    with (JS.show (N.of_nat row)).
  rewrite Number_show. f_equal. lia.
Qed.

(** ** Pricing *)

Lemma fold_left_total (f : string -> float) (xs : list string)
    (acc : float) :
  fold_left (fun total x => (total + f x)%float) xs acc
  = fold_left PrimFloat.add (map f xs) acc.
Proof.
  revert acc. induction xs as [| x xs IH]; intros acc; simpl;
    [reflexivity | apply IH].
Qed.

(** C5: the booking total is the sum, over the selected seats in the
    order they were selected, of the price of each seat's class (a sum of
    JavaScript numbers, [sum_numbers]); the class of row [r] is premium
    when [r] is in the layout's premium rows, else gold when it is in the
    gold rows, else regular; the price of a class is the showtime's price
    field for it, and the row of a grid seat is the row it was rendered
    in. *)
Theorem booking_total_is_sum_of_class_prices
    (st : SeatSelection.State) (sh : Showtime.t) (l : SeatLayout.t)
    (Hshow : SeatSelection.showtime st = Some sh)
    (Hlayout : SeatSelection.seatLayout st = Some l) :
  let class := SeatSelection.getSeatType st in
  let price := SeatSelection.getSeatPrice st in
  SeatSelection.calculateTotal st
  = sum_numbers (map (fun seat => price (class (SeatSelection.row_of seat)))
                     (SeatSelection.selectedSeats st))
  /\ (forall r, In r (SeatLayout.premium l) ->
                class (Some r) = SeatSelection.premium)
  /\ (forall r, ~ In r (SeatLayout.premium l) -> In r (SeatLayout.gold l) ->
                class (Some r) = SeatSelection.gold)
  /\ (forall r, ~ In r (SeatLayout.premium l) -> ~ In r (SeatLayout.gold l) ->
                class (Some r) = SeatSelection.regular)
  /\ price SeatSelection.premium = Showtime.price_platinum sh
  /\ price SeatSelection.gold = Showtime.price_gold sh
  /\ price SeatSelection.regular = Showtime.price_regular sh
  /\ (forall row seat,
        SeatSelection.row_of (SeatSelection.seatId row seat)
        = Some (Z.of_nat row)).
Proof.
  intros class price. subst class price.
  split; [| repeat split].
  - unfold SeatSelection.calculateTotal, sum_numbers.
    apply (fold_left_total
             (fun seat => SeatSelection.getSeatPrice st
                            (SeatSelection.getSeatType st
                               (SeatSelection.row_of seat)))).
  - intros r Hp. unfold SeatSelection.getSeatType. rewrite Hlayout.
    apply includes_num_In in Hp. now rewrite Hp.
  - intros r Hp Hg. unfold SeatSelection.getSeatType. rewrite Hlayout.
    apply includes_num_not_In in Hp. apply includes_num_In in Hg.
    now rewrite Hp, Hg.
  - intros r Hp Hg. unfold SeatSelection.getSeatType. rewrite Hlayout.
    apply includes_num_not_In in Hp. apply includes_num_not_In in Hg.
    now rewrite Hp, Hg.
  - unfold SeatSelection.getSeatPrice. now rewrite Hshow.
  - unfold SeatSelection.getSeatPrice. now rewrite Hshow.
  - unfold SeatSelection.getSeatPrice. now rewrite Hshow.
  - apply row_of_seatId.
Qed.

Lemma booking_total_sample :
  SeatSelection.calculateTotal Sample.picking = 800%float
  /\ SeatSelection.getSeatType Sample.picking (Some 2%Z)
     = SeatSelection.premium.
Proof.
  destruct (booking_total_is_sum_of_class_prices
              Sample.picking Sample.evening Sample.hall eq_refl eq_refl)
    as [Htotal [Hprem _]].
  split.
  - rewrite Htotal. reflexivity.
  - apply Hprem. simpl. right. left. reflexivity.
Defined.

(** ** Seat clicks *)

Lemma handleSeatClick_run (w : World) (st : SeatSelection.State)
    (seatId : string) :
  exec (SeatSelection.handleSeatClick seatId) (w, st)
  = if JS.includes_str (SeatSelection.occupiedSeats st) seatId then (w, st)
    else if JS.includes_str (SeatSelection.selectedSeats st) seatId then
      (w, with_selection
            (filter (fun id => negb (id =? seatId))
                    (SeatSelection.selectedSeats st)) st)
    else if (length (SeatSelection.selectedSeats st) <? 10)%nat then
      (w, with_selection (SeatSelection.selectedSeats st ++ [seatId]) st)
    else
      (emit (Toast "Limit Reached" "You can select maximum 10 seats" true) w,
       st).
Proof.
  unfold exec, SeatSelection.handleSeatClick, bind, getState. simpl.
  destruct (JS.includes_str (SeatSelection.occupiedSeats st) seatId);
    [reflexivity |].
  destruct (JS.includes_str (SeatSelection.selectedSeats st) seatId);
    [reflexivity |].
  destruct (length (SeatSelection.selectedSeats st) <? 10)%nat; reflexivity.
Qed.

Lemma click_keeps_occupied (w : World) (st : SeatSelection.State)
    (seatId : string) :
  SeatSelection.occupiedSeats
    (snd (exec (SeatSelection.handleSeatClick seatId) (w, st)))
  = SeatSelection.occupiedSeats st.
Proof.
  rewrite handleSeatClick_run.
  repeat match goal with |- context [if ?c then _ else _] => destruct c end;
    reflexivity.
Qed.

Lemma filter_other_id (x : string) (xs : list string) :
  ~ In x xs -> filter (fun id => negb (id =? x)) xs = xs.
Proof.
  induction xs as [| y ys IH]; simpl; intros H; [reflexivity |].
  destruct (String.eqb_spec y x) as [-> | Hne]; simpl.
  - exfalso. apply H. now left.
  - rewrite IH; [reflexivity | tauto].
Qed.

(** In a selection without repetition, filtering a seat out takes away
    its one occurrence and nothing else. *)
Lemma filter_removes_once (x : string) (xs : list string) :
  NoDup xs -> In x xs ->
  exists pre post,
    xs = pre ++ x :: post
    /\ filter (fun id => negb (id =? x)) xs = pre ++ post
    /\ ~ In x (pre ++ post).
Proof.
  intros Hnd Hin. destruct (in_split _ _ Hin) as [pre [post ->]].
  exists pre, post. apply NoDup_remove_2 in Hnd.
  split; [reflexivity |]. split; [| assumption].
  rewrite filter_app. simpl. rewrite String.eqb_refl. simpl.
  rewrite !filter_other_id; [reflexivity | |];
    intros H; apply Hnd; apply in_or_app; tauto.
Qed.

Lemma reachable_invariant (st : SeatSelection.State) :
  reachable st ->
  NoDup (SeatSelection.selectedSeats st)
  /\ (forall s, In s (SeatSelection.selectedSeats st) ->
                ~ In s (SeatSelection.occupiedSeats st))
  /\ (length (SeatSelection.selectedSeats st) <= 10)%nat.
Proof.
  induction 1 as [st Hempty | w st seatId Hr [Hnd [Hocc Hlen]]].
  - rewrite Hempty. repeat split; [constructor | intros s [] | simpl; lia].
  - rewrite handleSeatClick_run.
    destruct (JS.includes_str (SeatSelection.occupiedSeats st) seatId) eqn:Eo;
      [simpl; auto |].
    destruct (JS.includes_str (SeatSelection.selectedSeats st) seatId) eqn:Es.
    + simpl. repeat split.
      * now apply NoDup_filter.
      * intros s Hs. apply filter_In in Hs. apply Hocc, Hs.
      * etransitivity; [apply filter_length_le | exact Hlen].
    + destruct (Nat.ltb_spec (length (SeatSelection.selectedSeats st)) 10)
        as [Hlt | Hge]; [| simpl; auto].
      apply includes_str_not_In in Eo. apply includes_str_not_In in Es.
      simpl. repeat split.
      * apply NoDup_app; [assumption | repeat constructor; intros [] |].
        intros s Hs [<- | []]. contradiction.
      * intros s Hs. apply in_app_or in Hs.
        destruct Hs as [Hs | [<- | []]]; [now apply Hocc | assumption].
      * rewrite length_app. simpl. lia.
Qed.

(** C10: in every reachable selection state, a click on an occupied seat
    leaves the selection as it is, a click on a selected seat removes that
    seat and only it, and a click on a free, unselected seat below the
    limit appends it once; the selection holds no occupied seat and no
    seat twice, before the click and after it. *)
Theorem seat_click_discipline
    (st : SeatSelection.State) (Hreach : reachable st)
    (w : World) (seatId : string) :
  let sel := SeatSelection.selectedSeats st in
  let occ := SeatSelection.occupiedSeats st in
  let sel' := SeatSelection.selectedSeats
                (snd (exec (SeatSelection.handleSeatClick seatId) (w, st))) in
  (In seatId occ -> sel' = sel)
  /\ (~ In seatId occ -> In seatId sel ->
      exists pre post,
        sel = pre ++ seatId :: post /\ sel' = pre ++ post
        /\ ~ In seatId sel')
  /\ (~ In seatId occ -> ~ In seatId sel -> (length sel < 10)%nat ->
      sel' = sel ++ [seatId])
  /\ NoDup sel /\ (forall s, In s sel -> ~ In s occ)
  /\ NoDup sel' /\ (forall s, In s sel' -> ~ In s occ).
Proof.
  intros sel occ sel'.
  pose proof (reachable_invariant _ Hreach) as [Hnd [Hocc _]].
  pose proof (reachable_invariant _ (reach_click w st seatId Hreach))
    as [Hnd' [Hocc' _]].
  rewrite click_keeps_occupied in Hocc'.
  repeat split; try assumption; subst sel'; rewrite handleSeatClick_run.
  - intros Ho. apply includes_str_In in Ho. fold occ. now rewrite Ho.
  - intros Ho Hs. apply includes_str_not_In in Ho.
    apply includes_str_In in Hs. fold occ sel. rewrite Ho, Hs. simpl.
    apply includes_str_In in Hs.
    destruct (filter_removes_once seatId sel Hnd Hs) as [pre [post [E [F G]]]].
    exists pre, post. fold sel. rewrite F. auto.
  - intros Ho Hs Hlt. apply includes_str_not_In in Ho.
    apply includes_str_not_In in Hs. fold occ sel. rewrite Ho, Hs.
    apply Nat.ltb_lt in Hlt. now rewrite Hlt.
Qed.

Lemma seat_click_sample :
  SeatSelection.selectedSeats
    (snd (exec (SeatSelection.handleSeatClick "2-5")
               (Sample.world, Sample.loaded)))
  = ["2-5"].
Proof.
  destruct (seat_click_discipline Sample.loaded (reach_loaded Sample.loaded eq_refl)
              Sample.world "2-5") as [_ [_ [Happend _]]].
  apply Happend.
  - simpl. intros [H | [H | []]]; discriminate H.
  - simpl. intros [].
  - simpl. lia.
Defined.

(** ** Writing a booking *)

Lemma handleProceedToPayment_run (showtimeId : string) (w : World)
    (st : SeatSelection.State) :
  exec (SeatSelection.handleProceedToPayment showtimeId) (w, st)
  = if (length (SeatSelection.selectedSeats st) =? 0)%nat then
      (emit (Toast "No Seats Selected" "Please select at least one seat" true)
            w, st)
    else
      match me w with
      | Some user =>
          let id := ("booking_" ++ JS.show (clock w (ticks w)))%string in
          (emit (Navigate ("/booking/" ++ id)%string)
             (emit (Toast "Booking Created" "Redirecting to payment..." false)
                (set_bookings
                   (db_bookings w
                    ++ [Booking.mk id (Principal.id user) showtimeId
                          (ArrayText (SeatSelection.selectedSeats st))
                          (SeatSelection.calculateTotal st)
                          "confirmed" "pending"
                          ("QR_" ++ JS.show (clock w (S (ticks w)))
                           ++ "_" ++ Principal.id user)
                          false None])
                   (tick (tick w)))),
           st)
      | None =>
          (emit (Toast "Booking Failed" "Please try again" true)
             (emit (ConsoleError "Error creating booking:") (tick w)),
           st)
      end.
Proof.
  unfold exec, SeatSelection.handleProceedToPayment, bind, getState.
  cbn [fst snd].
  destruct (length (SeatSelection.selectedSeats st) =? 0)%nat;
    [reflexivity |].
  unfold try_catch, bind, auth_me, Date_now, bind, getWorld, modifyWorld, ret.
  cbn [fst snd].
  destruct (me w); reflexivity.
Qed.

(** C6: with no seat selected, submitting writes no booking and shows an
    error; a reachable selection never exceeds 10 seats; a click on an
    eleventh seat is refused with a message and changes nothing; hence
    every booking the page creates carries between 1 and 10 seats. *)
Theorem selection_size_guard :
  (forall showtimeId w st,
      SeatSelection.selectedSeats st = [] ->
      let out := exec (SeatSelection.handleProceedToPayment showtimeId)
                      (w, st) in
      db_bookings (fst out) = db_bookings w
      /\ effects (fst out)
         = effects w
           ++ [Toast "No Seats Selected" "Please select at least one seat"
                     true]
      /\ snd out = st)
  /\ (forall st, reachable st ->
                 (length (SeatSelection.selectedSeats st) <= 10)%nat)
  /\ (forall w st seatId,
         ~ In seatId (SeatSelection.occupiedSeats st) ->
         ~ In seatId (SeatSelection.selectedSeats st) ->
         (10 <= length (SeatSelection.selectedSeats st))%nat ->
         let out := exec (SeatSelection.handleSeatClick seatId) (w, st) in
         snd out = st
         /\ effects (fst out)
            = effects w
              ++ [Toast "Limit Reached" "You can select maximum 10 seats"
                        true])
  /\ (forall showtimeId w st b,
         reachable st ->
         In b (db_bookings
                 (fst (exec (SeatSelection.handleProceedToPayment showtimeId)
                            (w, st)))) ->
         In b (db_bookings w)
         \/ (Booking.seats b = ArrayText (SeatSelection.selectedSeats st)
             /\ (1 <= length (SeatSelection.selectedSeats st) <= 10)%nat)).
Proof.
  split; [| split; [| split]].
  - intros showtimeId w st Hempty out. subst out.
    rewrite handleProceedToPayment_run, Hempty. repeat split.
  - intros st Hr. now apply reachable_invariant.
  - intros w st seatId Hocc Hsel Hfull out. subst out.
    rewrite handleSeatClick_run.
    apply includes_str_not_In in Hocc. apply includes_str_not_In in Hsel.
    rewrite Hocc, Hsel. apply Nat.ltb_ge in Hfull. rewrite Hfull.
    split; reflexivity.
  - intros showtimeId w st b Hr Hin.
    rewrite handleProceedToPayment_run in Hin.
    destruct (Nat.eqb_spec (length (SeatSelection.selectedSeats st)) 0)
      as [Hz | Hnz]; [left; exact Hin |].
    destruct (me w); [| left; exact Hin].
    cbn in Hin. apply in_app_or in Hin.
    destruct Hin as [Hin | [<- | []]]; [now left |].
    right. split; [reflexivity |].
    pose proof (reachable_invariant _ Hr) as [_ [_ Hle]]. lia.
Qed.

Lemma selection_size_sample :
  db_bookings
    (fst (exec (SeatSelection.handleProceedToPayment "st1")
               (Sample.world, Sample.loaded)))
  = db_bookings Sample.world.
Proof.
  destruct selection_size_guard as [Hempty _].
  apply (Hempty "st1" Sample.world Sample.loaded eq_refl).
Defined.

(** C2 (as amended): on confirming a non-empty selection in a signed-in
    session, exactly one booking row is appended; its id is derived from a
    clock reading alone, its check-in code from a clock reading and the
    user id; its seat list is the selection, its total the computed total,
    its status 'confirmed', its payment status 'pending', its checked-in
    flag false; then the page navigates to the confirmation view of that
    id. *)
Theorem booking_written_on_confirm
    (showtimeId : string) (w : World) (st : SeatSelection.State)
    (user : Principal.t)
    (Hme : me w = Some user)
    (Hsel : SeatSelection.selectedSeats st <> []) :
  let out := exec (SeatSelection.handleProceedToPayment showtimeId) (w, st) in
  exists b,
    db_bookings (fst out) = db_bookings w ++ [b]
    /\ Booking.id b = ("booking_" ++ JS.show (clock w (ticks w)))%string
    /\ Booking.qr_code b
       = ("QR_" ++ JS.show (clock w (S (ticks w))) ++ "_"
          ++ Principal.id user)%string
    /\ Booking.user_id b = Principal.id user
    /\ Booking.showtime_id b = showtimeId
    /\ Booking.seats b = JSON_stringify (SeatSelection.selectedSeats st)
    /\ seat_list b = SeatSelection.selectedSeats st
    /\ Booking.total_amount b = SeatSelection.calculateTotal st
    /\ Booking.booking_status b = "confirmed"
    /\ Booking.payment_status b = "pending"
    /\ Booking.checked_in b = false
    /\ Booking.check_in_time b = None
    /\ effects (fst out)
       = effects w
         ++ [Toast "Booking Created" "Redirecting to payment..." false;
             Navigate ("/booking/" ++ Booking.id b)%string]
    /\ snd out = st.
Proof.
  intros out. subst out. rewrite handleProceedToPayment_run, Hme.
  destruct (SeatSelection.selectedSeats st) as [| s0 sel] eqn:E;
    [congruence |].
  cbn [length Nat.eqb]. eexists. split; [reflexivity |].
  cbn. rewrite <- app_assoc. repeat split; reflexivity.
Qed.

Lemma booking_written_sample :
  exists b,
    written_booking "st1" Sample.world Sample.picking = Some b
    /\ Booking.id b = "booking_1700000000000"
    /\ Booking.qr_code b = "QR_1700000000001_u1"
    /\ Booking.total_amount b = 800%float.
Proof.
  destruct (booking_written_on_confirm "st1" Sample.world Sample.picking
              Sample.alice eq_refl)
    as [b [Hdb [Hid [Hqr [_ [_ [_ [_ [Htot _]]]]]]]]].
  - discriminate.
  - exists b. unfold written_booking. rewrite Hdb, rev_app_distr.
    split; [reflexivity |]. rewrite Hid, Hqr, Htot.
    repeat split; reflexivity.
Defined.

(** C2 as stated fails for the booking id: two different users who confirm
    at the same clock reading are given the same booking id, so the id
    carries no user id (only the check-in code does). *)
Lemma booking_id_ignores_user :
  exists b1 b2,
    written_booking "st1" (Sample.world_of (Some Sample.alice)) Sample.picking
    = Some b1
    /\ written_booking "st1" (Sample.world_of (Some Sample.bob)) Sample.picking
       = Some b2
    /\ Booking.user_id b1 <> Booking.user_id b2
    /\ Booking.id b1 = Booking.id b2
    /\ Booking.qr_code b1 <> Booking.qr_code b2.
Proof.
  eexists. eexists.
  split; [vm_compute; reflexivity |].
  split; [vm_compute; reflexivity |].
  repeat split; cbn; congruence.
Qed.

(** ** Occupied seats *)

Lemma forEach_seats (S : Type) (bs : list Booking.t) (acc : list string)
    (s : S) :
  (forall b, In b bs -> Booking.seats b <> OtherText) ->
  forEach bs
    (fun occupied booking =>
       if truthy (Booking.seats booking) then
         seats <- JSON_parse (Booking.seats booking) ;;
         ret (occupied ++ seats)
       else ret occupied)
    acc s
  = (Returned (acc ++ flat_map seat_list bs), s).
Proof.
  revert acc. induction bs as [| b bs IH]; intros acc Hwf; simpl.
  - now rewrite app_nil_r.
  - assert (Hb : Booking.seats b <> OtherText) by (apply Hwf; now left).
    unfold bind at 1, seat_list at 1.
    destruct (Booking.seats b) as [| seats |]; simpl; [| | congruence].
    + unfold ret at 1. apply IH. intros b' Hb'. apply Hwf. now right.
    + unfold bind, JSON_parse, ret at 1 2. rewrite IH.
      * now rewrite app_assoc.
      * intros b' Hb'. apply Hwf. now right.
Qed.

Lemma confirmed_for_filter (showtimeId : string) (b : Booking.t) :
  (Booking.showtime_id b =? showtimeId)
  && (Booking.booking_status b =? "confirmed") = true
  <-> confirmed_for showtimeId b.
Proof.
  unfold confirmed_for. rewrite andb_true_iff, !String.eqb_eq. reflexivity.
Qed.

(** The seat page writes seat lists only: a store of readable seats stays
    one. *)
Lemma payment_keeps_seats_readable (showtimeId : string) (w : World)
    (st : SeatSelection.State) :
  seats_readable w ->
  seats_readable
    (fst (exec (SeatSelection.handleProceedToPayment showtimeId) (w, st))).
Proof.
  intros Hw b. rewrite handleProceedToPayment_run.
  destruct (length (SeatSelection.selectedSeats st) =? 0)%nat;
    [apply Hw |].
  destruct (me w); [| apply Hw].
  cbn. intros Hin. apply in_app_or in Hin.
  destruct Hin as [Hin | [<- | []]]; [now apply Hw | discriminate].
Qed.

(** C1: loading the occupied seats of a showtime gives exactly the union
    of the seat lists of the bookings of that showtime whose status is
    'confirmed' (whose seats column holds a seat list or nothing); a seat
    named only by bookings of another status is not in it. *)
Theorem occupied_is_union_of_confirmed
    (showtimeId : string) (w : World) (st : SeatSelection.State)
    (Hseats : forall b, In b (db_bookings w) -> confirmed_for showtimeId b ->
                        Booking.seats b <> OtherText) :
  let out := exec (SeatSelection.fetchOccupiedSeats showtimeId) (w, st) in
  (forall seat,
      In seat (SeatSelection.occupiedSeats (snd out))
      <-> exists b, In b (db_bookings w) /\ confirmed_for showtimeId b
                    /\ In seat (seat_list b))
  /\ SeatSelection.occupiedSeats (snd out)
     = flat_map seat_list
         (filter (fun b => (Booking.showtime_id b =? showtimeId)
                           && (Booking.booking_status b =? "confirmed"))
                 (db_bookings w))
  /\ SeatSelection.selectedSeats (snd out) = SeatSelection.selectedSeats st
  /\ fst out = w.
Proof.
  intros out.
  assert (Hrun : out
                 = (w, SeatSelection.mkState
                         (SeatSelection.showtime st)
                         (SeatSelection.seatLayout st)
                         (SeatSelection.selectedSeats st)
                         (flat_map seat_list
                            (filter
                               (fun b =>
                                  (Booking.showtime_id b =? showtimeId)
                                  && (Booking.booking_status b =? "confirmed"))
                               (db_bookings w)))
                         (SeatSelection.loading st))).
  { subst out.
    unfold exec, SeatSelection.fetchOccupiedSeats, try_catch, bind, getWorld.
    cbn [fst snd Db.list_where].
    rewrite forEach_seats; [reflexivity |].
    intros b Hb. apply filter_In in Hb. destruct Hb as [Hin Hc].
    apply Hseats; [assumption | now apply confirmed_for_filter]. }
  rewrite Hrun. cbn [fst snd SeatSelection.occupiedSeats
                     SeatSelection.selectedSeats].
  repeat split; try reflexivity.
  - intros Hin. apply in_flat_map in Hin. destruct Hin as [b [Hb Hs]].
    apply filter_In in Hb. destruct Hb as [Hb Hc].
    exists b.
    split; [assumption | split; [now apply confirmed_for_filter | assumption]].
  - intros [b [Hb [Hc Hs]]]. apply in_flat_map. exists b.
    split; [| assumption]. apply filter_In.
    split; [assumption | now apply confirmed_for_filter].
Qed.

Lemma occupied_sample :
  SeatSelection.occupiedSeats
    (snd (exec (SeatSelection.fetchOccupiedSeats "st1")
               (Sample.world, SeatSelection.initial)))
  = ["1-1"; "1-2"].
Proof.
  destruct (occupied_is_union_of_confirmed "st1" Sample.world
              SeatSelection.initial) as [_ [Hocc _]].
  - intros b [<- | [<- | [<- | []]]] _; discriminate.
  - rewrite Hocc. reflexivity.
Defined.

(** ** Check-in *)

Lemma firstn_1_filter (A : Type) (p : A -> bool) (xs : list A) :
  firstn 1 (filter p xs)
  = match find p xs with Some x => [x] | None => [] end.
Proof.
  induction xs as [| x xs IH]; simpl; [reflexivity |].
  destruct (p x); [reflexivity | exact IH].
Qed.

Lemma hd_error_firstn_1_filter (A : Type) (p : A -> bool) (xs : list A) :
  hd_error (firstn 1 (filter p xs)) = find p xs.
Proof. rewrite firstn_1_filter. now destruct (find p xs). Qed.

Lemma handleQRScan_run (w : World) (st : CheckInInterface.State) :
  let failed message :=
    CheckInInterface.mkState (CheckInInterface.qrCode st)
      (Some (CheckInInterface.mkResult false None message)) false in
  exec CheckInInterface.handleQRScan (w, st)
  = if JS.trim (CheckInInterface.qrCode st) =? "" then
      (emit (Toast "Invalid QR Code" "Please enter a valid QR code" true) w,
       st)
    else
      match matched (CheckInInterface.qrCode st) w with
      | None => (w, failed "Invalid QR code. Booking not found.")
      | Some booking =>
          if Booking.checked_in booking then
            (w, failed "This ticket has already been used for check-in.")
          else if negb (Booking.booking_status booking =? "confirmed") then
            (w, failed "This booking is not confirmed.")
          else
            match find (fun s => Showtime.id s =? Booking.showtime_id booking)
                       (db_showtimes w) with
            | None => (w, failed "Showtime not found.")
            | Some showtime =>
                let w' :=
                  set_bookings
                    (Db.update Booking.id (Booking.id booking)
                               (Booking.check_in (clock w (ticks w)))
                               (db_bookings w))
                    (tick w) in
                match Booking.seats booking with
                | ArrayText seats =>
                    (emit (Toast "Check-in Successful"
                                 "Customer has been checked in successfully"
                                 false) w',
                     CheckInInterface.mkState (CheckInInterface.qrCode st)
                       (Some
                          (CheckInInterface.mkResult true
                             (Some
                                (CheckInInterface.Ticket.mk
                                   (Booking.id booking)
                                   (or_else
                                      (option_map Movie.title
                                         (find (fun m => Movie.id m
                                                         =? Showtime.movie_id showtime)
                                               (db_movies w)))
                                      "Unknown Movie")
                                   (or_else
                                      (option_map Theater.name
                                         (find (fun t => Theater.id t
                                                         =? Showtime.theater_id showtime)
                                               (db_theaters w)))
                                      "Unknown Theater")
                                   (Showtime.show_date showtime)
                                   (Showtime.show_time showtime)
                                   seats
                                   (or_else
                                      (option_map User.name
                                         (find (fun u => User.id u
                                                         =? Booking.user_id booking)
                                               (db_users w)))
                                      "Unknown User")))
                             "Check-in successful!"))
                       false)
                | EmptyText | OtherText =>
                    (emit (ConsoleError "Error during check-in:") w',
                     failed
                       "An error occurred during check-in. Please try again.")
                end
            end
      end.
Proof.
  intros failed. subst failed.
  unfold exec, CheckInInterface.handleQRScan, bind at 1, getState.
  cbn [fst snd].
  destruct (JS.trim (CheckInInterface.qrCode st) =? ""); [reflexivity |].
  unfold try_catch_finally, try_catch, bind, getWorld, Date_now, bind,
    getWorld, modifyWorld, ret, CheckInInterface.setLoading,
    CheckInInterface.setCheckInResult, setState, Db.list_where, matched.
  cbn [fst snd].
  rewrite (firstn_1_filter _ _ (db_bookings w)).
  destruct (find _ (db_bookings w)) as [booking |]; [| reflexivity].
  destruct (Booking.checked_in booking); [reflexivity |].
  cbn [JS.Number_of_bool Z.ltb Z.compare].
  destruct (Booking.booking_status booking =? "confirmed");
    [| reflexivity].
  cbn [negb]. rewrite (firstn_1_filter _ _ (db_showtimes w)).
  destruct (find _ (db_showtimes w)) as [showtime |]; [| reflexivity].
  unfold JSON_parse.
  destruct (Booking.seats booking); try reflexivity.
  unfold ret, toast, modifyWorld. cbn [fst snd].
  rewrite !hd_error_firstn_1_filter. reflexivity.
Qed.

(** Reads off the result a finished run has left in [Hr] and closes the
    goal when it contradicts [Hno]. *)
Ltac result_excludes Hrun Hr Hno :=
  rewrite Hrun in Hr; cbn in Hr; inversion Hr; subst; discriminate Hno.

(** Walks the branches of the handler for a matched booking [b]. *)
Ltac check_in_branches b w Hrun Hr Hno :=
  destruct (Booking.checked_in b);
    [result_excludes Hrun Hr Hno |];
  destruct (negb (Booking.booking_status b =? "confirmed"));
    [result_excludes Hrun Hr Hno |];
  destruct (find _ (db_showtimes w));
    [| result_excludes Hrun Hr Hno];
  destruct (Booking.seats b);
    try (result_excludes Hrun Hr Hno).

Lemma find_map_preserved (A : Type) (p : A -> bool) (f : A -> A)
    (xs : list A) :
  (forall x, p (f x) = p x) ->
  find p (map f xs) = option_map f (find p xs).
Proof.
  intros Hp. induction xs as [| x xs IH]; simpl; [reflexivity |].
  rewrite Hp. destruct (p x); [reflexivity | exact IH].
Qed.

(** After the patch of a check-in, the same code finds the same booking,
    now checked in. *)
Lemma matched_after_check_in (code : string) (w w' : World) (b : Booking.t)
    (now : N) :
  matched code w = Some b ->
  db_bookings w'
  = Db.update Booking.id (Booking.id b) (Booking.check_in now) (db_bookings w) ->
  matched code w' = Some (Booking.check_in now b).
Proof.
  unfold matched. intros Hm ->. unfold Db.update.
  rewrite find_map_preserved.
  - rewrite Hm. simpl. now rewrite String.eqb_refl.
  - intros x. now destruct (Booking.id x =? Booking.id b).
Qed.

Lemma matched_none (code : string) (w : World) :
  matched code w = None
  <-> forall b, In b (db_bookings w) -> Booking.qr_code b <> JS.trim code.
Proof.
  unfold matched. split.
  - intros Hnone b Hb E.
    pose proof (find_none _ _ Hnone b Hb) as Hf. simpl in Hf.
    rewrite E, String.eqb_refl in Hf. discriminate.
  - intros Hall.
    destruct (find _ (db_bookings w)) as [b |] eqn:E; [| reflexivity].
    apply find_some in E. destruct E as [Hin Hq].
    apply String.eqb_eq in Hq. now apply Hall in Hin.
Qed.

(** A check-in leaves the seats column alone. *)
Lemma check_in_keeps_seats_readable (w : World)
    (st : CheckInInterface.State) :
  seats_readable w ->
  seats_readable (fst (exec CheckInInterface.handleQRScan (w, st))).
Proof.
  intros Hw. pose proof (handleQRScan_run w st) as Hrun. cbv zeta in Hrun.
  rewrite Hrun. clear Hrun.
  assert (Hpatched : forall id now w',
             db_bookings w'
             = Db.update Booking.id id (Booking.check_in now) (db_bookings w) ->
             seats_readable w').
  { intros id now w' E b Hb. rewrite E in Hb. unfold Db.update in Hb.
    apply in_map_iff in Hb. destruct Hb as [b0 [<- Hb0]].
    destruct (Booking.id b0 =? id); [cbn |]; now apply Hw. }
  destruct (JS.trim (CheckInInterface.qrCode st) =? ""); [exact Hw |].
  destruct (matched (CheckInInterface.qrCode st) w) as [b |]; [| exact Hw].
  destruct (Booking.checked_in b); [exact Hw |].
  destruct (negb (Booking.booking_status b =? "confirmed")); [exact Hw |].
  destruct (find _ (db_showtimes w)); [| exact Hw].
  destruct (Booking.seats b); cbn [fst];
    eapply Hpatched; reflexivity.
Qed.

(** C4 (as amended): for a non-blank entry, the check-in ends with the
    'not found' message exactly when no booking carries the entered code;
    with the 'already used' message when the matched booking is already
    checked in (as it is after a successful check-in with the same code);
    with the 'not confirmed' message when the matched, unused booking has
    another status; none of these ends in success or touches the store.
    A blank entry (empty once trimmed) is turned away with the 'Invalid QR
    Code' toast before any lookup: no result is set, and the store is
    left as it was. *)
Theorem check_in_failures (w : World) (st : CheckInInterface.State) :
  let out := exec CheckInInterface.handleQRScan (w, st) in
  let rejected message :=
    CheckInInterface.checkInResult (snd out)
    = Some (CheckInInterface.mkResult false None message)
    /\ CheckInInterface.loading (snd out) = false
    /\ fst out = w in
  (JS.trim (CheckInInterface.qrCode st) <> "" ->
   ((exists r, CheckInInterface.checkInResult (snd out) = Some r
               /\ CheckInInterface.message r
                  = "Invalid QR code. Booking not found.")
    <-> (forall b, In b (db_bookings w) ->
                   Booking.qr_code b <> JS.trim (CheckInInterface.qrCode st)))
   /\ (matched (CheckInInterface.qrCode st) w = None ->
       rejected "Invalid QR code. Booking not found.")
   /\ (forall b, matched (CheckInInterface.qrCode st) w = Some b ->
                 Booking.checked_in b = true ->
                 rejected "This ticket has already been used for check-in.")
   /\ (forall b, matched (CheckInInterface.qrCode st) w = Some b ->
                 Booking.checked_in b = false ->
                 Booking.booking_status b <> "confirmed" ->
                 rejected "This booking is not confirmed.")
   /\ (forall r, CheckInInterface.checkInResult (snd out) = Some r ->
                 CheckInInterface.success r = true ->
                 check_in_outcome (fst out) (snd out)
                 = Some (CheckInInterface.mkResult false None
                           "This ticket has already been used for check-in.")))
  /\ (JS.trim (CheckInInterface.qrCode st) = "" ->
      out
      = (emit (Toast "Invalid QR Code" "Please enter a valid QR code" true) w,
         st)).
Proof.
  intros out rejected. subst rejected.
  assert (Hrun := handleQRScan_run w st). cbv zeta in Hrun. fold out in Hrun.
  split.
  - intros Hcode.
    apply String.eqb_neq in Hcode. rewrite Hcode in Hrun.
    split; [| split; [| split; [| split]]].
    + rewrite <- matched_none.
      destruct (matched (CheckInInterface.qrCode st) w) as [b |] eqn:Hm.
      * split; [| discriminate]. intros [r [Hr Hmsg]]. exfalso.
        check_in_branches b w Hrun Hr Hmsg.
      * split; [reflexivity |]. intros _. rewrite Hrun. cbn. eauto.
    + intros Hm. rewrite Hm in Hrun. rewrite Hrun. cbn. auto.
    + intros b Hm Hused. rewrite Hm, Hused in Hrun. rewrite Hrun. cbn. auto.
    + intros b Hm Hfresh Hstatus. apply String.eqb_neq in Hstatus.
      rewrite Hm, Hfresh, Hstatus in Hrun. rewrite Hrun. cbn. auto.
    + intros r Hr Hsucc. unfold check_in_outcome.
      destruct (matched (CheckInInterface.qrCode st) w) as [b |] eqn:Hm;
        [| result_excludes Hrun Hr Hsucc].
      check_in_branches b w Hrun Hr Hsucc.
      assert (Hagain := handleQRScan_run (fst out) (snd out)).
      cbv zeta in Hagain. rewrite Hagain. rewrite Hrun.
      cbn [fst snd CheckInInterface.qrCode]. rewrite Hcode.
      rewrite (matched_after_check_in _ w _ b (clock w (ticks w)) Hm);
        [reflexivity | reflexivity].
  - intros Hblank. rewrite Hblank in Hrun. exact Hrun.
Qed.

Lemma check_in_unknown_code_sample :
  check_in_outcome Sample.world
    (CheckInInterface.mkState " QR_0_nobody " None false)
  = Some (CheckInInterface.mkResult false None
            "Invalid QR code. Booking not found.").
Proof.
  destruct (check_in_failures Sample.world
              (CheckInInterface.mkState " QR_0_nobody " None false))
    as [Hfail _].
  destruct Hfail as [_ [Hnone _]].
  - vm_compute. discriminate.
  - apply Hnone. reflexivity.
Defined.

(** C4 as stated fails: no booking carries a blank entry, trimmed or
    not, yet the check-in does not end with the 'not found' message: it
    sets no result at all and only raises the 'Invalid QR Code' toast. *)
Lemma check_in_blank_is_not_reported :
  let st := CheckInInterface.mkState "  " None false in
  let out := exec CheckInInterface.handleQRScan (Sample.world, st) in
  (forall b, In b (db_bookings Sample.world) ->
             Booking.qr_code b <> CheckInInterface.qrCode st
             /\ Booking.qr_code b <> JS.trim (CheckInInterface.qrCode st))
  /\ matched (CheckInInterface.qrCode st) Sample.world = None
  /\ CheckInInterface.checkInResult (snd out) = None
  /\ effects (fst out)
     = [Toast "Invalid QR Code" "Please enter a valid QR code" true].
Proof.
  split; [| repeat split].
  intros b [<- | [<- | [<- | []]]]; split; discriminate.
Qed.

(** C3 as stated fails: a confirmed, unused booking found by its code is
    turned away with 'Showtime not found.' when its showtime row is
    missing, and its checked-in flag stays unset. *)
Lemma check_in_without_showtime :
  let st := CheckInInterface.mkState "QR_1002_u1" None false in
  matched "QR_1002_u1" Sample.world = Some Sample.orphan
  /\ Booking.booking_status Sample.orphan = "confirmed"
  /\ Booking.checked_in Sample.orphan = false
  /\ check_in_outcome Sample.world st
     = Some (CheckInInterface.mkResult false None "Showtime not found.")
  /\ matched "QR_1002_u1"
       (fst (exec CheckInInterface.handleQRScan (Sample.world, st)))
     = Some Sample.orphan.
Proof. repeat split. Qed.

(** C3 (as amended): take a booking found by a non-blank entered code
    that is confirmed and unused.  When its showtime row exists and its
    seats column holds a seat list, it is shown with its showtime, movie,
    theater and user details, its checked-in flag and check-in time are
    set in the store, and the check-in ends in success.  When its
    showtime row does not exist, the check-in ends in failure with
    'Showtime not found.' and the store, the booking with it, is left as
    it was. *)
Theorem check_in_success
    (w : World) (st : CheckInInterface.State) (b : Booking.t)
    (Hcode : JS.trim (CheckInInterface.qrCode st) <> "")
    (Hmatch : matched (CheckInInterface.qrCode st) w = Some b)
    (Hconfirmed : Booking.booking_status b = "confirmed")
    (Hunused : Booking.checked_in b = false) :
  let out := exec CheckInInterface.handleQRScan (w, st) in
  let now := clock w (ticks w) in
  let showtime_of_booking :=
    find (fun s => Showtime.id s =? Booking.showtime_id b) (db_showtimes w) in
  (forall showtime seats,
      showtime_of_booking = Some showtime ->
      Booking.seats b = ArrayText seats ->
      (exists ticket,
          CheckInInterface.checkInResult (snd out)
          = Some (CheckInInterface.mkResult true (Some ticket)
                    "Check-in successful!")
          /\ CheckInInterface.Ticket.id ticket = Booking.id b
          /\ CheckInInterface.Ticket.seats ticket = seats
          /\ CheckInInterface.Ticket.show_date ticket
             = Showtime.show_date showtime
          /\ CheckInInterface.Ticket.show_time ticket
             = Showtime.show_time showtime
          /\ CheckInInterface.Ticket.movie_title ticket
             = or_else (option_map Movie.title
                          (find (fun m => Movie.id m
                                          =? Showtime.movie_id showtime)
                                (db_movies w)))
                       "Unknown Movie"
          /\ CheckInInterface.Ticket.theater_name ticket
             = or_else (option_map Theater.name
                          (find (fun t => Theater.id t
                                          =? Showtime.theater_id showtime)
                                (db_theaters w)))
                       "Unknown Theater"
          /\ CheckInInterface.Ticket.user_name ticket
             = or_else (option_map User.name
                          (find (fun u => User.id u =? Booking.user_id b)
                                (db_users w)))
                       "Unknown User")
      /\ CheckInInterface.loading (snd out) = false
      /\ db_bookings (fst out)
         = map (fun r => if Booking.id r =? Booking.id b
                         then Booking.check_in now r else r)
               (db_bookings w)
      /\ (exists b',
             matched (CheckInInterface.qrCode st) (fst out) = Some b'
             /\ Booking.checked_in b' = true
             /\ Booking.check_in_time b' = Some now
             /\ Booking.id b' = Booking.id b
             /\ Booking.seats b' = Booking.seats b
             /\ Booking.booking_status b' = Booking.booking_status b
             /\ Booking.qr_code b' = Booking.qr_code b))
  /\ (showtime_of_booking = None ->
      CheckInInterface.checkInResult (snd out)
      = Some (CheckInInterface.mkResult false None "Showtime not found.")
      /\ CheckInInterface.loading (snd out) = false
      /\ fst out = w
      /\ matched (CheckInInterface.qrCode st) (fst out) = Some b).
Proof.
  intros out now showtime_of_booking. subst showtime_of_booking.
  assert (Hrun := handleQRScan_run w st). cbv zeta in Hrun. fold out in Hrun.
  apply String.eqb_neq in Hcode.
  rewrite Hcode, Hmatch, Hunused, Hconfirmed in Hrun.
  change ("confirmed" =? "confirmed") with true in Hrun. cbn [negb] in Hrun.
  split.
  - intros showtime seats Hshowtime Hseats.
    rewrite Hshowtime, Hseats in Hrun.
    rewrite Hrun. cbn [fst snd].
    split; [| split; [reflexivity | split; [reflexivity |]]].
    + eexists. split; [reflexivity |]. cbn. repeat split; reflexivity.
    + exists (Booking.check_in now b).
      split; [| cbn; repeat split; reflexivity].
      apply (matched_after_check_in _ w); [assumption | reflexivity].
  - intros Hshowtime. rewrite Hshowtime in Hrun. rewrite Hrun.
    cbn [fst snd CheckInInterface.checkInResult CheckInInterface.loading].
    repeat split; assumption.
Qed.

Lemma check_in_success_sample :
  exists ticket,
    check_in_outcome Sample.world
      (CheckInInterface.mkState "QR_1000_u1" None false)
    = Some (CheckInInterface.mkResult true (Some ticket)
              "Check-in successful!")
    /\ CheckInInterface.Ticket.seats ticket = ["1-1"; "1-2"].
Proof.
  assert (Hcode : JS.trim "QR_1000_u1" <> "") by (vm_compute; discriminate).
  destruct (check_in_success Sample.world
              (CheckInInterface.mkState "QR_1000_u1" None false)
              Sample.paid Hcode eq_refl eq_refl eq_refl)
    as [Hok _].
  destruct (Hok Sample.evening ["1-1"; "1-2"] eq_refl eq_refl)
    as [[ticket [Hres [_ [Hseats _]]]] _].
  exists ticket. split; assumption.
Defined.

(** ** Session bootstrap *)

Lemma split_first_local_part (email : string) :
  is_local_part email (JS.split_first "@" email).
Proof.
  unfold is_local_part. induction email as [| c rest [Hno Hsplit]]; simpl.
  - split; [intros [] | now left].
  - destruct (Ascii.eqb_spec c "@"%char) as [-> | Hc]; simpl.
    + split; [intros [] | right; now exists rest].
    + split.
      * intros [E | Hin]; [now apply Hc | now apply Hno].
      * destruct Hsplit as [E | [domain E]].
        -- left. now rewrite <- E.
        -- right. exists domain. now rewrite E at 1.
Qed.

Lemma fetchUserDetails_run (userId : string) (w : World) (st : App.State) :
  App.fetchUserDetails userId (w, st)
  = (Returned tt,
     match find (fun u => User.id u =? userId) (db_users w) with
     | Some existing => (w, App.mkState (Some existing) (App.loading st))
     | None =>
         match me w with
         | Some authUser =>
             let newUser :=
               User.mk userId (Principal.email authUser)
                       (or_else (Principal.displayName authUser)
                                (JS.split_first "@" (Principal.email authUser)))
                       customer None in
             (set_users (db_users w ++ [newUser]) w,
              App.mkState (Some newUser) (App.loading st))
         | None =>
             (emit (ConsoleError "Error fetching user details:") w, st)
         end
     end).
Proof.
  unfold App.fetchUserDetails, try_catch, bind at 1, getWorld, Db.list_where.
  cbn [fst snd]. rewrite firstn_1_filter.
  destruct (find _ (db_users w)) as [existing |]; [reflexivity |].
  unfold bind, auth_me, bind, getWorld, ret. cbn [fst snd].
  destruct (me w); reflexivity.
Qed.

Lemma onAuthStateChanged_run (w : World) (st : App.State)
    (event : App.AuthState) (principal : Principal.t) :
  App.auth_user event = Some principal ->
  exec (App.onAuthStateChanged event) (w, st)
  = let out := exec (App.fetchUserDetails (Principal.id principal)) (w, st) in
    (fst out, App.mkState (App.user (snd out)) (App.isLoading event)).
Proof.
  intros Hev. unfold App.onAuthStateChanged. rewrite Hev.
  unfold exec, bind. rewrite fetchUserDetails_run. cbn [fst snd].
  match goal with |- context [match ?x with _ => _ end] => destruct x end;
    [reflexivity |].
  destruct (me w); reflexivity.
Qed.

Lemma find_none_iff_no_user (id : string) (w : World) :
  find (fun u => User.id u =? id) (db_users w) = None
  <-> forall u, In u (db_users w) -> User.id u <> id.
Proof.
  split.
  - intros Hnone u Hu E. pose proof (find_none _ _ Hnone u Hu) as Hf.
    simpl in Hf. rewrite E, String.eqb_refl in Hf. discriminate.
  - intros Hall. destruct (find _ (db_users w)) as [u |] eqn:E;
      [| reflexivity].
    apply find_some in E. destruct E as [Hin Hid].
    apply String.eqb_eq in Hid. now apply Hall in Hin.
Qed.

Lemma filter_none (A : Type) (p : A -> bool) (xs : list A) :
  find p xs = None -> filter p xs = [].
Proof.
  induction xs as [| x xs IH]; simpl; [reflexivity |].
  destruct (p x); [discriminate | exact IH].
Qed.

(** C7: on an auth event that carries a principal, the user is looked up
    by the principal's id.  When no row exists, exactly one row is
    created, with role 'customer' and the display name as name, or the
    local part of the email when there is no display name, and it becomes
    the session user; when a row exists, the store is left as it is and
    that row becomes the session user. *)
Theorem session_bootstrap
    (w : World) (st : App.State) (event : App.AuthState)
    (principal : Principal.t)
    (Hevent : App.auth_user event = Some principal)
    (Hme : me w = Some principal) :
  let out := exec (App.onAuthStateChanged event) (w, st) in
  ((forall u, In u (db_users w) -> User.id u <> Principal.id principal) ->
   exists created,
     db_users (fst out) = db_users w ++ [created]
     /\ App.user (snd out) = Some created
     /\ User.id created = Principal.id principal
     /\ User.email created = Principal.email principal
     /\ User.role created = customer
     /\ (forall shown, Principal.displayName principal = Some shown ->
                       shown <> "" -> User.name created = shown)
     /\ (Principal.displayName principal = None
         \/ Principal.displayName principal = Some "" ->
         is_local_part (Principal.email principal) (User.name created))
     /\ users_with_id (Principal.id principal) (fst out) = 1%nat)
  /\ (forall existing,
         find (fun u => User.id u =? Principal.id principal) (db_users w)
         = Some existing ->
         fst out = w
         /\ App.user (snd out) = Some existing
         /\ User.id existing = Principal.id principal)
  /\ App.loading (snd out) = App.isLoading event.
Proof.
  intros out. subst out.
  rewrite (onAuthStateChanged_run w st event principal Hevent).
  unfold exec. rewrite fetchUserDetails_run, Hme. cbn [fst snd].
  split; [| split].
  - intros Habsent. apply find_none_iff_no_user in Habsent.
    rewrite Habsent. cbn.
    eexists. split; [reflexivity |]. split; [reflexivity |].
    cbn [User.id User.email User.role User.name].
    do 3 (split; [reflexivity |]). split; [| split].
    + intros shown Hd Hne. rewrite Hd. cbn. apply String.eqb_neq in Hne.
      now rewrite Hne.
    + intros [Hd | Hd]; rewrite Hd; cbn; apply split_first_local_part.
    + unfold users_with_id. cbn. rewrite filter_app, (filter_none _ _ _ Habsent).
      cbn. now rewrite String.eqb_refl.
  - intros existing Hfind. rewrite Hfind. cbn. repeat split.
    apply find_some in Hfind. destruct Hfind as [_ Hid].
    now apply String.eqb_eq in Hid.
  - match goal with |- context [match ?x with _ => _ end] => destruct x end;
      reflexivity.
Qed.

Lemma session_bootstrap_sample :
  exists created,
    db_users (fst (exec (App.onAuthStateChanged
                           (App.mkAuthState (Some Sample.bob) false))
                        (Sample.world_of (Some Sample.bob), App.initial)))
    = [Sample.alice_user; created]
    /\ User.name created = "bob"
    /\ User.role created = customer.
Proof.
  destruct (session_bootstrap (Sample.world_of (Some Sample.bob)) App.initial
              (App.mkAuthState (Some Sample.bob) false) Sample.bob
              eq_refl eq_refl) as [Hnew _].
  destruct Hnew as [created [Hdb [_ [_ [_ [Hrole [_ [Hlocal _]]]]]]]].
  - intros u [<- | []]. discriminate.
  - exists created. split; [exact Hdb |]. split; [| exact Hrole].
    assert (E : created
                = User.mk "u2" "bob@example.com" "bob" customer None).
    { cbn in Hdb. now injection Hdb. }
    rewrite E. reflexivity.
Defined.

(** ** Theater approval *)

Lemma insert_desc_In (R : Type) (key : R -> N) (r x : R) (rows : list R) :
  In x (Db.insert_desc key r rows) <-> x = r \/ In x rows.
Proof.
  induction rows as [| r' rest IH]; simpl.
  - intuition.
  - destruct (key r' <? key r)%N; simpl; [intuition |].
    rewrite IH. intuition.
Qed.

Lemma order_desc_In (R : Type) (key : R -> N) (x : R) (rows : list R) :
  In x (Db.order_desc key rows) <-> In x rows.
Proof.
  unfold Db.order_desc. induction rows as [| r rest IH]; simpl.
  - reflexivity.
  - rewrite insert_desc_In, IH. intuition.
Qed.

Lemma handleTheaterApproval_run (theaterId : string)
    (status : PlatformDashboard.Decision) (w : World)
    (st : PlatformDashboard.State) :
  exec (PlatformDashboard.handleTheaterApproval theaterId status) (w, st)
  = let updated :=
      Db.update Theater.id theaterId
                (Theater.with_status (PlatformDashboard.status_text status))
                (db_theaters w) in
    (set_theaters updated w,
     PlatformDashboard.mkState
       (PlatformDashboard.mkStats 25 150 12500 2500000)
       (Db.order_desc Theater.created_at
          (filter (fun t => Theater.status t =? "pending") updated))).
Proof. reflexivity. Qed.

(** C8: the approval action sets the status of the target theater to
    'approved' or 'rejected' and changes no other field and no other
    theater; it then reloads the pending list, which holds exactly the
    theaters whose status is 'pending', so the theater just decided is
    not in it. *)
Theorem theater_approval
    (theaterId : string) (status : PlatformDashboard.Decision)
    (w : World) (st : PlatformDashboard.State) :
  let out :=
    exec (PlatformDashboard.handleTheaterApproval theaterId status) (w, st) in
  let text := PlatformDashboard.status_text status in
  (text = "approved" \/ text = "rejected")
  /\ length (db_theaters (fst out)) = length (db_theaters w)
  /\ (forall i t,
         nth_error (db_theaters w) i = Some t ->
         exists t',
           nth_error (db_theaters (fst out)) i = Some t'
           /\ Theater.id t' = Theater.id t
           /\ Theater.name t' = Theater.name t
           /\ Theater.location t' = Theater.location t
           /\ Theater.city t' = Theater.city t
           /\ Theater.created_at t' = Theater.created_at t
           /\ (Theater.id t = theaterId -> Theater.status t' = text)
           /\ (Theater.id t <> theaterId -> t' = t))
  /\ (forall t,
         In t (PlatformDashboard.pendingTheaters (snd out))
         <-> In t (db_theaters (fst out)) /\ Theater.status t = "pending")
  /\ (forall t,
         In t (PlatformDashboard.pendingTheaters (snd out)) ->
         Theater.id t <> theaterId)
  /\ db_users (fst out) = db_users w
  /\ db_movies (fst out) = db_movies w
  /\ db_showtimes (fst out) = db_showtimes w
  /\ db_bookings (fst out) = db_bookings w.
Proof.
  intros out text. subst out. rewrite handleTheaterApproval_run.
  cbv zeta. cbn [fst snd set_theaters db_theaters db_users db_movies
                 db_showtimes db_bookings PlatformDashboard.pendingTheaters].
  fold text.
  assert (Hin : forall t,
             In t (Db.order_desc Theater.created_at
                     (filter (fun t => Theater.status t =? "pending")
                        (Db.update Theater.id theaterId
                           (Theater.with_status text) (db_theaters w))))
             <-> In t (Db.update Theater.id theaterId
                         (Theater.with_status text) (db_theaters w))
                 /\ Theater.status t = "pending").
  { intros t. rewrite order_desc_In, filter_In, String.eqb_eq. reflexivity. }
  split; [destruct status; [now left | now right] |].
  split; [apply length_map |].
  split; [| split; [exact Hin | split; [| repeat split]]].
  - intros i t Hi. unfold Db.update. rewrite nth_error_map, Hi. simpl.
    eexists. split; [reflexivity |].
    destruct (String.eqb_spec (Theater.id t) theaterId) as [E | E];
      cbn; repeat split; try reflexivity; try assumption; congruence.
  - intros t Ht E. apply Hin in Ht. destruct Ht as [Ht Hpending].
    unfold Db.update in Ht. apply in_map_iff in Ht.
    destruct Ht as [t0 [Ht0 _]].
    destruct (String.eqb_spec (Theater.id t0) theaterId) as [E0 | E0].
    + subst t. cbn in Hpending. subst text.
      destruct status; discriminate Hpending.
    + subst t. contradiction.
Qed.

Lemma theater_approval_sample :
  map Theater.id
    (PlatformDashboard.pendingTheaters
       (snd (exec (PlatformDashboard.handleTheaterApproval
                     "t2" PlatformDashboard.approved)
                  (Sample.world, PlatformDashboard.initial))))
  = ["t3"]
  /\ ~ In Sample.lux
       (PlatformDashboard.pendingTheaters
          (snd (exec (PlatformDashboard.handleTheaterApproval
                        "t2" PlatformDashboard.approved)
                     (Sample.world, PlatformDashboard.initial)))).
Proof.
  destruct (theater_approval "t2" PlatformDashboard.approved Sample.world
              PlatformDashboard.initial) as [_ [_ [_ [_ [Hgone _]]]]].
  split; [reflexivity |].
  intros Hin. apply Hgone in Hin. now apply Hin.
Defined.

(** ** Catalogue filtering *)

Lemma prefix_spec (t s : string) :
  String.prefix t s = true <-> exists post, s = (t ++ post)%string.
Proof.
  revert s. induction t as [| c t IH]; intros s.
  - split; [intros _; now exists s | intros _; now destruct s].
  - destruct s as [| c' s]; simpl;
      [split; [discriminate | intros [post E]; discriminate E] |].
    destruct (Ascii.ascii_dec c c') as [-> | Hne].
    + rewrite IH. split; intros [post E]; exists post; congruence.
    + split; [discriminate | intros [post E]; congruence].
Qed.

Lemma includes_unfold (s t : string) :
  JS.includes s t
  = if String.prefix t s then true
    else match s with
         | EmptyString => false
         | String _ s' => JS.includes s' t
         end.
Proof. destruct s; reflexivity. Qed.

Lemma includes_spec (s t : string) :
  JS.includes s t = true
  <-> exists pre post, s = (pre ++ t ++ post)%string.
Proof.
  split.
  - induction s as [| c s IH]; rewrite includes_unfold;
      destruct (String.prefix t _) eqn:E;
      try (intros _; apply prefix_spec in E; destruct E as [post E];
           now exists "", post).
    + discriminate.
    + intros H. destruct (IH H) as [pre [post E']].
      exists (String c pre), post. simpl. now rewrite E'.
  - intros [pre [post E]]. revert s E.
    induction pre as [| c pre IH]; intros s E; simpl in E;
      rewrite includes_unfold.
    + assert (Hp : String.prefix t s = true)
        by (apply prefix_spec; now exists post).
      now rewrite Hp.
    + subst s. destruct (String.prefix t _); [reflexivity |].
      now apply IH.
Qed.

Lemma contains_ci_includes (engine : JS.CaseConversion)
    (title q : string) :
  JS.includes (JS.toLowerCase engine title) (JS.toLowerCase engine q) = true
  <-> contains_ci engine title q.
Proof. apply includes_spec. Qed.

Lemma filter_matches_spec (selected field : string) :
  (selected =? "") || (field =? selected) = true
  <-> filter_matches selected field.
Proof.
  unfold filter_matches. rewrite orb_true_iff, !String.eqb_eq. reflexivity.
Qed.

Lemma filter_split_perm (A : Type) (p q : A -> bool) (xs : list A) :
  (forall x, q x = negb (p x)) ->
  Permutation xs (filter p xs ++ filter q xs).
Proof.
  intros Hq. induction xs as [| x xs IH]; simpl; [constructor |].
  rewrite Hq. destruct (p x); simpl.
  - now constructor.
  - now apply Permutation_cons_app.
Qed.

(** C9 (as amended): the filtered movies are exactly the movies whose
    title contains the search query, letter case aside (both are
    converted to lower case by the engine, so two queries with the same
    lower-case form list the same movies), and whose language and genre
    match the selected language and genre (an unselected filter matches
    everything); they are split into 'now showing' and 'coming soon' by
    the status field alone. *)
Theorem catalog_filtering (engine : JS.CaseConversion)
    (st : HomePage.State) (m : Movie.t) :
  let filtered := HomePage.filteredMovies engine in
  (In m (filtered st)
   <-> In m (HomePage.movies st)
       /\ contains_ci engine (Movie.title m) (HomePage.searchQuery st)
       /\ filter_matches (HomePage.selectedLanguage st) (Movie.language m)
       /\ filter_matches (HomePage.selectedGenre st) (Movie.genre m))
  /\ (forall query,
        JS.toLowerCase engine query
        = JS.toLowerCase engine (HomePage.searchQuery st) ->
        filtered (HomePage.mkState
                    (HomePage.movies st) (HomePage.theaters st) query
                    (HomePage.selectedCity st) (HomePage.selectedLanguage st)
                    (HomePage.selectedGenre st) (HomePage.selectedFormat st))
        = filtered st)
  /\ (In m (HomePage.nowShowingMovies engine st)
      <-> In m (filtered st) /\ Movie.status m = now_showing)
  /\ (In m (HomePage.comingSoonMovies engine st)
      <-> In m (filtered st) /\ Movie.status m = coming_soon)
  /\ Permutation (filtered st)
                 (HomePage.nowShowingMovies engine st
                  ++ HomePage.comingSoonMovies engine st).
Proof.
  intros filtered. subst filtered.
  split; [| split; [| split; [| split]]].
  - unfold HomePage.filteredMovies. rewrite filter_In. cbv zeta.
    rewrite !andb_true_iff, contains_ci_includes, !filter_matches_spec.
    tauto.
  - intros query Hq. unfold HomePage.filteredMovies.
    cbn [HomePage.movies HomePage.searchQuery HomePage.selectedLanguage
         HomePage.selectedGenre].
    now rewrite Hq.
  - unfold HomePage.nowShowingMovies, HomePage.is_now_showing.
    rewrite filter_In. destruct (Movie.status m); intuition congruence.
  - unfold HomePage.comingSoonMovies, HomePage.is_coming_soon.
    rewrite filter_In. destruct (Movie.status m); intuition congruence.
  - apply filter_split_perm. intros x.
    unfold HomePage.is_now_showing, HomePage.is_coming_soon.
    now destruct (Movie.status x).
Qed.

Lemma catalog_filtering_sample :
  In Sample.film
     (HomePage.filteredMovies JS.ascii_letters
        (HomePage.mkState [Sample.film] [Sample.rex] "long NIGHT" "Goa"
                          "English" "" "")).
Proof.
  destruct (catalog_filtering JS.ascii_letters
              (HomePage.mkState [Sample.film] [Sample.rex] "long NIGHT" "Goa"
                                "English" "" "")
              Sample.film) as [Hlisted _].
  apply Hlisted. split; [now left |].
  split; [exists "the ", ""; reflexivity |].
  split; [right; reflexivity | left; reflexivity].
Defined.

Lemma includes_empty (s : string) : JS.includes s "" = true.
Proof. rewrite includes_unfold. now destruct s. Qed.

(** C9 as stated fails: whatever the engine's case conversion and
    whatever city one attributes to each movie, the filtered list is not
    the list of movies that also match the selected city, because the
    selected city is not consulted. *)
Lemma city_filter_not_applied :
  ~ exists (engine : JS.CaseConversion) (city_of : Movie.t -> string),
      forall st m,
        In m (HomePage.filteredMovies engine st)
        <-> In m (HomePage.movies st)
            /\ contains_ci engine (Movie.title m) (HomePage.searchQuery st)
            /\ filter_matches (HomePage.selectedLanguage st) (Movie.language m)
            /\ filter_matches (HomePage.selectedGenre st) (Movie.genre m)
            /\ filter_matches (HomePage.selectedCity st) (city_of m).
Proof.
  intros [engine [city_of H]].
  pose (browse city :=
          HomePage.mkState [Sample.film] [Sample.rex] "" city "" "" "").
  assert (Hshown : forall city,
             In Sample.film (HomePage.filteredMovies engine (browse city))).
  { intros city. apply filter_In. split; [now left |].
    cbn. now rewrite JS.toLowerCase_empty, includes_empty. }
  destruct (proj1 (H (browse "Pune") Sample.film) (Hshown "Pune"))
    as [_ [_ [_ [_ [Hp | Hp]]]]]; [discriminate Hp |].
  destruct (proj1 (H (browse "Goa") Sample.film) (Hshown "Goa"))
    as [_ [_ [_ [_ [Hg | Hg]]]]]; [discriminate Hg |].
  cbn in Hp, Hg. congruence.
Qed.

(* ===================================================================== *)
(** * Further properties of the handlers *)
(* ===================================================================== *)

(** ** The seat page: loading, clicking, paying *)

Lemma forEach_seats_run (S : Type) (bs : list Booking.t) (acc : list string)
    (s : S) :
  forEach bs
    (fun occupied booking =>
       if truthy (Booking.seats booking) then
         seats <- JSON_parse (Booking.seats booking) ;;
         ret (occupied ++ seats)
       else ret occupied)
    acc s
  = (if forallb parseable bs
     then Returned (acc ++ flat_map seat_list bs)
     else Thrown JS.SyntaxError, s).
Proof.
  revert acc. induction bs as [| b bs IH]; intros acc; simpl.
  - now rewrite app_nil_r.
  - unfold bind at 1, parseable at 1, seat_list at 1.
    destruct (Booking.seats b) as [| seats |]; simpl.
    + unfold ret at 1. apply IH.
    + unfold bind, JSON_parse, ret at 1 2. rewrite IH.
      now rewrite app_assoc.
    + reflexivity.
Qed.

Lemma fetchOccupiedSeats_run (showtimeId : string) (w : World)
    (st : SeatSelection.State) :
  SeatSelection.fetchOccupiedSeats showtimeId (w, st)
  = (Returned tt,
     let found := filter (confirmed_forb showtimeId) (db_bookings w) in
     if forallb parseable found then
       (w, SeatSelection.mkState
             (SeatSelection.showtime st) (SeatSelection.seatLayout st)
             (SeatSelection.selectedSeats st)
             (flat_map seat_list found)
             (SeatSelection.loading st))
     else (emit (ConsoleError "Error fetching occupied seats:") w, st)).
Proof.
  unfold SeatSelection.fetchOccupiedSeats, try_catch, bind, getWorld.
  cbn [fst snd Db.list_where].
  change (fun b : Booking.t =>
            (Booking.showtime_id b =? showtimeId)
            && (Booking.booking_status b =? "confirmed"))
    with (confirmed_forb showtimeId).
  rewrite forEach_seats_run.
  destruct (forallb parseable _); reflexivity.
Qed.

Lemma confirmed_forb_spec (showtimeId : string) (b : Booking.t) :
  confirmed_forb showtimeId b = true <-> confirmed_for showtimeId b.
Proof. apply confirmed_for_filter. Qed.

(** X1: when a confirmed booking of the showtime holds seats text that
    JSON.parse rejects, loading the occupied seats reports none of them:
    the occupied list and the rest of the page stay as they were and the
    only trace is a console error. *)
Theorem occupied_load_is_all_or_nothing
    (showtimeId : string) (w : World) (st : SeatSelection.State)
    (Hbad : exists b, In b (db_bookings w) /\ confirmed_for showtimeId b
                      /\ Booking.seats b = OtherText) :
  exec (SeatSelection.fetchOccupiedSeats showtimeId) (w, st)
  = (emit (ConsoleError "Error fetching occupied seats:") w, st).
Proof.
  unfold exec. rewrite fetchOccupiedSeats_run. cbn [snd]. cbv zeta.
  destruct (forallb parseable _) eqn:E; [| reflexivity].
  exfalso. destruct Hbad as [b [Hin [Hc Hs]]].
  rewrite forallb_forall in E.
  assert (Hp : parseable b = true).
  { apply E. apply filter_In. split; [assumption |].
    now apply confirmed_forb_spec. }
  unfold parseable in Hp. rewrite Hs in Hp. discriminate.
Qed.

Lemma occupied_load_garbled_sample :
  SeatSelection.occupiedSeats
    (snd (exec (SeatSelection.fetchOccupiedSeats "st1")
               (Scenario.world_garbled, SeatSelection.initial)))
  = [].
Proof.
  rewrite (occupied_load_is_all_or_nothing "st1" Scenario.world_garbled
             SeatSelection.initial).
  - reflexivity.
  - exists Scenario.garbled. split; [| split; [split |]]; try reflexivity.
    simpl. tauto.
Defined.

(** X2: confirming a selection in a session whose principal is gone
    writes no booking and does not navigate; the failure is logged and
    shown as 'Booking Failed'. *)
Theorem payment_signed_out
    (showtimeId : string) (w : World) (st : SeatSelection.State)
    (Hme : me w = None)
    (Hsel : SeatSelection.selectedSeats st <> []) :
  let out := exec (SeatSelection.handleProceedToPayment showtimeId) (w, st) in
  db_bookings (fst out) = db_bookings w
  /\ effects (fst out)
     = effects w
       ++ [ConsoleError "Error creating booking:";
           Toast "Booking Failed" "Please try again" true]
  /\ snd out = st.
Proof.
  intros out. subst out. rewrite handleProceedToPayment_run, Hme.
  destruct (SeatSelection.selectedSeats st); [congruence |].
  cbn. rewrite <- app_assoc. repeat split.
Qed.

Lemma payment_signed_out_sample :
  db_bookings
    (fst (exec (SeatSelection.handleProceedToPayment "st1")
               (Scenario.world_signed_out, Sample.picking)))
  = db_bookings Scenario.world_signed_out.
Proof.
  destruct (payment_signed_out "st1" Scenario.world_signed_out
              Sample.picking eq_refl) as [Hdb _].
  - discriminate.
  - exact Hdb.
Defined.

(** X3: whatever happens, confirming never alters or removes a booking
    already in the store, never adds more than one, and leaves the other
    collections, the session and the page state alone. *)
Theorem payment_only_appends
    (showtimeId : string) (w : World) (st : SeatSelection.State) :
  let out := exec (SeatSelection.handleProceedToPayment showtimeId) (w, st) in
  (exists added, db_bookings (fst out) = db_bookings w ++ added
                 /\ (length added <= 1)%nat)
  /\ db_users (fst out) = db_users w
  /\ db_movies (fst out) = db_movies w
  /\ db_theaters (fst out) = db_theaters w
  /\ db_showtimes (fst out) = db_showtimes w
  /\ me (fst out) = me w
  /\ snd out = st.
Proof.
  intros out. subst out. rewrite handleProceedToPayment_run.
  destruct (length (SeatSelection.selectedSeats st) =? 0)%nat;
    [| destruct (me w) eqn:Hme]; cbn;
    (split; [| repeat split; assumption]).
  - exists []. rewrite app_nil_r. split; [reflexivity | simpl; lia].
  - eexists. split; [reflexivity | simpl; lia].
  - exists []. rewrite app_nil_r. split; [reflexivity | simpl; lia].
Qed.

Lemma in_flat_map_seat_list (bs : list Booking.t) (b : Booking.t)
    (seat : string) :
  In b bs -> In seat (seat_list b) -> In seat (flat_map seat_list bs).
Proof. intros Hb Hs. apply in_flat_map. now exists b. Qed.

(** X4: seats that were just booked are reported occupied by the next
    load of that showtime's occupied seats (in a store whose seats
    columns are all readable). *)
Theorem booked_seats_become_occupied
    (showtimeId : string) (w : World) (st page : SeatSelection.State)
    (user : Principal.t)
    (Hme : me w = Some user)
    (Hreadable : seats_readable w) :
  let w' := fst (exec (SeatSelection.handleProceedToPayment showtimeId)
                      (w, st)) in
  let occupied :=
    SeatSelection.occupiedSeats
      (snd (exec (SeatSelection.fetchOccupiedSeats showtimeId) (w', page))) in
  forall seat, In seat (SeatSelection.selectedSeats st) -> In seat occupied.
Proof.
  intros w' occupied seat Hseat.
  assert (Hreadable' : seats_readable w')
    by now apply payment_keeps_seats_readable.
  subst occupied. unfold exec. rewrite fetchOccupiedSeats_run. cbn [snd].
  cbv zeta.
  assert (Hall : forallb parseable
                   (filter (confirmed_forb showtimeId) (db_bookings w'))
                 = true).
  { apply forallb_forall. intros b Hb. apply filter_In in Hb.
    destruct Hb as [Hb _]. apply Hreadable' in Hb. unfold parseable.
    now destruct (Booking.seats b). }
  rewrite Hall. cbn [snd SeatSelection.occupiedSeats].
  subst w'. rewrite handleProceedToPayment_run, Hme.
  destruct (SeatSelection.selectedSeats st) as [| s0 sel] eqn:E;
    [destruct Hseat |].
  cbn [length Nat.eqb]. cbv zeta.
  cbn [fst emit set_bookings db_bookings].
  rewrite filter_app, flat_map_app. apply in_or_app. right.
  cbn [filter]. unfold confirmed_forb at 1.
  cbn [Booking.showtime_id Booking.booking_status].
  rewrite String.eqb_refl. cbn. rewrite app_nil_r. exact Hseat.
Qed.

Lemma booked_seats_become_occupied_sample :
  In "3-1"
     (SeatSelection.occupiedSeats
        (snd (exec (SeatSelection.fetchOccupiedSeats "st1")
                   (fst (exec (SeatSelection.handleProceedToPayment "st1")
                              (Sample.world, Sample.picking)),
                    SeatSelection.initial)))).
Proof.
  apply (booked_seats_become_occupied "st1" Sample.world Sample.picking
           SeatSelection.initial Sample.alice eq_refl).
  - intros b [<- | [<- | [<- | []]]]; discriminate.
  - simpl. tauto.
Defined.

(** X5: confirming does not look at who holds the seats: each selected
    seat gains one more confirmed holder for the showtime, also when it
    already had one (two confirmed bookings then hold the same seat). *)
Theorem payment_adds_a_holder
    (showtimeId : string) (w : World) (st : SeatSelection.State)
    (user : Principal.t) (seat : string)
    (Hme : me w = Some user)
    (Hseat : In seat (SeatSelection.selectedSeats st)) :
  holders showtimeId seat
          (fst (exec (SeatSelection.handleProceedToPayment showtimeId) (w, st)))
  = S (holders showtimeId seat w).
Proof.
  rewrite handleProceedToPayment_run, Hme.
  destruct (SeatSelection.selectedSeats st) as [| s0 sel] eqn:E;
    [destruct Hseat |].
  cbn [length Nat.eqb]. cbv zeta. unfold holders.
  cbn [fst emit set_bookings db_bookings].
  rewrite filter_app, length_app. cbn [filter].
  apply includes_str_In in Hseat.
  match goal with
  | |- context [if ?c then _ else _] => assert (Hc : c = true)
  end.
  { unfold confirmed_forb, seat_list.
    cbn [Booking.showtime_id Booking.booking_status Booking.seats].
    rewrite String.eqb_refl, Hseat. reflexivity. }
  rewrite Hc. cbn [length]. lia.
Qed.

Lemma payment_adds_a_holder_sample :
  holders "st1" "1-1" Sample.world = 1%nat
  /\ holders "st1" "1-1"
       (fst (exec (SeatSelection.handleProceedToPayment "st1")
                  (Sample.world, Scenario.stale)))
     = 2%nat.
Proof.
  split; [reflexivity |].
  rewrite (payment_adds_a_holder "st1" Sample.world Scenario.stale
             Sample.alice "1-1" eq_refl).
  - reflexivity.
  - simpl. tauto.
Defined.

Lemma with_selection_same (st : SeatSelection.State) :
  with_selection (SeatSelection.selectedSeats st) st = st.
Proof. now destruct st. Qed.

Lemma filter_other_id_snoc (x : string) (xs : list string) :
  ~ In x xs -> filter (fun id => negb (id =? x)) (xs ++ [x]) = xs.
Proof.
  intros H. rewrite filter_app, filter_other_id by assumption.
  simpl. rewrite String.eqb_refl. simpl. apply app_nil_r.
Qed.

(** X6: clicking a free, unselected seat (below the limit) and clicking
    it again gives back the page exactly as it was. *)
Theorem seat_toggle_round_trip
    (w : World) (st : SeatSelection.State) (seatId : string)
    (Hfree : ~ In seatId (SeatSelection.occupiedSeats st))
    (Hnew : ~ In seatId (SeatSelection.selectedSeats st))
    (Hroom : (length (SeatSelection.selectedSeats st) < 10)%nat) :
  exec (SeatSelection.handleSeatClick seatId)
       (exec (SeatSelection.handleSeatClick seatId) (w, st))
  = (w, st).
Proof.
  pose proof Hfree as Ho. pose proof Hnew as Hs.
  apply includes_str_not_In in Ho. apply includes_str_not_In in Hs.
  apply Nat.ltb_lt in Hroom.
  rewrite (handleSeatClick_run w st), Ho, Hs, Hroom.
  rewrite handleSeatClick_run.
  cbn [with_selection SeatSelection.occupiedSeats SeatSelection.selectedSeats].
  rewrite Ho.
  assert (Hin : JS.includes_str (SeatSelection.selectedSeats st ++ [seatId])
                                seatId = true).
  { apply includes_str_In, in_or_app. right. now left. }
  rewrite Hin. unfold with_selection at 1.
  cbn [SeatSelection.showtime SeatSelection.seatLayout
       SeatSelection.occupiedSeats SeatSelection.loading].
  rewrite filter_other_id_snoc by assumption.
  now destruct st.
Qed.

Lemma seat_toggle_sample :
  exec (SeatSelection.handleSeatClick "4-4")
       (exec (SeatSelection.handleSeatClick "4-4")
             (Sample.world, Sample.picking))
  = (Sample.world, Sample.picking).
Proof.
  apply seat_toggle_round_trip.
  - simpl. intros [H | [H | []]]; discriminate H.
  - simpl. intros [H | [H | [H | []]]]; discriminate H.
  - simpl. lia.
Defined.

Lemma calculateTotal_sum (st : SeatSelection.State) :
  SeatSelection.calculateTotal st
  = sum_numbers (map (seat_price st) (SeatSelection.selectedSeats st)).
Proof.
  unfold SeatSelection.calculateTotal, sum_numbers.
  apply (fold_left_total (seat_price st)).
Qed.

Lemma calculateTotal_with_selection (v : list string)
    (st : SeatSelection.State) :
  SeatSelection.calculateTotal (with_selection v st)
  = sum_numbers (map (seat_price st) v).
Proof. rewrite calculateTotal_sum. reflexivity. Qed.

Lemma sum_numbers_snoc (xs : list float) (x : float) :
  sum_numbers (xs ++ [x]) = (sum_numbers xs + x)%float.
Proof. unfold sum_numbers. now rewrite fold_left_app. Qed.

(** X7: the total is recomputed from the selection after every click, in
    JavaScript numbers.  Selecting a free seat makes it the old total
    plus that seat's price, in one rounded addition.  Deselecting a seat
    of a repetition-free selection makes it the sum of the prices of the
    seats that remain, in their order; when the seat was the one selected
    last, that is the total from before it was selected, so selecting and
    deselecting a seat leaves no rounding residue. *)
Theorem total_follows_clicks
    (w : World) (st : SeatSelection.State) (seatId : string)
    (Hfree : ~ In seatId (SeatSelection.occupiedSeats st))
    (Hnodup : NoDup (SeatSelection.selectedSeats st)) :
  let st' := snd (exec (SeatSelection.handleSeatClick seatId) (w, st)) in
  (~ In seatId (SeatSelection.selectedSeats st) ->
   (length (SeatSelection.selectedSeats st) < 10)%nat ->
   SeatSelection.calculateTotal st'
   = (SeatSelection.calculateTotal st + seat_price st seatId)%float)
  /\ (In seatId (SeatSelection.selectedSeats st) ->
      exists pre post,
        SeatSelection.selectedSeats st = pre ++ seatId :: post
        /\ SeatSelection.selectedSeats st' = pre ++ post
        /\ SeatSelection.calculateTotal st'
           = sum_numbers (map (seat_price st) (pre ++ post)))
  /\ (forall earlier,
        SeatSelection.selectedSeats st = earlier ++ [seatId] ->
        SeatSelection.calculateTotal st
        = (sum_numbers (map (seat_price st) earlier)
           + seat_price st seatId)%float
        /\ SeatSelection.calculateTotal st'
           = sum_numbers (map (seat_price st) earlier)).
Proof.
  intros st'. subst st'. rewrite handleSeatClick_run.
  apply includes_str_not_In in Hfree. rewrite Hfree.
  split; [| split].
  - intros Hnew Hroom. apply includes_str_not_In in Hnew.
    apply Nat.ltb_lt in Hroom. rewrite Hnew, Hroom. cbn [snd].
    rewrite calculateTotal_with_selection, calculateTotal_sum, map_app.
    apply sum_numbers_snoc.
  - intros Hin. pose proof Hin as Hb. apply includes_str_In in Hb.
    rewrite Hb. cbn [snd].
    destruct (filter_removes_once seatId _ Hnodup Hin)
      as [pre [post [E [F _]]]].
    exists pre, post. split; [exact E |].
    rewrite calculateTotal_with_selection.
    cbn [with_selection SeatSelection.selectedSeats]. rewrite F.
    split; reflexivity.
  - intros earlier E.
    assert (Hb : JS.includes_str (SeatSelection.selectedSeats st) seatId
                 = true).
    { apply includes_str_In. rewrite E. apply in_or_app. right. now left. }
    rewrite Hb. cbn [snd].
    rewrite calculateTotal_with_selection, calculateTotal_sum, E, map_app.
    split; [apply sum_numbers_snoc |].
    rewrite filter_other_id_snoc; [reflexivity |].
    rewrite E in Hnodup. apply NoDup_remove_2 in Hnodup.
    now rewrite app_nil_r in Hnodup.
Qed.

Lemma total_follows_clicks_sample :
  SeatSelection.calculateTotal
    (snd (exec (SeatSelection.handleSeatClick "3-1")
               (Sample.world, Sample.picking)))
  = 550%float.
Proof.
  destruct (total_follows_clicks Sample.world Sample.picking "3-1")
    as [_ [Hdrop _]].
  - simpl. intros [H | [H | []]]; discriminate H.
  - repeat constructor; simpl; intros H;
      repeat (destruct H as [H | H]; [discriminate H |]); exact H.
  - destruct Hdrop as [pre [post [E [_ Htotal]]]]; [simpl; tauto |].
    rewrite Htotal.
    assert (Hpre : pre = ["2-5"] /\ post = ["5-8"]).
    { destruct pre as [| a [| a' pre]]; cbn in E;
        inversion E; subst; try discriminate; [now split |].
      destruct pre as [| a'' pre]; cbn in *;
        [discriminate | now destruct pre]. }
    destruct Hpre as [-> ->]. reflexivity.
Defined.

(** With prices that are not whole, the total after deselecting a seat
    is not the old total less that seat's price: the page adds up the
    remaining prices afresh. *)
Lemma total_is_recomputed_not_subtracted :
  let st := Scenario.matinee_picking in
  let st' := snd (exec (SeatSelection.handleSeatClick "1-1")
                       (Sample.world, st)) in
  SeatSelection.calculateTotal st' = 395.75%float
  /\ SeatSelection.calculateTotal st'
     <> (SeatSelection.calculateTotal st - seat_price st "1-1")%float.
Proof.
  split; [reflexivity |].
  intros E.
  apply (f_equal (fun x => PrimFloat.eqb x 395.75%float)) in E.
  vm_compute in E. discriminate E.
Qed.

(** ** The seat grid *)

Lemma append_inv_head (p a b : string) :
  (p ++ a)%string = (p ++ b)%string -> a = b.
Proof. induction p as [| c p IH]; simpl; intros E; [assumption |].
  injection E as E. now apply IH. Qed.

Lemma show_inj (n m : N) : JS.show n = JS.show m -> n = m.
Proof.
  unfold JS.show. intros E. apply DecimalN.Unsigned.to_uint_inj.
  assert (H : Some (N.to_uint n) = Some (N.to_uint m))
    by (rewrite <- !NilEmpty.usu; now rewrite E).
  now injection H.
Qed.

Lemma seatId_inj (row seat row' seat' : nat) :
  SeatSelection.seatId row seat = SeatSelection.seatId row' seat' ->
  row = row' /\ seat = seat'.
Proof.
  intros E.
  assert (Hrow : Some (Z.of_nat row) = Some (Z.of_nat row'))
    by (rewrite <- (row_of_seatId row seat), <- (row_of_seatId row' seat');
        now rewrite E).
  injection Hrow as Hrow. apply Nat2Z.inj in Hrow. subst row'.
  split; [reflexivity |].
  unfold SeatSelection.seatId in E. apply append_inv_head in E.
  simpl in E. injection E as E. apply show_inj in E. lia.
Qed.

Lemma NoDup_flat_map (A B : Type) (f : A -> list B) (xs : list A) :
  NoDup xs ->
  (forall x, In x xs -> NoDup (f x)) ->
  (forall x y z, In x xs -> In y xs -> In z (f x) -> In z (f y) -> x = y) ->
  NoDup (flat_map f xs).
Proof.
  induction 1 as [| x xs Hx Hnd IH]; intros Hin Hdis; simpl;
    [constructor |].
  apply NoDup_app.
  - apply Hin. now left.
  - apply IH.
    + intros y Hy. apply Hin. now right.
    + intros y y' z Hy Hy'. apply Hdis; now right.
  - intros z Hz Hz'. apply in_flat_map in Hz'. destruct Hz' as [y [Hy Hzy]].
    assert (x = y) by (apply (Hdis x y z); simpl; auto).
    subst y. contradiction.
Qed.

Lemma grid_length_from (g : nat -> nat -> string) (m start n : nat) :
  length (flat_map (fun r => map (g r) (seq 0 m)) (seq start n))
  = (n * m)%nat.
Proof.
  revert start. induction n as [| n IH]; intros start; simpl;
    [reflexivity |].
  now rewrite length_app, length_map, length_seq, IH.
Qed.

(** X8: the seat grid offers rows * seatsPerRow buttons whose identifiers
    are pairwise distinct; each is the identifier of one seat of a row
    1..rows and a place 1..seatsPerRow, and the row the total parses out
    of it is that row. *)
Theorem grid_seats_are_distinct (l : SeatLayout.t) :
  NoDup (SeatSelection.grid l)
  /\ length (SeatSelection.grid l)
     = (SeatLayout.rows l * SeatLayout.seatsPerRow l)%nat
  /\ (forall id,
         In id (SeatSelection.grid l)
         <-> exists row seat,
               (1 <= row <= SeatLayout.rows l)%nat
               /\ (1 <= seat <= SeatLayout.seatsPerRow l)%nat
               /\ id = SeatSelection.seatId row seat)
  /\ (forall row seat row' seat',
         SeatSelection.seatId row seat = SeatSelection.seatId row' seat' ->
         row = row' /\ seat = seat').
Proof.
  unfold SeatSelection.grid. split; [| split; [| split]].
  - apply NoDup_flat_map.
    + apply seq_NoDup.
    + intros r _. apply NoDup_map_NoDup_ForallPairs; [| apply seq_NoDup].
      intros a b _ _ E. apply seatId_inj in E. lia.
    + intros r r' z _ _ Hz Hz'.
      apply in_map_iff in Hz. destruct Hz as [a [<- _]].
      apply in_map_iff in Hz'. destruct Hz' as [b [E _]].
      apply seatId_inj in E. lia.
  - apply grid_length_from.
  - intros id. rewrite in_flat_map. split.
    + intros [r [Hr Hid]]. apply in_map_iff in Hid.
      destruct Hid as [c [<- Hc]]. apply in_seq in Hr. apply in_seq in Hc.
      exists (r + 1)%nat, (c + 1)%nat. repeat split; lia.
    + intros [row [seat [Hr [Hs ->]]]].
      exists (row - 1)%nat. split; [apply in_seq; lia |].
      apply in_map_iff. exists (seat - 1)%nat.
      split; [| apply in_seq; lia].
      f_equal; lia.
  - apply seatId_inj.
Qed.

(** ** The check-in console *)

Lemma strip_cons (backwards : bool) (c1 : ascii) (s1 : string) :
  JS.strip backwards (String c1 s1)
  = if JS.is_space c1 then JS.strip backwards s1
    else
      match s1 with
      | EmptyString => String c1 s1
      | String c2 s2 =>
          if (if backwards then JS.is_space2 c2 c1 else JS.is_space2 c1 c2)
          then JS.strip backwards s2
          else
            match s2 with
            | EmptyString => String c1 s1
            | String c3 s3 =>
                if (if backwards then JS.is_space3 c3 c2 c1
                    else JS.is_space3 c1 c2 c3)
                then JS.strip backwards s3
                else String c1 s1
            end
      end.
Proof. reflexivity. Qed.

(** How [strip] goes through a text: either nothing is dropped, or the
    bytes of one white-space code point are and the rest is gone
    through. *)
Lemma strip_cases (backwards : bool) (P : string -> Prop) :
  (forall s, JS.strip backwards s = s -> P s) ->
  (forall d s, JS.strip backwards (d ++ s) = JS.strip backwards s ->
               P s -> P (d ++ s)%string) ->
  forall s, P s.
Proof.
  intros Hfix Hdrop.
  assert (H : forall n s, (String.length s <= n)%nat -> P s).
  { induction n as [| n IH]; intros s Hn.
    - destruct s; [now apply Hfix | simpl in Hn; lia].
    - destruct s as [| c1 s1]; [now apply Hfix |].
      cbn [String.length] in Hn.
      destruct (JS.is_space c1) eqn:E1.
      { apply (Hdrop (String c1 "") s1); [| apply IH; lia].
        cbn [append]. now rewrite strip_cons, E1. }
      destruct s1 as [| c2 s2];
        [apply Hfix; now rewrite strip_cons, E1 |].
      cbn [String.length] in Hn.
      destruct (if backwards then JS.is_space2 c2 c1
                else JS.is_space2 c1 c2) eqn:E2.
      { apply (Hdrop (String c1 (String c2 "")) s2); [| apply IH; lia].
        cbn [append]. now rewrite strip_cons, E1, E2. }
      destruct s2 as [| c3 s3];
        [apply Hfix; now rewrite strip_cons, E1, E2 |].
      cbn [String.length] in Hn.
      destruct (if backwards then JS.is_space3 c3 c2 c1
                else JS.is_space3 c1 c2 c3) eqn:E3.
      { apply (Hdrop (String c1 (String c2 (String c3 ""))) s3);
          [| apply IH; lia].
        cbn [append]. now rewrite strip_cons, E1, E2, E3. }
      apply Hfix. now rewrite strip_cons, E1, E2, E3. }
  intros s. now apply (H (String.length s)).
Qed.

Lemma length_append (a b : string) :
  String.length (a ++ b) = (String.length a + String.length b)%nat.
Proof. induction a as [| x a IH]; simpl; [reflexivity | now rewrite IH]. Qed.

Lemma strip_length (backwards : bool) (s : string) :
  (String.length (JS.strip backwards s) <= String.length s)%nat.
Proof.
  revert s. apply (strip_cases backwards).
  - intros s E. rewrite E. lia.
  - intros d s E IH. rewrite E, length_append. lia.
Qed.

Lemma strip_idempotent (backwards : bool) (s : string) :
  JS.strip backwards (JS.strip backwards s) = JS.strip backwards s.
Proof.
  revert s. apply (strip_cases backwards).
  - intros s E. now rewrite !E.
  - intros d s E IH. now rewrite E.
Qed.

Lemma append_assoc (a b c : string) :
  ((a ++ b) ++ c)%string = (a ++ b ++ c)%string.
Proof. induction a as [| x a IH]; simpl; [reflexivity | now rewrite IH]. Qed.

Lemma strip_suffix (backwards : bool) (s : string) :
  exists dropped, s = (dropped ++ JS.strip backwards s)%string.
Proof.
  revert s. apply (strip_cases backwards).
  - intros s E. exists "". now rewrite E.
  - intros d s E [d0 IH]. exists (d ++ d0)%string.
    now rewrite E, append_assoc, <- IH.
Qed.

(** A text that does not start with white space has no prefix that
    does. *)
Lemma strip_prefix_fixed (backwards : bool) (u q : string) :
  JS.strip backwards (u ++ q) = (u ++ q)%string ->
  JS.strip backwards u = u.
Proof.
  assert (Hshort : forall c x, JS.strip backwards x <> String c x).
  { intros c x E. pose proof (strip_length backwards x) as Hl.
    rewrite E in Hl. cbn [String.length] in Hl. lia. }
  assert (Hshort2 : forall c c' x,
             JS.strip backwards x <> String c (String c' x)).
  { intros c c' x E. pose proof (strip_length backwards x) as Hl.
    rewrite E in Hl. cbn [String.length] in Hl. lia. }
  assert (Hshort3 : forall c c' c'' x,
             JS.strip backwards x <> String c (String c' (String c'' x))).
  { intros c c' c'' x E. pose proof (strip_length backwards x) as Hl.
    rewrite E in Hl. cbn [String.length] in Hl. lia. }
  destruct u as [| c1 [| c2 [| c3 u3]]]; [reflexivity | | |];
    cbn [append]; rewrite !(strip_cons _ c1); cbv beta iota.
  - destruct (JS.is_space c1); [intros E; now apply Hshort in E |].
    reflexivity.
  - destruct (JS.is_space c1); [intros E; now apply Hshort in E |].
    destruct (if backwards then JS.is_space2 c2 c1 else JS.is_space2 c1 c2);
      [intros E; now apply Hshort2 in E | reflexivity].
  - destruct (JS.is_space c1); [intros E; now apply Hshort in E |].
    destruct (if backwards then JS.is_space2 c2 c1 else JS.is_space2 c1 c2);
      [intros E; now apply Hshort2 in E |].
    destruct (if backwards then JS.is_space3 c3 c2 c1
              else JS.is_space3 c1 c2 c3);
      [intros E; now apply Hshort3 in E | reflexivity].
Qed.

Lemma append_empty_r (a : string) : (a ++ "")%string = a.
Proof. induction a as [| x a IH]; simpl; [reflexivity | now rewrite IH]. Qed.

Lemma reverse_app (a b : string) :
  JS.reverse (a ++ b) = (JS.reverse b ++ JS.reverse a)%string.
Proof.
  induction a as [| x a IH]; simpl.
  - now rewrite append_empty_r.
  - now rewrite IH, append_assoc.
Qed.

Lemma reverse_involutive (a : string) : JS.reverse (JS.reverse a) = a.
Proof.
  induction a as [| x a IH]; simpl; [reflexivity |].
  rewrite reverse_app, IH. reflexivity.
Qed.

Lemma trim_idempotent (s : string) : JS.trim (JS.trim s) = JS.trim s.
Proof.
  unfold JS.trim, JS.trimEnd, JS.trimStart.
  set (t := JS.strip false s).
  set (u := JS.strip true (JS.reverse t)).
  assert (Hstart : JS.strip false (JS.reverse u) = JS.reverse u).
  { destruct (strip_suffix true (JS.reverse t)) as [dropped E]. fold u in E.
    apply (strip_prefix_fixed false _ (JS.reverse dropped)).
    rewrite <- reverse_app, <- E, reverse_involutive.
    apply strip_idempotent. }
  rewrite Hstart, reverse_involutive. unfold u.
  now rewrite strip_idempotent.
Qed.

Lemma trim_blank (s : string) :
  Forall (fun c => JS.is_space c = true) (list_ascii_of_string s) ->
  JS.trim s = "".
Proof.
  intros H.
  assert (E : JS.trimStart s = "").
  { unfold JS.trimStart. induction s as [| c s IH]; [reflexivity |].
    cbn in H. inversion H as [| ? ? Hc Hs]; subst.
    cbn [JS.strip]. rewrite Hc. now apply IH. }
  unfold JS.trim. now rewrite E.
Qed.

(** X9: an entry made only of white space (or empty, as after Reset) is
    turned away before any lookup: the store, the shown result and the
    busy flag stay as they were, and the only effect is the 'Invalid QR
    Code' toast. *)
Theorem check_in_blank_entry
    (w : World) (st : CheckInInterface.State)
    (Hblank : Forall (fun c => JS.is_space c = true)
                     (list_ascii_of_string (CheckInInterface.qrCode st))) :
  exec CheckInInterface.handleQRScan (w, st)
  = (emit (Toast "Invalid QR Code" "Please enter a valid QR code" true) w, st)
  /\ exec CheckInInterface.handleQRScan
          (exec CheckInConsole.handleReset (w, st))
     = (emit (Toast "Invalid QR Code" "Please enter a valid QR code" true) w,
        CheckInInterface.mkState "" None (CheckInInterface.loading st)).
Proof.
  apply trim_blank in Hblank. split.
  - pose proof (handleQRScan_run w st) as Hrun. cbv zeta in Hrun.
    rewrite Hrun, Hblank. reflexivity.
  - pose proof (handleQRScan_run w
                  (CheckInInterface.mkState "" None
                     (CheckInInterface.loading st))) as Hrun.
    cbv zeta in Hrun. exact Hrun.
Qed.

Lemma check_in_blank_entry_sample :
  effects
    (fst (exec CheckInInterface.handleQRScan
               (Sample.world,
                CheckInInterface.mkState "   " None false)))
  = [Toast "Invalid QR Code" "Please enter a valid QR code" true].
Proof.
  destruct (check_in_blank_entry Sample.world
              (CheckInInterface.mkState "   " None false)) as [Hrun _].
  - repeat constructor.
  - rewrite Hrun. reflexivity.
Defined.

(** What a scan can do to the store: nothing, or the check-in patch of
    the matched booking's id at one clock reading. *)
Lemma handleQRScan_store (w : World) (st : CheckInInterface.State) :
  let w' := fst (exec CheckInInterface.handleQRScan (w, st)) in
  db_users w' = db_users w /\ db_movies w' = db_movies w
  /\ db_theaters w' = db_theaters w /\ db_showtimes w' = db_showtimes w
  /\ me w' = me w
  /\ (db_bookings w' = db_bookings w
      \/ exists b, matched (CheckInInterface.qrCode st) w = Some b
                   /\ Booking.checked_in b = false
                   /\ db_bookings w'
                      = Db.update Booking.id (Booking.id b)
                                  (Booking.check_in (clock w (ticks w)))
                                  (db_bookings w)).
Proof.
  intros w'. subst w'.
  pose proof (handleQRScan_run w st) as Hrun. cbv zeta in Hrun.
  rewrite Hrun. clear Hrun.
  destruct (JS.trim (CheckInInterface.qrCode st) =? "");
    [cbn; tauto |].
  destruct (matched (CheckInInterface.qrCode st) w) as [b |] eqn:Hm;
    [| cbn; tauto].
  destruct (Booking.checked_in b) eqn:Hc; [cbn; tauto |].
  destruct (negb (Booking.booking_status b =? "confirmed")); [cbn; tauto |].
  destruct (find _ (db_showtimes w)); [| cbn; tauto].
  destruct (Booking.seats b); cbn; repeat split; right; exists b; auto.
Qed.

(** X10: a scan never adds, removes or reorders bookings and never
    touches the other collections; of a booking row it can change only
    the checked-in flag and the check-in time, and it never clears a flag
    that was set. *)
Theorem check_in_only_marks
    (w : World) (st : CheckInInterface.State) :
  let w' := fst (exec CheckInInterface.handleQRScan (w, st)) in
  db_users w' = db_users w /\ db_movies w' = db_movies w
  /\ db_theaters w' = db_theaters w /\ db_showtimes w' = db_showtimes w
  /\ length (db_bookings w') = length (db_bookings w)
  /\ (forall i b,
         nth_error (db_bookings w) i = Some b ->
         exists b',
           nth_error (db_bookings w') i = Some b'
           /\ Booking.id b' = Booking.id b
           /\ Booking.user_id b' = Booking.user_id b
           /\ Booking.showtime_id b' = Booking.showtime_id b
           /\ Booking.seats b' = Booking.seats b
           /\ Booking.total_amount b' = Booking.total_amount b
           /\ Booking.booking_status b' = Booking.booking_status b
           /\ Booking.payment_status b' = Booking.payment_status b
           /\ Booking.qr_code b' = Booking.qr_code b
           /\ (Booking.checked_in b = true -> Booking.checked_in b' = true)).
Proof.
  intros w'.
  destruct (handleQRScan_store w st) as [Hu [Hm [Ht [Hs [_ Hb]]]]].
  fold w' in Hu, Hm, Ht, Hs, Hb.
  do 4 (split; [assumption |]).
  destruct Hb as [Hb | [b0 [_ [_ Hb]]]]; rewrite Hb.
  - split; [reflexivity |]. intros i b Hi. exists b. tauto.
  - unfold Db.update. split; [apply length_map |].
    intros i b Hi. rewrite nth_error_map, Hi. cbn [option_map].
    eexists. split; [reflexivity |].
    destruct (Booking.id b =? Booking.id b0); cbn; tauto.
Qed.

(** X11: when the matched booking is confirmed and unused and its
    showtime exists, but its seats text cannot be parsed, the scan ends
    in the generic failure although the booking has already been marked
    checked in; scanning the same code again answers 'already used'. *)
Theorem check_in_marks_before_parsing
    (w : World) (st : CheckInInterface.State) (b : Booking.t)
    (showtime : Showtime.t)
    (Hcode : JS.trim (CheckInInterface.qrCode st) <> "")
    (Hmatch : matched (CheckInInterface.qrCode st) w = Some b)
    (Hconfirmed : Booking.booking_status b = "confirmed")
    (Hunused : Booking.checked_in b = false)
    (Hshowtime : find (fun s => Showtime.id s =? Booking.showtime_id b)
                      (db_showtimes w) = Some showtime)
    (Hseats : forall seats, Booking.seats b <> ArrayText seats) :
  let out := exec CheckInInterface.handleQRScan (w, st) in
  CheckInInterface.checkInResult (snd out)
  = Some (CheckInInterface.mkResult false None
            "An error occurred during check-in. Please try again.")
  /\ matched (CheckInInterface.qrCode st) (fst out)
     = Some (Booking.check_in (clock w (ticks w)) b)
  /\ check_in_outcome (fst out) (snd out)
     = Some (CheckInInterface.mkResult false None
               "This ticket has already been used for check-in.").
Proof.
  intros out.
  assert (Hrun := handleQRScan_run w st). cbv zeta in Hrun. fold out in Hrun.
  apply String.eqb_neq in Hcode.
  rewrite Hcode, Hmatch, Hunused, Hconfirmed, Hshowtime in Hrun.
  change ("confirmed" =? "confirmed") with true in Hrun. cbn [negb] in Hrun.
  assert (Hout : out
                 = (emit (ConsoleError "Error during check-in:")
                      (set_bookings
                         (Db.update Booking.id (Booking.id b)
                            (Booking.check_in (clock w (ticks w)))
                            (db_bookings w)) (tick w)),
                    CheckInInterface.mkState (CheckInInterface.qrCode st)
                      (Some (CheckInInterface.mkResult false None
                               "An error occurred during check-in. Please try again."))
                      false)).
  { rewrite Hrun. destruct (Booking.seats b) as [| seats |] eqn:E;
      [reflexivity | now destruct (Hseats seats) | reflexivity]. }
  assert (Hm' : matched (CheckInInterface.qrCode st) (fst out)
                = Some (Booking.check_in (clock w (ticks w)) b)).
  { apply (matched_after_check_in _ w); [assumption |].
    rewrite Hout. reflexivity. }
  split; [now rewrite Hout |]. split; [exact Hm' |].
  unfold check_in_outcome.
  assert (Hagain := handleQRScan_run (fst out) (snd out)).
  cbv zeta in Hagain. rewrite Hagain.
  replace (CheckInInterface.qrCode (snd out)) with (CheckInInterface.qrCode st)
    by now rewrite Hout.
  rewrite Hcode, Hm'. reflexivity.
Qed.

Lemma check_in_marks_before_parsing_sample :
  check_in_outcome Scenario.world_unreadable
    (CheckInInterface.mkState "QR_1003_u2" None false)
  = Some (CheckInInterface.mkResult false None
            "An error occurred during check-in. Please try again.")
  /\ option_map Booking.checked_in
       (matched "QR_1003_u2"
          (fst (exec CheckInInterface.handleQRScan
                     (Scenario.world_unreadable,
                      CheckInInterface.mkState "QR_1003_u2" None false))))
     = Some true.
Proof.
  destruct (check_in_marks_before_parsing Scenario.world_unreadable
              (CheckInInterface.mkState "QR_1003_u2" None false)
              Scenario.garbled Sample.evening)
    as [Hres [Hm _]]; try reflexivity.
  - vm_compute. discriminate.
  - intros seats. discriminate.
  - split; [exact Hres |]. cbn [CheckInInterface.qrCode] in Hm.
    rewrite Hm. reflexivity.
Defined.

(** X12: white space around the entry does not matter: the scan of an
    entry and the scan of its trimmed form leave the same store and the
    same result. *)
Theorem check_in_ignores_surrounding_space
    (w : World) (st : CheckInInterface.State) :
  let trimmed :=
    CheckInInterface.mkState (JS.trim (CheckInInterface.qrCode st))
      (CheckInInterface.checkInResult st) (CheckInInterface.loading st) in
  fst (exec CheckInInterface.handleQRScan (w, st))
  = fst (exec CheckInInterface.handleQRScan (w, trimmed))
  /\ CheckInInterface.checkInResult
       (snd (exec CheckInInterface.handleQRScan (w, st)))
     = CheckInInterface.checkInResult
         (snd (exec CheckInInterface.handleQRScan (w, trimmed))).
Proof.
  intros trimmed.
  pose proof (handleQRScan_run w st) as H1.
  pose proof (handleQRScan_run w trimmed) as H2.
  cbv zeta in H1, H2. rewrite H1, H2. clear H1 H2.
  subst trimmed. cbn [CheckInInterface.qrCode].
  unfold matched. rewrite trim_idempotent.
  fold (matched (CheckInInterface.qrCode st) w).
  destruct (JS.trim (CheckInInterface.qrCode st) =? ""); [split; reflexivity |].
  destruct (matched (CheckInInterface.qrCode st) w) as [b |];
    [| split; reflexivity].
  destruct (Booking.checked_in b); [split; reflexivity |].
  destruct (negb (Booking.booking_status b =? "confirmed"));
    [split; reflexivity |].
  destruct (find _ (db_showtimes w)); [| split; reflexivity].
  destruct (Booking.seats b); split; reflexivity.
Qed.

(** X13: when booking ids are unique, a scan leaves every booking other
    than the matched one exactly as it was. *)
Theorem check_in_touches_one_booking
    (w : World) (st : CheckInInterface.State) (b : Booking.t)
    (Hunique : NoDup (map Booking.id (db_bookings w)))
    (Hmatch : matched (CheckInInterface.qrCode st) w = Some b) :
  let w' := fst (exec CheckInInterface.handleQRScan (w, st)) in
  forall i other,
    nth_error (db_bookings w) i = Some other ->
    other <> b ->
    nth_error (db_bookings w') i = Some other.
Proof.
  intros w' i other Hi Hne.
  destruct (handleQRScan_store w st) as [_ [_ [_ [_ [_ Hb]]]]].
  fold w' in Hb.
  destruct Hb as [Hb | [b0 [Hm0 [_ Hb]]]]; rewrite Hb; [assumption |].
  assert (b0 = b) by congruence. subst b0.
  unfold Db.update. rewrite nth_error_map, Hi. cbn [option_map].
  destruct (String.eqb_spec (Booking.id other) (Booking.id b)) as [E | _];
    [| reflexivity].
  exfalso. apply Hne.
  unfold matched in Hmatch. apply find_some in Hmatch.
  destruct Hmatch as [Hin _].
  apply In_nth_error in Hin. destruct Hin as [j Hj].
  assert (Hij : i = j).
  { apply (proj1 (NoDup_nth_error (map Booking.id (db_bookings w))) Hunique).
    - rewrite length_map. apply nth_error_Some. now rewrite Hi.
    - rewrite !nth_error_map, Hi, Hj. cbn. now rewrite E. }
  subst j. congruence.
Qed.

Lemma check_in_touches_one_booking_sample :
  nth_error
    (db_bookings
       (fst (exec CheckInInterface.handleQRScan
                  (Sample.world,
                   CheckInInterface.mkState "QR_1000_u1" None false))))
    1
  = Some Sample.dropped.
Proof.
  apply (check_in_touches_one_booking Sample.world
           (CheckInInterface.mkState "QR_1000_u1" None false) Sample.paid).
  - repeat constructor; simpl; intros H;
      repeat (destruct H as [H | H]; [discriminate H |]); exact H.
  - reflexivity.
  - reflexivity.
  - discriminate.
Defined.

(** ** The session *)

(** X14: when an auth event carries a principal for whom no user row
    exists and the identity provider no longer reports a principal, no
    row is created: the failure is only logged, the session user stays as
    it was, and a page that had no user shows the sign-in screen once
    loading ends. *)
Theorem bootstrap_failure_stays_signed_out
    (w : World) (st : App.State) (event : App.AuthState)
    (principal : Principal.t)
    (Hevent : App.auth_user event = Some principal)
    (Habsent : forall u, In u (db_users w) ->
                         User.id u <> Principal.id principal)
    (Hme : me w = None) :
  let out := exec (App.onAuthStateChanged event) (w, st) in
  fst out = emit (ConsoleError "Error fetching user details:") w
  /\ App.user (snd out) = App.user st
  /\ (App.user st = None -> App.isLoading event = false ->
      Shell.render (snd out) = Shell.SignIn).
Proof.
  intros out. subst out.
  rewrite (onAuthStateChanged_run w st event principal Hevent).
  unfold exec. rewrite fetchUserDetails_run, Hme.
  apply find_none_iff_no_user in Habsent. rewrite Habsent. cbn.
  repeat split. intros Hu Hl. unfold Shell.render. cbn. now rewrite Hl, Hu.
Qed.

Lemma bootstrap_failure_sample :
  Shell.render
    (snd (exec (App.onAuthStateChanged
                  (App.mkAuthState (Some Sample.bob) false))
               (Scenario.world_signed_out, App.initial)))
  = Shell.SignIn.
Proof.
  destruct (bootstrap_failure_stays_signed_out Scenario.world_signed_out
              App.initial (App.mkAuthState (Some Sample.bob) false)
              Sample.bob eq_refl) as [_ [_ Hview]].
  - intros u [<- | []]. discriminate.
  - reflexivity.
  - now apply Hview.
Defined.

Lemma find_app_none (A : Type) (p : A -> bool) (xs ys : list A) :
  find p xs = None -> find p (xs ++ ys) = find p ys.
Proof.
  induction xs as [| x xs IH]; simpl; [reflexivity |].
  destruct (p x); [discriminate | exact IH].
Qed.












(** X16: every entry of the navigation bar leads to a route that is
    registered for that user; the check-in console is registered for
    every user, though only a theater admin is shown a link to it, and
    each dashboard is registered for its own role only. *)
Theorem nav_items_are_routed (user : User.t) :
  (forall item, In item (Navbar.getRoleBasedNavItems user) ->
                In (Navbar.href item) (Shell.routes user))
  /\ In "/check-in" (Shell.routes user)
  /\ (In "/check-in" (map Navbar.href (Navbar.getRoleBasedNavItems user))
      <-> User.role user = theater_admin)
  /\ (In "/theater-dashboard" (Shell.routes user)
      <-> User.role user = theater_admin)
  /\ (In "/platform-dashboard" (Shell.routes user)
      <-> User.role user = platform_owner).
Proof.
  unfold Navbar.getRoleBasedNavItems, Shell.routes, Shell.is_theater_admin,
    Shell.is_platform_owner.
  destruct (User.role user); cbn;
    (split; [intros item H;
             repeat (destruct H as [<- | H]; [cbn; tauto |]); destruct H |]);
    repeat split; try tauto; try discriminate;
    intros H; repeat (destruct H as [H | H]; try discriminate H);
    try destruct H; try reflexivity.
Qed.

(** ** Deciding on theaters, and what the home page then lists *)

Lemma update_status_twice (theaterId s1 s2 : string) (rows : list Theater.t) :
  Db.update Theater.id theaterId (Theater.with_status s2)
    (Db.update Theater.id theaterId (Theater.with_status s1) rows)
  = Db.update Theater.id theaterId (Theater.with_status s2) rows.
Proof.
  unfold Db.update. rewrite map_map. apply map_ext. intros t.
  destruct (Theater.id t =? theaterId) eqn:E; cbn; now rewrite E.
Qed.

(** X17: the approval action does not look at the current status: a
    theater decided twice ends as if only the second decision had been
    taken, store and pending list alike. *)
Theorem last_decision_wins
    (theaterId : string) (first second : PlatformDashboard.Decision)
    (w : World) (st : PlatformDashboard.State) :
  exec (PlatformDashboard.handleTheaterApproval theaterId second)
       (exec (PlatformDashboard.handleTheaterApproval theaterId first) (w, st))
  = exec (PlatformDashboard.handleTheaterApproval theaterId second) (w, st).
Proof.
  rewrite (handleTheaterApproval_run theaterId first w st).
  rewrite !handleTheaterApproval_run. cbv zeta.
  cbn [db_theaters set_theaters]. rewrite update_status_twice. reflexivity.
Qed.

Lemma update_absent (A : Type) (id_of : A -> string) (id : string)
    (patch : A -> A) (rows : list A) :
  (forall r, In r rows -> id_of r <> id) ->
  Db.update id_of id patch rows = rows.
Proof.
  intros H. unfold Db.update. rewrite <- (map_id rows) at 2.
  apply map_ext_in. intros r Hr. apply H in Hr.
  apply String.eqb_neq in Hr. now rewrite Hr.
Qed.

(** Deciding on a theater id that no row carries changes no theater;
    the pending list is reloaded all the same. *)
Theorem decision_on_unknown_theater
    (theaterId : string) (status : PlatformDashboard.Decision)
    (w : World) (st : PlatformDashboard.State)
    (Hunknown : forall t, In t (db_theaters w) -> Theater.id t <> theaterId) :
  let out :=
    exec (PlatformDashboard.handleTheaterApproval theaterId status) (w, st) in
  db_theaters (fst out) = db_theaters w
  /\ effects (fst out) = effects w
  /\ forall t, In t (PlatformDashboard.pendingTheaters (snd out))
               <-> In t (db_theaters w) /\ Theater.status t = "pending".
Proof.
  intros out. subst out. rewrite handleTheaterApproval_run. cbv zeta.
  rewrite (update_absent _ _ _ _ _ Hunknown). cbn.
  split; [reflexivity | split; [reflexivity |]].
  intros t. rewrite order_desc_In, filter_In, String.eqb_eq. reflexivity.
Qed.

Lemma decision_on_unknown_theater_sample :
  db_theaters
    (fst (exec (PlatformDashboard.handleTheaterApproval
                  "t9" PlatformDashboard.rejected)
               (Sample.world, PlatformDashboard.initial)))
  = db_theaters Sample.world.
Proof.
  destruct (decision_on_unknown_theater "t9" PlatformDashboard.rejected
              Sample.world PlatformDashboard.initial) as [Hsame _].
  - intros t [<- | [<- | [<- | []]]]; discriminate.
  - exact Hsame.
Defined.

Lemma insert_asc_In (R : Type) (key : R -> string) (r x : R)
    (rows : list R) :
  In x (Catalog.insert_asc key r rows) <-> x = r \/ In x rows.
Proof.
  induction rows as [| r' rest IH]; simpl.
  - intuition.
  - destruct (String.leb (key r) (key r')); simpl; [intuition |].
    rewrite IH. intuition.
Qed.

Lemma order_asc_In (R : Type) (key : R -> string) (x : R) (rows : list R) :
  In x (Catalog.order_asc key rows) <-> In x rows.
Proof.
  unfold Catalog.order_asc. induction rows as [| r rest IH]; simpl.
  - reflexivity.
  - rewrite insert_asc_In, IH. intuition.
Qed.

Lemma fetchTheaters_run (w : World) (st : HomePage.State) :
  exec Catalog.fetchTheaters (w, st)
  = (w, HomePage.mkState (HomePage.movies st)
          (Catalog.order_asc Theater.name
             (filter (fun t => Theater.status t =? "approved")
                     (db_theaters w)))
          (HomePage.searchQuery st) (HomePage.selectedCity st)
          (HomePage.selectedLanguage st) (HomePage.selectedGenre st)
          (HomePage.selectedFormat st)).
Proof. reflexivity. Qed.

(** X18: the home page lists exactly the approved theaters, so once the
    platform owner has decided on a theater, the next load of the home
    page lists the rows of that id if and only if the decision was
    'approved'. *)
Theorem decided_theater_on_home_page
    (theaterId : string) (status : PlatformDashboard.Decision)
    (w : World) (dash : PlatformDashboard.State) (home : HomePage.State)
    (t : Theater.t) :
  let w' :=
    fst (exec (PlatformDashboard.handleTheaterApproval theaterId status)
              (w, dash)) in
  let listed := HomePage.theaters (snd (exec Catalog.fetchTheaters (w', home))) in
  (In t listed <-> In t (db_theaters w') /\ Theater.status t = "approved")
  /\ (Theater.id t = theaterId ->
      (In t listed
       <-> In t (db_theaters w') /\ status = PlatformDashboard.approved)).
Proof.
  intros w' listed. subst listed. rewrite fetchTheaters_run.
  cbn [snd HomePage.theaters].
  rewrite order_asc_In, filter_In, String.eqb_eq.
  split; [reflexivity |]. intros Hid.
  split; intros [Hin Hs]; (split; [assumption |]).
  - subst w'. rewrite handleTheaterApproval_run in Hin. cbv zeta in Hin.
    cbn [fst db_theaters set_theaters] in Hin.
    unfold Db.update in Hin. apply in_map_iff in Hin.
    destruct Hin as [t0 [E H0]].
    destruct (String.eqb_spec (Theater.id t0) theaterId) as [E0 | E0].
    + subst t. cbn in Hs. destruct status; [reflexivity | discriminate Hs].
    + subst t. contradiction.
  - subst w'. rewrite handleTheaterApproval_run in Hin. cbv zeta in Hin.
    cbn [fst db_theaters set_theaters] in Hin.
    unfold Db.update in Hin. apply in_map_iff in Hin.
    destruct Hin as [t0 [E H0]].
    destruct (String.eqb_spec (Theater.id t0) theaterId) as [E0 | E0].
    + subst t status. reflexivity.
    + subst t. contradiction.
Qed.

(** ** The filters of the home page *)

Lemma uniq_from (xs seen : list string) :
  NoDup seen ->
  let out := fold_left (fun seen x => if JS.includes_str seen x then seen
                                      else seen ++ [x]) xs seen in
  NoDup out /\ forall x, In x out <-> In x seen \/ In x xs.
Proof.
  revert seen. induction xs as [| y ys IH]; intros seen Hnd; simpl.
  - split; [assumption | intuition].
  - destruct (JS.includes_str seen y) eqn:E.
    + destruct (IH seen Hnd) as [Hn Hin]. split; [assumption |].
      intros x. rewrite Hin. apply includes_str_In in E.
      intuition (subst; auto).
    + apply includes_str_not_In in E.
      assert (Hnd' : NoDup (seen ++ [y])).
      { apply NoDup_app; [assumption | repeat constructor; intros [] |].
        intros a Ha [<- | []]. contradiction. }
      destruct (IH _ Hnd') as [Hn Hin]. split; [assumption |].
      intros x. rewrite Hin, in_app_iff. simpl. intuition.
Qed.

Lemma uniq_spec (xs : list string) :
  NoDup (Catalog.uniq xs) /\ forall x, In x (Catalog.uniq xs) <-> In x xs.
Proof.
  destruct (uniq_from xs [] (NoDup_nil _)) as [Hn Hin].
  split; [exact Hn |]. intros x. unfold Catalog.uniq. rewrite Hin.
  simpl. tauto.
Qed.

(** X19: each filter menu offers every value that occurs (languages and
    genres of the loaded movies, cities of the loaded theaters), once
    each and nothing else; and a language taken from the menu, with the
    search box empty and no genre chosen, always leaves at least one
    movie on the page. *)
Theorem filter_options_are_the_values_present
    (engine : JS.CaseConversion) (st : HomePage.State) :
  (NoDup (Catalog.languages st)
   /\ forall x, In x (Catalog.languages st)
                <-> exists m, In m (HomePage.movies st)
                              /\ Movie.language m = x)
  /\ (NoDup (Catalog.genres st)
      /\ forall x, In x (Catalog.genres st)
                   <-> exists m, In m (HomePage.movies st)
                                 /\ Movie.genre m = x)
  /\ (NoDup (Catalog.cities st)
      /\ forall x, In x (Catalog.cities st)
                   <-> exists t, In t (HomePage.theaters st)
                                 /\ Theater.city t = x)
  /\ (In (HomePage.selectedLanguage st) (Catalog.languages st) ->
      HomePage.searchQuery st = "" ->
      HomePage.selectedGenre st = "" ->
      HomePage.filteredMovies engine st <> []).
Proof.
  unfold Catalog.languages, Catalog.genres, Catalog.cities.
  split; [| split; [| split]];
    try (split; [apply uniq_spec |];
         intros x; rewrite (proj2 (uniq_spec _)), in_map_iff;
         split; intros [m [H1 H2]]; exists m; tauto).
  intros Hlang Hq Hg. apply (proj1 (proj2 (uniq_spec _) _)) in Hlang.
  apply in_map_iff in Hlang. destruct Hlang as [m [Hm Hin]].
  assert (Hkept : In m (HomePage.filteredMovies engine st)).
  { unfold HomePage.filteredMovies. apply filter_In. split; [assumption |].
    cbv zeta. rewrite Hq, Hg, Hm, JS.toLowerCase_empty.
    rewrite includes_empty, String.eqb_refl, orb_true_r. reflexivity. }
  intros E. rewrite E in Hkept. destruct Hkept.
Qed.

(** With the search box empty and no language and genre chosen, the
    page lists all the loaded movies, in their order. *)
Theorem no_filter_lists_everything
    (engine : JS.CaseConversion) (st : HomePage.State)
    (Hquery : HomePage.searchQuery st = "")
    (Hlanguage : HomePage.selectedLanguage st = "")
    (Hgenre : HomePage.selectedGenre st = "") :
  HomePage.filteredMovies engine st = HomePage.movies st.
Proof.
  unfold HomePage.filteredMovies. rewrite Hquery, Hlanguage, Hgenre.
  apply forallb_filter_id. apply forallb_forall. intros m _.
  rewrite JS.toLowerCase_empty. now rewrite includes_empty.
Qed.

Lemma no_filter_sample :
  HomePage.filteredMovies JS.ascii_letters Scenario.browsing = [Sample.film].
Proof.
  rewrite (no_filter_lists_everything JS.ascii_letters Scenario.browsing
             eq_refl eq_refl eq_refl).
  reflexivity.
Defined.

(** ** Loading the seat page *)

Lemma on_core_fetchOccupiedSeats (showtimeId : string) (w : World)
    (p : SeatPage.State) :
  SeatPage.on_core (SeatSelection.fetchOccupiedSeats showtimeId) (w, p)
  = (Returned tt,
     let found := filter (confirmed_forb showtimeId) (db_bookings w) in
     if forallb parseable found then
       (w, page_core (SeatSelection.showtime (SeatPage.core p))
             (SeatSelection.seatLayout (SeatPage.core p))
             (flat_map seat_list found)
             (SeatSelection.loading (SeatPage.core p)) p)
     else (emit (ConsoleError "Error fetching occupied seats:") w, p)).
Proof.
  unfold SeatPage.on_core. cbn [fst snd]. rewrite fetchOccupiedSeats_run.
  cbv zeta. destruct (forallb parseable _); [reflexivity |].
  now destruct p.
Qed.

Lemma fetchShowtimeDetails_run (db_screens : list Screen.t)
    (showtimeId : string) (w : World) (p : SeatPage.State) :
  let c := SeatPage.core p in
  let loaded q :=
    page_core (SeatSelection.showtime (SeatPage.core q))
              (SeatSelection.seatLayout (SeatPage.core q))
              (SeatSelection.occupiedSeats (SeatPage.core q)) false q in
  exec (SeatPage.fetchShowtimeDetails db_screens showtimeId) (w, p)
  = match showtime_row showtimeId w with
    | None =>
        (emit (Navigate "/") (emit (Toast "Error" "Showtime not found" true) w),
         loaded p)
    | Some sh =>
        let p1 :=
          SeatPage.mkState
            (SeatSelection.mkState (Some sh) (SeatSelection.seatLayout c)
               (SeatSelection.selectedSeats c)
               (SeatSelection.occupiedSeats c) (SeatSelection.loading c))
            (found_or (movie_row sh w) (SeatPage.movie p))
            (found_or (theater_row sh w) (SeatPage.theater p))
            (found_or (screen_row sh db_screens) (SeatPage.screen p)) in
        let occupancy q :=
          let found := filter (confirmed_forb showtimeId) (db_bookings w) in
          if forallb parseable found then
            (w, page_core (SeatSelection.showtime (SeatPage.core q))
                  (SeatSelection.seatLayout (SeatPage.core q))
                  (flat_map seat_list found) false q)
          else
            (emit (ConsoleError "Error fetching occupied seats:") w,
             loaded q) in
        match option_map Screen.seat_layout (screen_row sh db_screens) with
        | Some OtherLayout =>
            (emit (Toast "Error" "Failed to load showtime details" true)
               (emit (ConsoleError "Error fetching showtime details:") w),
             loaded p1)
        | Some (LayoutJson layout) =>
            occupancy
              (page_core (Some sh) (Some layout)
                 (SeatSelection.occupiedSeats c) (SeatSelection.loading c) p1)
        | Some EmptyLayout | None => occupancy p1
        end
    end.
Proof.
  intros c loaded. subst c loaded.
  unfold exec, SeatPage.fetchShowtimeDetails, try_catch_finally, try_catch,
    bind at 1, getWorld, Db.list_where, showtime_row, movie_row, theater_row,
    screen_row.
  cbn [fst snd]. rewrite firstn_1_filter.
  destruct (find _ (db_showtimes w)) as [sh |]; [| reflexivity].
  unfold bind at 1, SeatPage.setShowtime, setState. cbn [fst snd].
  unfold bind at 1, getWorld. cbn [fst snd].
  rewrite !firstn_1_filter.
  destruct (find _ (db_movies w)) as [m |];
    destruct (find _ (db_theaters w)) as [t |];
    (destruct (find _ db_screens) as [sc |];
     [destruct (Screen.seat_layout sc) eqn:El |]);
    unfold bind, SeatPage.setMovie, SeatPage.setTheater, SeatPage.setScreen,
      SeatPage.setSeatLayout, SeatPage.JSON_parse_layout, setState, ret, throw;
    cbn [fst snd SeatPage.truthy_layout option_map found_or]; rewrite ?El;
    cbn [fst snd SeatPage.truthy_layout];
    try rewrite on_core_fetchOccupiedSeats; cbv zeta;
    try (destruct (forallb parseable _)); reflexivity.
Qed.

Lemma showtime_row_none (showtimeId : string) (w : World) :
  showtime_row showtimeId w = None
  <-> forall s, In s (db_showtimes w) -> Showtime.id s <> showtimeId.
Proof.
  unfold showtime_row. split.
  - intros Hnone s Hs E. pose proof (find_none _ _ Hnone s Hs) as Hf.
    simpl in Hf. rewrite E, String.eqb_refl in Hf. discriminate.
  - intros Hall. destruct (find _ (db_showtimes w)) as [s |] eqn:E;
      [| reflexivity].
    apply find_some in E. destruct E as [Hin Hid].
    apply String.eqb_eq in Hid. now apply Hall in Hin.
Qed.

(** X20: opening the seat page of a showtime that does not exist shows
    'Showtime not found' and navigates home; no record is set, the
    occupied seats are not asked for, and loading ends. *)
Theorem seat_page_of_unknown_showtime
    (db_screens : list Screen.t) (showtimeId : string) (w : World)
    (p : SeatPage.State)
    (Hunknown : forall s, In s (db_showtimes w) ->
                          Showtime.id s <> showtimeId) :
  let out := exec (SeatPage.fetchShowtimeDetails db_screens showtimeId)
                  (w, p) in
  fst out
  = emit (Navigate "/") (emit (Toast "Error" "Showtime not found" true) w)
  /\ snd out
     = page_core (SeatSelection.showtime (SeatPage.core p))
         (SeatSelection.seatLayout (SeatPage.core p))
         (SeatSelection.occupiedSeats (SeatPage.core p)) false p
  /\ (SeatSelection.showtime (SeatPage.core p) = None ->
      SeatPage.render (snd out) = SeatPage.LoadFailed).
Proof.
  intros out. subst out.
  pose proof (fetchShowtimeDetails_run db_screens showtimeId w p) as Hrun.
  cbv zeta in Hrun. rewrite Hrun.
  apply showtime_row_none in Hunknown. rewrite Hunknown.
  repeat split. intros Hnone. unfold SeatPage.render. cbn. now rewrite Hnone.
Qed.

Lemma seat_page_of_unknown_showtime_sample :
  SeatPage.render
    (snd (exec (SeatPage.fetchShowtimeDetails [Scenario.screen_one] "st9")
               (Sample.world, SeatPage.initial)))
  = SeatPage.LoadFailed.
Proof.
  destruct (seat_page_of_unknown_showtime [Scenario.screen_one] "st9"
              Sample.world SeatPage.initial) as [_ [_ Hview]].
  - intros s [<- | []]. discriminate.
  - now apply Hview.
Defined.

(** X21: loading always ends and never touches the selection; and from a
    fresh page the seat map is shown exactly when the showtime, its
    movie, its theater and its screen are found and the screen's layout
    text parses. *)
Theorem seat_map_shown_iff_all_loaded
    (db_screens : list Screen.t) (showtimeId : string) (w : World)
    (p : SeatPage.State) :
  let out := exec (SeatPage.fetchShowtimeDetails db_screens showtimeId)
                  (w, p) in
  SeatSelection.loading (SeatPage.core (snd out)) = false
  /\ SeatSelection.selectedSeats (SeatPage.core (snd out))
     = SeatSelection.selectedSeats (SeatPage.core p)
  /\ (p = SeatPage.initial ->
      (SeatPage.render (snd out) = SeatPage.SeatMap
       <-> exists sh m t sc layout,
             showtime_row showtimeId w = Some sh
             /\ movie_row sh w = Some m
             /\ theater_row sh w = Some t
             /\ screen_row sh db_screens = Some sc
             /\ Screen.seat_layout sc = LayoutJson layout)).
Proof.
  intros out. subst out.
  pose proof (fetchShowtimeDetails_run db_screens showtimeId w p) as Hrun.
  cbv zeta in Hrun. rewrite Hrun. clear Hrun.
  destruct (showtime_row showtimeId w) as [sh |].
  2:{ split; [reflexivity | split; [reflexivity |]]. intros ->.
      split; [discriminate |]. intros [? [? [? [? [? [H _]]]]]].
      discriminate H. }
  destruct (screen_row sh db_screens) as [sc |] eqn:Hsc; cbn [option_map];
    [destruct (Screen.seat_layout sc) as [| layout |] eqn:El |];
    try (destruct (forallb parseable _));
    (split; [reflexivity | split; [reflexivity |]]); intros ->;
    unfold SeatPage.render; cbn;
    destruct (movie_row sh w) as [m |] eqn:Hm;
    destruct (theater_row sh w) as [t |] eqn:Ht; cbn;
    (split;
     [ intros Hview; try discriminate Hview
     | intros [sh' [m' [t' [sc' [l' [H1 [H2 [H3 [H4 H5]]]]]]]]];
       injection H1 as <-; congruence ]);
    do 5 eexists; repeat split; eassumption.
Qed.

(** X22: when the showtime, its records and a parsing layout are found
    and the seats of the showtime's confirmed bookings are readable, the
    page ends with exactly those rows, the layout, the seats of the
    confirmed bookings as occupied, and the seat map on screen, without
    any effect outside the page. *)
Theorem seat_page_loaded
    (db_screens : list Screen.t) (showtimeId : string) (w : World)
    (p : SeatPage.State) (sh : Showtime.t) (m : Movie.t) (t : Theater.t)
    (sc : Screen.t) (layout : SeatLayout.t)
    (Hshow : showtime_row showtimeId w = Some sh)
    (Hmovie : movie_row sh w = Some m)
    (Htheater : theater_row sh w = Some t)
    (Hscreen : screen_row sh db_screens = Some sc)
    (Hlayout : Screen.seat_layout sc = LayoutJson layout)
    (Hseats : forall b, In b (db_bookings w) -> confirmed_for showtimeId b ->
                        Booking.seats b <> OtherText) :
  exec (SeatPage.fetchShowtimeDetails db_screens showtimeId) (w, p)
  = (w, SeatPage.mkState
          (SeatSelection.mkState (Some sh) (Some layout)
             (SeatSelection.selectedSeats (SeatPage.core p))
             (flat_map seat_list
                (filter (confirmed_forb showtimeId) (db_bookings w)))
             false)
          (Some m) (Some t) (Some sc))
  /\ SeatPage.render
       (snd (exec (SeatPage.fetchShowtimeDetails db_screens showtimeId)
                  (w, p)))
     = SeatPage.SeatMap.
Proof.
  pose proof (fetchShowtimeDetails_run db_screens showtimeId w p) as Hrun.
  cbv zeta in Hrun. rewrite Hrun. clear Hrun.
  rewrite Hshow, Hmovie, Htheater, Hscreen. cbn [option_map]. rewrite Hlayout.
  assert (Hall : forallb parseable
                   (filter (confirmed_forb showtimeId) (db_bookings w))
                 = true).
  { apply forallb_forall. intros b Hb. apply filter_In in Hb.
    destruct Hb as [Hb Hc]. apply confirmed_forb_spec in Hc.
    specialize (Hseats b Hb Hc). unfold parseable.
    now destruct (Booking.seats b). }
  rewrite Hall. split; reflexivity.
Qed.

Lemma seat_page_loaded_sample :
  SeatSelection.occupiedSeats
    (SeatPage.core
       (snd (exec (SeatPage.fetchShowtimeDetails [Scenario.screen_one] "st1")
                  (Sample.world, SeatPage.initial))))
  = ["1-1"; "1-2"].
Proof.
  destruct (seat_page_loaded [Scenario.screen_one] "st1" Sample.world
              SeatPage.initial Sample.evening Sample.film Sample.rex
              Scenario.screen_one Sample.hall
              eq_refl eq_refl eq_refl eq_refl eq_refl) as [Hrun _].
  - intros b [<- | [<- | [<- | []]]] _; discriminate.
  - rewrite Hrun. reflexivity.
Defined.

(** X23: when the screen's layout text does not parse, the load stops
    there: 'Failed to load showtime details' is shown, the occupied seats
    are never asked for, and a fresh page ends on the failure notice. *)
Theorem seat_page_with_broken_layout
    (db_screens : list Screen.t) (showtimeId : string) (w : World)
    (p : SeatPage.State) (sh : Showtime.t) (sc : Screen.t)
    (Hshow : showtime_row showtimeId w = Some sh)
    (Hscreen : screen_row sh db_screens = Some sc)
    (Hlayout : Screen.seat_layout sc = OtherLayout) :
  let out := exec (SeatPage.fetchShowtimeDetails db_screens showtimeId)
                  (w, p) in
  fst out
  = emit (Toast "Error" "Failed to load showtime details" true)
         (emit (ConsoleError "Error fetching showtime details:") w)
  /\ SeatSelection.occupiedSeats (SeatPage.core (snd out))
     = SeatSelection.occupiedSeats (SeatPage.core p)
  /\ SeatSelection.seatLayout (SeatPage.core (snd out))
     = SeatSelection.seatLayout (SeatPage.core p)
  /\ (SeatSelection.seatLayout (SeatPage.core p) = None ->
      SeatPage.render (snd out) = SeatPage.LoadFailed).
Proof.
  intros out. subst out.
  pose proof (fetchShowtimeDetails_run db_screens showtimeId w p) as Hrun.
  cbv zeta in Hrun. rewrite Hrun. clear Hrun.
  rewrite Hshow, Hscreen. cbn [option_map]. rewrite Hlayout.
  repeat split. intros Hnone. unfold SeatPage.render. cbn. rewrite Hnone.
  destruct (found_or (movie_row sh w) (SeatPage.movie p)),
    (found_or (theater_row sh w) (SeatPage.theater p)); reflexivity.
Qed.

Lemma seat_page_with_broken_layout_sample :
  SeatPage.render
    (snd (exec (SeatPage.fetchShowtimeDetails [Scenario.screen_broken] "st1")
               (Sample.world, SeatPage.initial)))
  = SeatPage.LoadFailed.
Proof.
  destruct (seat_page_with_broken_layout [Scenario.screen_broken] "st1"
              Sample.world SeatPage.initial Sample.evening
              Scenario.screen_broken eq_refl eq_refl eq_refl)
    as [_ [_ [_ Hview]]].
  now apply Hview.
Defined.

(** X24: when the page itself loads but a confirmed booking of the
    showtime holds unreadable seats text, the seat map is shown all the
    same with the occupied list left as it was (empty on a fresh page),
    so every seat of the grid can be clicked. *)
Theorem seat_map_without_occupancy
    (db_screens : list Screen.t) (showtimeId : string) (w : World)
    (p : SeatPage.State) (sh : Showtime.t) (m : Movie.t) (t : Theater.t)
    (sc : Screen.t) (layout : SeatLayout.t)
    (Hshow : showtime_row showtimeId w = Some sh)
    (Hmovie : movie_row sh w = Some m)
    (Htheater : theater_row sh w = Some t)
    (Hscreen : screen_row sh db_screens = Some sc)
    (Hlayout : Screen.seat_layout sc = LayoutJson layout)
    (Hbad : exists b, In b (db_bookings w) /\ confirmed_for showtimeId b
                      /\ Booking.seats b = OtherText) :
  let out := exec (SeatPage.fetchShowtimeDetails db_screens showtimeId)
                  (w, p) in
  SeatPage.render (snd out) = SeatPage.SeatMap
  /\ SeatSelection.occupiedSeats (SeatPage.core (snd out))
     = SeatSelection.occupiedSeats (SeatPage.core p)
  /\ effects (fst out)
     = effects w ++ [ConsoleError "Error fetching occupied seats:"].
Proof.
  intros out. subst out.
  pose proof (fetchShowtimeDetails_run db_screens showtimeId w p) as Hrun.
  cbv zeta in Hrun. rewrite Hrun. clear Hrun.
  rewrite Hshow, Hmovie, Htheater, Hscreen. cbn [option_map]. rewrite Hlayout.
  assert (Hall : forallb parseable
                   (filter (confirmed_forb showtimeId) (db_bookings w))
                 = false).
  { destruct (forallb parseable _) eqn:E; [| reflexivity]. exfalso.
    destruct Hbad as [b [Hin [Hc Hs]]]. rewrite forallb_forall in E.
    assert (Hp : parseable b = true).
    { apply E. apply filter_In. split; [assumption |].
      now apply confirmed_forb_spec. }
    unfold parseable in Hp. rewrite Hs in Hp. discriminate. }
  rewrite Hall. repeat split.
Qed.

Lemma seat_map_without_occupancy_sample :
  let p := snd (exec (SeatPage.fetchShowtimeDetails [Scenario.screen_one] "st1")
                     (Scenario.world_garbled, SeatPage.initial)) in
  SeatPage.render p = SeatPage.SeatMap
  /\ SeatSelection.occupiedSeats (SeatPage.core p) = [].
Proof.
  destruct (seat_map_without_occupancy [Scenario.screen_one] "st1"
              Scenario.world_garbled SeatPage.initial Sample.evening
              Sample.film Sample.rex Scenario.screen_one Sample.hall
              eq_refl eq_refl eq_refl eq_refl eq_refl) as [Hview [Hocc _]].
  - exists Scenario.garbled. split; [| split; [split |]]; try reflexivity.
    simpl. tauto.
  - split; [exact Hview | exact Hocc].
Defined.

(** ** The confirmation page *)

Lemma fetchBookingDetails_run (db_screens : list Screen.t)
    (bookingId : string) (w : World) (st : BookingConfirmation.State) :
  exec (BookingConfirmation.fetchBookingDetails db_screens (Some bookingId))
       (w, st)
  = (w,
     BookingConfirmation.mkState
       (if bookingId =? "" then BookingConfirmation.bookingDetails st
        else
          match booking_row bookingId w with
          | None => BookingConfirmation.bookingDetails st
          | Some booking =>
              match showtime_row (Booking.showtime_id booking) w with
              | None => BookingConfirmation.bookingDetails st
              | Some showtime =>
                  Some
                    (BookingConfirmation.mkDetails booking
                       (or_else (option_map Movie.title (movie_row showtime w))
                                "Unknown Movie")
                       (or_else (option_map Movie.poster_url
                                            (movie_row showtime w)) "")
                       (or_else (option_map Theater.name
                                            (theater_row showtime w))
                                "Unknown Theater")
                       (or_else (option_map Theater.location
                                            (theater_row showtime w))
                                "Unknown Location")
                       (or_else (option_map Screen.name
                                            (screen_row showtime db_screens))
                                "Unknown Screen")
                       (Showtime.show_date showtime)
                       (Showtime.show_time showtime)
                       (or_else (option_map Screen.format
                                            (screen_row showtime db_screens))
                                "2D"))
              end
          end)
       false).
Proof.
  unfold exec, BookingConfirmation.fetchBookingDetails, try_catch_finally,
    try_catch, booking_row, showtime_row, movie_row, theater_row, screen_row.
  destruct (bookingId =? ""); [reflexivity |].
  unfold bind at 1, getWorld, Db.list_where. cbn [fst snd].
  rewrite firstn_1_filter.
  destruct (find _ (db_bookings w)) as [booking |]; [| reflexivity].
  unfold bind at 1, getWorld. cbn [fst snd]. rewrite firstn_1_filter.
  destruct (find _ (db_showtimes w)) as [showtime |]; [| reflexivity].
  unfold bind, getWorld, BookingConfirmation.setBookingDetails, setState.
  cbn [fst snd]. rewrite !hd_error_firstn_1_filter. reflexivity.
Qed.

Lemma booking_row_after_payment (showtimeId : string) (w : World)
    (st : SeatSelection.State) (user : Principal.t) :
  me w = Some user ->
  SeatSelection.selectedSeats st <> [] ->
  let w' := fst (exec (SeatSelection.handleProceedToPayment showtimeId)
                      (w, st)) in
  let written :=
    Booking.mk (next_booking_id w) (Principal.id user) showtimeId
      (ArrayText (SeatSelection.selectedSeats st))
      (SeatSelection.calculateTotal st) "confirmed" "pending"
      ("QR_" ++ JS.show (clock w (S (ticks w))) ++ "_" ++ Principal.id user)
      false None in
  db_bookings w' = db_bookings w ++ [written]
  /\ db_showtimes w' = db_showtimes w /\ db_movies w' = db_movies w
  /\ db_theaters w' = db_theaters w
  /\ booking_row (next_booking_id w) w'
     = match booking_row (next_booking_id w) w with
       | Some earlier => Some earlier
       | None => Some written
       end.
Proof.
  intros Hme Hsel w' written.
  assert (Hlen : (length (SeatSelection.selectedSeats st) =? 0)%nat = false)
    by (destruct (SeatSelection.selectedSeats st); [congruence | reflexivity]).
  assert (Hdb : db_bookings w' = db_bookings w ++ [written]).
  { subst w'. rewrite handleProceedToPayment_run, Hme, Hlen. reflexivity. }
  split; [exact Hdb |].
  do 3 (split; [subst w'; rewrite handleProceedToPayment_run, Hme, Hlen;
                reflexivity |]).
  unfold booking_row. rewrite Hdb.
  destruct (find _ (db_bookings w)) as [earlier |] eqn:Hfind.
  - clear - Hfind. induction (db_bookings w) as [| b bs IH];
      [discriminate |].
    simpl in *. destruct (Booking.id b =? next_booking_id w);
      [assumption | now apply IH].
  - rewrite (find_app_none _ _ _ _ Hfind). cbn [find].
    subst written. cbn [Booking.id]. now rewrite String.eqb_refl.
Qed.

(** X25: after a booking is confirmed, the confirmation page opened for
    its id shows that booking, with the selected seats, the computed
    total and the date and time of its showtime, provided the showtime
    row exists and no earlier booking carries the same id. *)
Theorem confirmation_shows_the_new_booking
    (db_screens : list Screen.t) (showtimeId : string) (w : World)
    (st : SeatSelection.State) (user : Principal.t) (sh : Showtime.t)
    (Hme : me w = Some user)
    (Hsel : SeatSelection.selectedSeats st <> [])
    (Hshow : showtime_row showtimeId w = Some sh)
    (Hfresh : booking_row (next_booking_id w) w = None) :
  let w' := fst (exec (SeatSelection.handleProceedToPayment showtimeId)
                      (w, st)) in
  let page :=
    snd (exec (BookingConfirmation.fetchBookingDetails db_screens
                 (Some (next_booking_id w)))
              (w', BookingConfirmation.initial)) in
  exists details,
    BookingConfirmation.render page
    = BookingConfirmation.Ticket details (SeatSelection.selectedSeats st)
    /\ Booking.id (BookingConfirmation.booking details) = next_booking_id w
    /\ Booking.user_id (BookingConfirmation.booking details)
       = Principal.id user
    /\ Booking.total_amount (BookingConfirmation.booking details)
       = SeatSelection.calculateTotal st
    /\ Booking.booking_status (BookingConfirmation.booking details)
       = "confirmed"
    /\ BookingConfirmation.show_date details = Showtime.show_date sh
    /\ BookingConfirmation.show_time details = Showtime.show_time sh
    /\ In (Navigate ("/booking/" ++ next_booking_id w)%string) (effects w').
Proof.
  intros w' page.
  destruct (booking_row_after_payment showtimeId w st user Hme Hsel)
    as [Hdb [Hst [Hmv [Hth Hrow]]]].
  fold w' in Hdb, Hst, Hmv, Hth, Hrow. rewrite Hfresh in Hrow.
  assert (Hid : (next_booking_id w =? "") = false) by reflexivity.
  subst page. rewrite fetchBookingDetails_run, Hid, Hrow.
  cbn [Booking.showtime_id].
  assert (Hshow' : showtime_row showtimeId w' = Some sh)
    by (unfold showtime_row; rewrite Hst; exact Hshow).
  rewrite Hshow'. eexists. split; [reflexivity |].
  cbn. repeat split.
  subst w'. rewrite handleProceedToPayment_run, Hme.
  destruct (SeatSelection.selectedSeats st); [congruence |].
  cbn. apply in_or_app. right. now left.
Qed.

Lemma confirmation_sample :
  exists details,
    BookingConfirmation.render
      (snd (exec (BookingConfirmation.fetchBookingDetails
                    [Scenario.screen_one] (Some "booking_1700000000000"))
                 (fst (exec (SeatSelection.handleProceedToPayment "st1")
                            (Sample.world, Sample.picking)),
                  BookingConfirmation.initial)))
    = BookingConfirmation.Ticket details ["2-5"; "3-1"; "5-8"]
    /\ Booking.total_amount (BookingConfirmation.booking details)
       = 800%float.
Proof.
  assert (Hsel : SeatSelection.selectedSeats Sample.picking <> [])
    by discriminate.
  destruct (confirmation_shows_the_new_booking [Scenario.screen_one] "st1"
              Sample.world Sample.picking Sample.alice Sample.evening
              eq_refl Hsel eq_refl eq_refl)
    as [details [Hview [_ [_ [Htotal _]]]]].
  exists details. split; [exact Hview | rewrite Htotal; reflexivity].
Defined.

(** X26: booking ids are read back by first match: when an earlier
    booking already carries the id the new booking was given, the
    confirmation page opened after the payment shows the earlier booking
    (whoever made it) and not the one just written. *)
Theorem confirmation_shows_the_earlier_booking
    (db_screens : list Screen.t) (showtimeId : string) (w : World)
    (st : SeatSelection.State) (user : Principal.t) (earlier : Booking.t)
    (sh : Showtime.t)
    (Hme : me w = Some user)
    (Hsel : SeatSelection.selectedSeats st <> [])
    (Hearlier : booking_row (next_booking_id w) w = Some earlier)
    (Hshow : showtime_row (Booking.showtime_id earlier) w = Some sh) :
  let w' := fst (exec (SeatSelection.handleProceedToPayment showtimeId)
                      (w, st)) in
  let page :=
    snd (exec (BookingConfirmation.fetchBookingDetails db_screens
                 (Some (next_booking_id w)))
              (w', BookingConfirmation.initial)) in
  In (Navigate ("/booking/" ++ next_booking_id w)%string) (effects w')
  /\ exists details,
       BookingConfirmation.bookingDetails page = Some details
       /\ BookingConfirmation.booking details = earlier.
Proof.
  intros w' page.
  destruct (booking_row_after_payment showtimeId w st user Hme Hsel)
    as [Hdb [Hst [Hmv [Hth Hrow]]]].
  fold w' in Hdb, Hst, Hmv, Hth, Hrow. rewrite Hearlier in Hrow.
  split.
  - subst w'. rewrite handleProceedToPayment_run, Hme.
    destruct (SeatSelection.selectedSeats st); [congruence |].
    cbn. apply in_or_app. right. now left.
  - assert (Hid : (next_booking_id w =? "") = false) by reflexivity.
    subst page. rewrite fetchBookingDetails_run, Hid, Hrow.
    assert (Hshow' : showtime_row (Booking.showtime_id earlier) w' = Some sh)
      by (unfold showtime_row; rewrite Hst; exact Hshow).
    rewrite Hshow'. eexists. split; reflexivity.
Qed.

Lemma confirmation_collision_sample :
  option_map (fun d => Booking.user_id (BookingConfirmation.booking d))
    (BookingConfirmation.bookingDetails
       (snd (exec (BookingConfirmation.fetchBookingDetails
                     [Scenario.screen_one] (Some "booking_1000"))
                  (fst (exec (SeatSelection.handleProceedToPayment "st1")
                             (Scenario.world_clock_rewound, Sample.picking)),
                   BookingConfirmation.initial))))
  = Some "u1".
Proof.
  assert (Hsel : SeatSelection.selectedSeats Sample.picking <> [])
    by discriminate.
  destruct (confirmation_shows_the_earlier_booking [Scenario.screen_one]
              "st1" Scenario.world_clock_rewound Sample.picking Sample.bob
              Sample.paid Sample.evening eq_refl Hsel eq_refl eq_refl)
    as [_ [details [Hd Hb]]].
  change (next_booking_id Scenario.world_clock_rewound)
    with "booking_1000" in Hd.
  rewrite Hd. cbn. now rewrite Hb.
Defined.

(** ** The booking history *)

Lemma mapM_pure (S A B : Type) (f : A -> Async S B) (g : A -> B)
    (xs : list A) (s : S) :
  (forall x, f x s = (Returned (g x), s)) ->
  mapM f xs s = (Returned (map g xs), s).
Proof.
  intros Hf. induction xs as [| x xs IH]; [reflexivity |].
  cbn [mapM map]. unfold bind at 1. rewrite Hf.
  unfold bind at 1. rewrite IH. reflexivity.
Qed.

Lemma enrichBooking_run (w : World) (st : UserProfile.State)
    (b : Booking.t) :
  UserProfile.enrichBooking b (w, st)
  = (Returned (history_entry w b), (w, st)).
Proof.
  unfold UserProfile.enrichBooking, bind at 1, getWorld, Db.list_where.
  cbn [fst snd]. rewrite firstn_1_filter.
  unfold history_entry, showtime_row, movie_row, theater_row.
  destruct (find _ (db_showtimes w)) as [sh |]; [| reflexivity].
  unfold bind, getWorld, ret. cbn [fst snd].
  rewrite !hd_error_firstn_1_filter. reflexivity.
Qed.

Lemma fetchBookings_run (created_at : Booking.t -> N) (user : User.t)
    (w : World) (st : UserProfile.State) :
  exec (UserProfile.fetchBookings created_at user) (w, st)
  = (w, UserProfile.mkState
          (map (history_entry w)
             (Db.order_desc created_at
                (filter (fun b => Booking.user_id b =? User.id user)
                        (db_bookings w))))
          false).
Proof.
  unfold exec, UserProfile.fetchBookings, try_catch_finally, try_catch,
    bind at 1, getWorld.
  cbn [fst snd Db.list_where]. unfold bind at 1.
  rewrite (mapM_pure _ _ _ _ (history_entry w));
    [reflexivity | intros b; apply enrichBooking_run].
Qed.

(** X27: the history of a user lists that user's bookings and no one
    else's, one entry per booking row; an entry whose showtime row is
    missing is labelled 'Unknown Movie' / 'Unknown Theater' with empty
    date and time, and otherwise carries the date and time of its
    showtime; loading ends and the store is not touched. *)
Theorem history_lists_own_bookings
    (created_at : Booking.t -> N) (user : User.t) (w : World)
    (st : UserProfile.State) :
  let out := exec (UserProfile.fetchBookings created_at user) (w, st) in
  let entries := UserProfile.bookings (snd out) in
  (forall b, In b (map UserProfile.booking entries)
             <-> In b (db_bookings w) /\ Booking.user_id b = User.id user)
  /\ length entries
     = length (filter (fun b => Booking.user_id b =? User.id user)
                      (db_bookings w))
  /\ (forall e, In e entries ->
        match showtime_row (Booking.showtime_id (UserProfile.booking e)) w with
        | Some sh =>
            UserProfile.show_date e = Showtime.show_date sh
            /\ UserProfile.show_time e = Showtime.show_time sh
        | None =>
            UserProfile.movie_title e = "Unknown Movie"
            /\ UserProfile.theater_name e = "Unknown Theater"
            /\ UserProfile.show_date e = "" /\ UserProfile.show_time e = ""
        end)
  /\ UserProfile.loading (snd out) = false
  /\ fst out = w.
Proof.
  intros out entries. subst entries out. rewrite fetchBookings_run.
  cbn [fst snd UserProfile.bookings UserProfile.loading].
  assert (Hbooking : forall bs,
             map UserProfile.booking (map (history_entry w) bs) = bs).
  { intros bs. rewrite map_map. rewrite <- (map_id bs) at 2.
    apply map_ext. intros b. unfold history_entry.
    now destruct (showtime_row _ w). }
  split; [| split; [| split; [| split; reflexivity]]].
  - intros b. rewrite Hbooking, order_desc_In, filter_In, String.eqb_eq.
    reflexivity.
  - rewrite length_map. unfold Db.order_desc.
    induction (filter _ (db_bookings w)) as [| b bs IH]; [reflexivity |].
    cbn [fold_right length]. rewrite <- IH.
    generalize (fold_right (Db.insert_desc created_at) [] bs). intros l.
    induction l as [| x l IHl]; cbn; [reflexivity |].
    destruct (created_at x <? created_at b)%N; cbn; [reflexivity |].
    now rewrite IHl.
  - intros e He. apply in_map_iff in He. destruct He as [b [<- _]].
    unfold history_entry.
    destruct (showtime_row (Booking.showtime_id b) w) eqn:E; cbn;
      rewrite E; repeat split.
Qed.

(** X28: a booking that a signed-in user has just confirmed is in that
    user's history, with the selected seats and the computed total. *)
Theorem new_booking_in_history
    (created_at : Booking.t -> N) (showtimeId : string) (w : World)
    (st : SeatSelection.State) (principal : Principal.t) (user : User.t)
    (page : UserProfile.State)
    (Hme : me w = Some principal)
    (Huser : User.id user = Principal.id principal)
    (Hsel : SeatSelection.selectedSeats st <> []) :
  let w' := fst (exec (SeatSelection.handleProceedToPayment showtimeId)
                      (w, st)) in
  let entries :=
    UserProfile.bookings
      (snd (exec (UserProfile.fetchBookings created_at user) (w', page))) in
  exists e,
    In e entries
    /\ Booking.id (UserProfile.booking e) = next_booking_id w
    /\ Booking.showtime_id (UserProfile.booking e) = showtimeId
    /\ seat_list (UserProfile.booking e) = SeatSelection.selectedSeats st
    /\ Booking.total_amount (UserProfile.booking e)
       = SeatSelection.calculateTotal st.
Proof.
  intros w' entries.
  destruct (booking_row_after_payment showtimeId w st principal Hme Hsel)
    as [Hdb _].
  fold w' in Hdb. subst entries. rewrite fetchBookings_run.
  cbn [snd UserProfile.bookings].
  eexists (history_entry w' _). split.
  - apply in_map. apply order_desc_In. apply filter_In. split.
    + rewrite Hdb. apply in_or_app. right. left. reflexivity.
    + cbn [Booking.user_id]. rewrite Huser. apply String.eqb_refl.
  - unfold history_entry. destruct (showtime_row _ w'); cbn; repeat split.
Qed.

Lemma new_booking_in_history_sample :
  exists e,
    In e (UserProfile.bookings
            (snd (exec (UserProfile.fetchBookings (fun _ => 0%N)
                          Sample.alice_user)
                       (fst (exec (SeatSelection.handleProceedToPayment "st1")
                                  (Sample.world, Sample.picking)),
                        UserProfile.initial))))
    /\ seat_list (UserProfile.booking e) = ["2-5"; "3-1"; "5-8"].
Proof.
  assert (Hsel : SeatSelection.selectedSeats Sample.picking <> [])
    by discriminate.
  destruct (new_booking_in_history (fun _ => 0%N) "st1" Sample.world
              Sample.picking Sample.alice Sample.alice_user
              UserProfile.initial eq_refl eq_refl Hsel)
    as [e [Hin [_ [_ [Hseats _]]]]].
  exists e. split; [exact Hin | exact Hseats].
Defined.

(** ** Showtimes grouped by theater *)

Lemma has_key_In (key : string) (acc : list (string * MovieDetails.Group)) :
  MovieDetails.has_key key acc = true <-> In key (map fst acc).
Proof.
  unfold MovieDetails.has_key. rewrite existsb_exists, in_map_iff. split.
  - intros [e [He E]]. apply String.eqb_eq in E. now exists e.
  - intros [e [E He]]. exists e. split; [assumption |].
    now apply String.eqb_eq.
Qed.

Lemma keys_push (key : string) (x : MovieDetails.Show)
    (acc : list (string * MovieDetails.Group)) :
  map fst (MovieDetails.push key x acc) = map fst acc.
Proof.
  unfold MovieDetails.push. rewrite map_map. apply map_ext.
  intros e. now destruct (fst e =? key).
Qed.

Lemma In_push (key : string) (x : MovieDetails.Show)
    (acc : list (string * MovieDetails.Group)) (k : string)
    (g' : MovieDetails.Group) :
  In (k, g') (MovieDetails.push key x acc)
  <-> exists g, In (k, g) acc
                /\ g' = if k =? key
                        then MovieDetails.mkGroup (MovieDetails.theater g)
                               (MovieDetails.location g)
                               (MovieDetails.shows g ++ [x])
                        else g.
Proof.
  unfold MovieDetails.push. rewrite in_map_iff. split.
  - intros [[k0 g0] [E Hin]]. cbn [fst snd] in E.
    destruct (k0 =? key) eqn:Ek; injection E as <- <-; exists g0;
      rewrite Ek; auto.
  - intros [g [Hin ->]]. exists (k, g). cbn [fst snd].
    split; [| assumption]. now destruct (k =? key).
Qed.

Lemma filter_none_matching (A : Type) (p : A -> bool) (xs : list A) :
  (forall x, In x xs -> p x = false) -> filter p xs = [].
Proof.
  induction xs as [| x xs IH]; intros H; [reflexivity |].
  simpl. rewrite (H x (or_introl eq_refl)). apply IH.
  intros y Hy. apply H. now right.
Qed.

Lemma grouped_step (seen : list MovieDetails.Show) (x : MovieDetails.Show)
    (acc : list (string * MovieDetails.Group)) :
  grouped_so_far seen acc ->
  grouped_so_far (seen ++ [x])
    (MovieDetails.push (MovieDetails.key_of x) x
       (if MovieDetails.has_key (MovieDetails.key_of x) acc then acc
        else acc ++ [(MovieDetails.key_of x,
                      MovieDetails.mkGroup (MovieDetails.theater_name x)
                        (MovieDetails.theater_location x) [])])).
Proof.
  intros [Hnd [Hgroups Hkeys]]. set (key := MovieDetails.key_of x).
  assert (Hfilter : forall k,
             filter (fun s => MovieDetails.key_of s =? k) (seen ++ [x])
             = filter (fun s => MovieDetails.key_of s =? k) seen
               ++ (if k =? key then [x] else [])).
  { intros k. rewrite filter_app. cbn [filter]. fold key.
    rewrite (String.eqb_sym key k). now destruct (k =? key). }
  destruct (MovieDetails.has_key key acc) eqn:Hhas.
  - split; [now rewrite keys_push |]. split.
    + intros k g' Hin. apply In_push in Hin. destruct Hin as [g [Hin ->]].
      destruct (Hgroups k g Hin) as [Hshows [first [rest [E [Ht Hl]]]]].
      rewrite Hfilter. destruct (k =? key); cbn.
      * split; [now rewrite Hshows |].
        exists first, (rest ++ [x]). rewrite E. auto.
      * rewrite app_nil_r. split; [assumption |]. now exists first, rest.
    + intros s Hs. rewrite keys_push. apply in_app_or in Hs.
      destruct Hs as [Hs | [<- | []]]; [now apply Hkeys |].
      now apply has_key_In.
  - assert (Hnew : ~ In key (map fst acc)).
    { intros H. apply has_key_In in H. congruence. }
    split; [| split].
    + rewrite keys_push, map_app. cbn [map fst].
      apply NoDup_app; [assumption | repeat constructor; intros [] |].
      intros a Ha [<- | []]. contradiction.
    + intros k g' Hin. apply In_push in Hin. destruct Hin as [g [Hin ->]].
      rewrite Hfilter. apply in_app_or in Hin.
      destruct Hin as [Hin | [E | []]].
      * destruct (Hgroups k g Hin) as [Hshows [first [rest [E [Ht Hl]]]]].
        assert (Hk : (k =? key) = false).
        { apply String.eqb_neq. intros ->. apply Hnew.
          apply in_map_iff. now exists (key, g). }
        rewrite Hk, app_nil_r. split; [assumption |]. now exists first, rest.
      * injection E as <- <-. rewrite String.eqb_refl. cbn.
        rewrite filter_none_matching.
        -- split; [reflexivity |]. now exists x, [].
        -- intros s Hs. apply String.eqb_neq. intros E. apply Hnew.
           fold key. rewrite <- E. now apply Hkeys.
    + intros s Hs. rewrite keys_push, map_app. apply in_or_app.
      apply in_app_or in Hs. destruct Hs as [Hs | [<- | []]].
      * left. now apply Hkeys.
      * right. now left.
Qed.

Lemma grouped_from (xs seen : list MovieDetails.Show)
    (acc : list (string * MovieDetails.Group)) :
  grouped_so_far seen acc ->
  grouped_so_far (seen ++ xs)
    (fold_left
       (fun acc showtime =>
          let key := MovieDetails.key_of showtime in
          let acc :=
            if MovieDetails.has_key key acc then acc
            else acc ++ [(key, MovieDetails.mkGroup
                                 (MovieDetails.theater_name showtime)
                                 (MovieDetails.theater_location showtime) [])] in
          MovieDetails.push key showtime acc)
       xs acc).
Proof.
  revert seen acc. induction xs as [| x xs IH]; intros seen acc H.
  - now rewrite app_nil_r.
  - cbn [fold_left]. cbv zeta.
    replace (seen ++ x :: xs) with ((seen ++ [x]) ++ xs)
      by now rewrite <- app_assoc.
    apply IH. now apply grouped_step.
Qed.

(** X29: grouping puts every showtime of the list under exactly one
    theater heading, the one of its key `name-location`: keys are
    distinct, a group holds precisely the showtimes of its key in their
    order and is headed by the theater name and location of its first
    showtime; showtimes with the same key share a group whatever theater
    they belong to. *)
Theorem showtimes_grouped_by_key (showtimes : list MovieDetails.Show) :
  let groups := MovieDetails.groupedShowtimes showtimes in
  NoDup (map fst groups)
  /\ (forall k g, In (k, g) groups ->
        MovieDetails.shows g
        = filter (fun s => MovieDetails.key_of s =? k) showtimes
        /\ exists first rest,
             MovieDetails.shows g = first :: rest
             /\ MovieDetails.theater g = MovieDetails.theater_name first
             /\ MovieDetails.location g
                = MovieDetails.theater_location first)
  /\ (forall s, In s showtimes ->
        exists g, In (MovieDetails.key_of s, g) groups
                  /\ In s (MovieDetails.shows g))
  /\ (forall s1 s2, In s1 showtimes -> In s2 showtimes ->
        MovieDetails.key_of s1 = MovieDetails.key_of s2 ->
        exists k g, In (k, g) groups
                    /\ In s1 (MovieDetails.shows g)
                    /\ In s2 (MovieDetails.shows g)).
Proof.
  intros groups.
  assert (H : grouped_so_far showtimes groups).
  { apply (grouped_from showtimes [] []). repeat split.
    - constructor.
    - destruct H.
    - destruct H.
    - intros s []. }
  destruct H as [Hnd [Hgroups Hkeys]].
  assert (Hmember : forall s, In s showtimes ->
             exists g, In (MovieDetails.key_of s, g) groups
                       /\ In s (MovieDetails.shows g)).
  { intros s Hs. pose proof (Hkeys s Hs) as Hk. apply in_map_iff in Hk.
    destruct Hk as [[k g] [E Hin]]. cbn [fst] in E. subst k.
    exists g. split; [assumption |].
    rewrite (proj1 (Hgroups _ _ Hin)). apply filter_In.
    split; [assumption | apply String.eqb_refl]. }
  split; [assumption |]. split; [assumption |]. split; [assumption |].
  intros s1 s2 H1 H2 E. destruct (Hmember s1 H1) as [g [Hin Hs1]].
  exists (MovieDetails.key_of s1), g. split; [assumption |].
  split; [assumption |].
  rewrite (proj1 (Hgroups _ _ Hin)). apply filter_In.
  split; [assumption |]. rewrite E. apply String.eqb_refl.
Qed.

Lemma enrichShowtime_run (db_screens : list Screen.t) (w : World)
    (st : MovieDetails.State) (s : Showtime.t) :
  MovieDetails.enrichShowtime db_screens s (w, st)
  = (Returned (listed_show db_screens w s), (w, st)).
Proof.
  unfold MovieDetails.enrichShowtime, bind, getWorld, ret, Db.list_where,
    listed_show, theater_row, screen_row.
  cbn [fst snd]. rewrite !hd_error_firstn_1_filter. reflexivity.
Qed.

Lemma fetchShowtimes_run (db_screens : list Screen.t) (id selectedDate : string)
    (w : World) (st : MovieDetails.State) :
  exec (MovieDetails.fetchShowtimes db_screens id selectedDate) (w, st)
  = (w, MovieDetails.mkState
          (map (listed_show db_screens w)
             (Catalog.order_asc Showtime.show_time
                (filter (on_programme id selectedDate) (db_showtimes w))))
          false).
Proof.
  unfold exec, MovieDetails.fetchShowtimes, try_catch_finally, try_catch,
    bind at 1, getWorld.
  cbn [fst snd]. unfold bind at 1.
  rewrite (mapM_pure _ _ _ _ (listed_show db_screens w));
    [reflexivity | intros s; apply enrichShowtime_run].
Qed.

(** X30: the movie page lists the showtimes of that movie on the selected
    date and no others; a showtime whose theater row is missing is
    listed under 'Unknown Theater' / 'Unknown Location', so all such
    showtimes carry one and the same group key; loading ends and the
    store is not touched. *)
Theorem programme_of_the_day
    (db_screens : list Screen.t) (id selectedDate : string) (w : World)
    (st : MovieDetails.State) :
  let out := exec (MovieDetails.fetchShowtimes db_screens id selectedDate)
                  (w, st) in
  let listed := MovieDetails.showtimes (snd out) in
  (forall s, In s (map MovieDetails.showtime listed)
             <-> In s (db_showtimes w)
                 /\ Showtime.movie_id s = id
                 /\ Showtime.show_date s = selectedDate)
  /\ (forall e, In e listed ->
        theater_row (MovieDetails.showtime e) w = None ->
        MovieDetails.theater_name e = "Unknown Theater"
        /\ MovieDetails.theater_location e = "Unknown Location"
        /\ MovieDetails.key_of e = "Unknown Theater-Unknown Location")
  /\ (forall e t, In e listed ->
        theater_row (MovieDetails.showtime e) w = Some t ->
        Theater.name t <> "" ->
        MovieDetails.theater_name e = Theater.name t)
  /\ MovieDetails.loading (snd out) = false
  /\ fst out = w.
Proof.
  intros out listed. subst listed out. rewrite fetchShowtimes_run.
  cbn [fst snd MovieDetails.showtimes MovieDetails.loading].
  split; [| split; [| split; [| split; reflexivity]]].
  - intros s. rewrite map_map. cbn [listed_show MovieDetails.showtime].
    rewrite map_id, order_asc_In, filter_In. unfold on_programme.
    rewrite andb_true_iff, !String.eqb_eq. reflexivity.
  - intros e He Hrow. apply in_map_iff in He. destruct He as [s [<- _]].
    cbn [listed_show MovieDetails.showtime] in Hrow.
    unfold MovieDetails.key_of, listed_show.
    cbn [MovieDetails.theater_name MovieDetails.theater_location].
    rewrite Hrow. repeat split.
  - intros e t He Hrow Hname. apply in_map_iff in He.
    destruct He as [s [<- _]].
    cbn [listed_show MovieDetails.showtime] in Hrow.
    unfold listed_show. cbn [MovieDetails.theater_name].
    rewrite Hrow. cbn. apply String.eqb_neq in Hname. now rewrite Hname.
Qed.
